(** * BotFootball: subscription ledger, payment links and odds matcher

    A shallow embedding of [database_service.py] and [match_service.py],
    and of the functions of [main.py] that decide over them.

    - Instants ([datetime.utcnow()], DateTime columns) are integers counting
      microseconds, the resolution of Python's [datetime]; the year-9999
      bound of [datetime] is not modelled.
    - Float columns and prices are IEEE binary64 numbers, as Python's
      [float].
    - The persisted store is a record of four tables; every method of
      [DatabaseService] is a computation over it that may raise.
    - Each [async with self.async_session() as session] block opens a
      session of its own.  The part of the ORM contract the methods rely on
      is modelled explicitly: which session an instance belongs to, what a
      commit writes, and when a refresh is accepted.
    - The feed is Python's image of a JSON document; the body of
      [check_for_matches_with_target_odds] is followed operation by
      operation, with the exception each operation raises on a value of the
      wrong shape. *)

From Stdlib Require Import ZArith Ascii String List Bool Lia.
From Stdlib Require Import PrimFloat FloatOps SpecFloat.
From stdpp Require Import base list strings.

Set Warnings "-inexact-float,-register-all".

Local Open Scope string_scope.
Local Open Scope list_scope.
Local Open Scope Z_scope.

(** ** Python results *)

Inductive exn : Type :=
| InvalidRequestError   (* sqlalchemy.exc: instance not persistent in session *)
| TypeError
| AttributeError
| KeyError
| IndexError
| ValueError
| OverflowError.

Inductive outcome (A : Type) : Type :=
| Return (a : A)
| Raise (e : exn).

Arguments Return {A} a.
Arguments Raise {A} e.

(** ** Time *)

Definition datetime : Type := Z.

Definition microseconds_per_second : Z := 1000000.
Definition timedelta_minutes (n : Z) : Z := n * 60 * microseconds_per_second.
Definition timedelta_days (n : Z) : Z := n * 86400 * microseconds_per_second.
Definition timedelta_weeks (n : Z) : Z := timedelta_days (7 * n).

(** ** Rows of the four mapped classes

    [models.py], which declares the mapped classes, is not among the
    sources.  The records below have the columns the methods of
    [database_service.py] read and write, which are also the columns of the
    declarations that file keeps, commented out, next to its import of
    [models].

    A table is the list of its rows in primary-key order.  Primary keys are
    the autoincrement integers 1, 2, ... and no method deletes a row, so the
    row at position [k] has [id = k + 1]: the [id] column is the position of
    the row rather than a stored field. *)

Module User.
(** Modelled from the spec: class [User] of [models.py] (data model, User:
    external id, display fields, registration instant, remaining
    trial-quota). *)
Record t : Type := mk {
  telegram_id : Z;
  username : option string;
  first_name : option string;
  last_name : option string;
  registration_date : datetime;
  trial_messages_left : Z
}.

Definition set_trial_messages_left (v : Z) (u : t) : t :=
  mk (telegram_id u) (username u) (first_name u) (last_name u)
     (registration_date u) v.
End User.

Module Subscription.
(** Modelled from the spec: class [Subscription] of [models.py] (data
    model, Subscription: owning user, start and end instant, plan kind,
    cumulative amount paid, last payment reference). *)
Record t : Type := mk {
  user_id : Z;
  start_date : datetime;
  end_date : datetime;
  subscription_type : string;
  price_paid : float;
  payment_id : string
}.

Definition set_end_date (v : datetime) (s : t) : t :=
  mk (user_id s) (start_date s) v (subscription_type s) (price_paid s)
     (payment_id s).
Definition set_subscription_type (v : string) (s : t) : t :=
  mk (user_id s) (start_date s) (end_date s) v (price_paid s) (payment_id s).
Definition set_price_paid (v : float) (s : t) : t :=
  mk (user_id s) (start_date s) (end_date s) (subscription_type s) v
     (payment_id s).
Definition set_payment_id (v : string) (s : t) : t :=
  mk (user_id s) (start_date s) (end_date s) (subscription_type s)
     (price_paid s) v.
End Subscription.

Module PaymentLink.
(** Modelled from the spec: class [PaymentLink] of [models.py] (data model,
    PaymentLink: owning user id, redeemable token, requested plan kind,
    amount, creation instant, settled flag, false when created). *)
Record t : Type := mk {
  telegram_user_id : Z;
  unique_id : string;
  subscription_type : string;
  amount : float;
  created_at : datetime;
  paid : bool
}.

Definition set_paid (v : bool) (p : t) : t :=
  mk (telegram_user_id p) (unique_id p) (subscription_type p) (amount p)
     (created_at p) v.
End PaymentLink.

Module Match.
(** Modelled from the spec: class [Match] of [models.py] (data model, Match:
    two team names, competition, kickoff instant, three prices, notified
    flag, false when created, optional link). *)
Record t : Type := mk {
  home_team : string;
  away_team : string;
  competition : string;
  match_time : datetime;
  odds_1 : float;
  odds_x : float;
  odds_2 : float;
  notification_sent : bool;
  match_url : option string
}.

Definition set_notification_sent (v : bool) (m : t) : t :=
  mk (home_team m) (away_team m) (competition m) (match_time m) (odds_1 m)
     (odds_x m) (odds_2 m) v (match_url m).
End Match.

Record DB : Type := mkDB {
  users : list User.t;
  subscriptions : list Subscription.t;
  payment_links : list PaymentLink.t;
  matches : list Match.t
}.

Definition empty_db : DB := mkDB [] [] [] [].

(** The [id] of the row at position [k]. *)
Definition row_id (k : nat) : Z := Z.of_nat (S k).

(** ** The ORM contract

    The sessions come from [sessionmaker(self.engine, expire_on_commit=False,
    class_=AsyncSession)].  What the methods rely on:
    - a query returns instances attached to the session that ran it;
    - leaving the [async with] block closes the session, and the instances
      it held, among them the one a method returns, are detached: they keep
      their attribute values and belong to no session;
    - assigning to an attribute changes the instance; [commit] writes the
      new and changed instances of the committing session, and nothing
      else;
    - [refresh] reloads an instance that is persistent in the session it is
      called on and raises [InvalidRequestError] for any other.

    A mapped instance records the session it is attached to ([owner]) and,
    once it has been flushed or loaded, the row it stands for ([key]):
    - transient: [owner = None], [key = None] (just constructed);
    - pending: [owner = Some s], [key = None] (after [s.add]);
    - persistent: [owner = Some s], [key = Some k] (loaded or flushed by [s]);
    - detached: [owner = None], [key = Some k] (its session was closed). *)

Record Mapped (Row : Type) : Type := mkMapped {
  owner : option nat;
  key : option nat;
  state : Row
}.

Arguments mkMapped {Row} owner key state.
Arguments owner {Row} m.
Arguments key {Row} m.
Arguments state {Row} m.

Record World : Type := mkWorld {
  db : DB;
  sessions : nat        (* number of sessions opened so far *)
}.

Definition M (A : Type) : Type := World -> outcome A * World.

Definition ret {A : Type} (a : A) : M A := fun w => (Return a, w).

Definition raise {A : Type} (e : exn) : M A := fun w => (Raise e, w).

Definition bind {A B : Type} (m : M A) (k : A -> M B) : M B :=
  fun w =>
    match m w with
    | (Return a, w') => k a w'
    | (Raise e, w') => (Raise e, w')
    end.

Declare Scope orm_scope.
Delimit Scope orm_scope with orm.
Notation "'call' x <- m ; k" := (bind m (fun x => k))
  (at level 10, x name, m at level 100, k at level 200) : orm_scope.
Local Open Scope orm_scope.

(** A mapped class: where its table lives in the store. *)
Record Table (Row : Type) : Type := mkTable {
  rows : DB -> list Row;
  store : list Row -> DB -> DB
}.

Arguments mkTable {Row} rows store.
Arguments rows {Row} t d.
Arguments store {Row} t l d.

Definition Users : Table User.t :=
  mkTable users
    (fun l d => mkDB l (subscriptions d) (payment_links d) (matches d)).
Definition Subscriptions : Table Subscription.t :=
  mkTable subscriptions
    (fun l d => mkDB (users d) l (payment_links d) (matches d)).
Definition PaymentLinks : Table PaymentLink.t :=
  mkTable payment_links
    (fun l d => mkDB (users d) (subscriptions d) l (matches d)).
Definition Matches : Table Match.t :=
  mkTable matches
    (fun l d => mkDB (users d) (subscriptions d) (payment_links d) l).

Section Orm.
Context {Row : Type}.

Definition transient (r : Row) : Mapped Row := mkMapped None None r.

Definition loaded (session k : nat) (r : Row) : Mapped Row :=
  mkMapped (Some session) (Some k) r.

(** Attribute assignment [o.attr = v]. *)
Definition setattr (f : Row -> Row) (o : Mapped Row) : Mapped Row :=
  mkMapped (owner o) (key o) (f (state o)).

(** What closing a session does to the instances it held. *)
Definition detach (o : Mapped Row) : Mapped Row :=
  mkMapped None (key o) (state o).

Definition attached (session : nat) (o : Mapped Row) : bool :=
  match owner o with
  | Some s => Nat.eqb s session
  | None => false
  end.

(** The rows of [l] that satisfy [p], as instances of [session]; [p] sees
    the [id] of a row and the row, [k] is the position of the head of [l]. *)
Fixpoint select_from (session k : nat) (p : Z -> Row -> bool)
    (l : list Row) : list (Mapped Row) :=
  match l with
  | [] => []
  | r :: l' =>
      if p (row_id k) r
      then loaded session k r :: select_from session (S k) p l'
      else select_from session (S k) p l'
  end.

(** [async with self.async_session() as session]. *)
Definition async_session : M nat :=
  fun w => (Return (sessions w), mkWorld (db w) (S (sessions w))).

(** [session.execute(select(T).where(p))], in primary-key order. *)
Definition select (T : Table Row) (session : nat) (p : Z -> Row -> bool)
    : M (list (Mapped Row)) :=
  fun w => (Return (select_from session 0 p (rows T (db w))), w).

(** [result.scalars().first()]. *)
Definition first (result : list (Mapped Row)) : option (Mapped Row) :=
  head result.

(** [session.add(o)] for a freshly constructed [o]. *)
Definition add (session : nat) (o : Mapped Row) : Mapped Row :=
  mkMapped (Some session) (key o) (state o).

(** What a flush of [session] does with instance [o]: an instance of
    another session, or of none, is not part of this unit of work. *)
Definition flush (session : nat) (o : Mapped Row) (tbl : list Row)
    : list Row * Mapped Row :=
  if attached session o then
    match key o with
    | Some k => (<[k := state o]> tbl, o)
    | None =>
        (tbl ++ [state o],
         mkMapped (owner o) (Some (length tbl)) (state o))
    end
  else (tbl, o).

(** [session.commit()].  In every method at most one instance is ever
    created or assigned to; it is handed over as [o], and it is written
    only if the committing session is the one that owns it. *)
Definition commit (T : Table Row) (session : nat) (o : Mapped Row)
    : M (Mapped Row) :=
  fun w =>
    let '(tbl, o') := flush session o (rows T (db w)) in
    (Return o', mkWorld (store T tbl (db w)) (sessions w)).

(** [session.refresh(o)]: reloads a persistent instance of this session;
    [Session.refresh] rejects any other instance with
    [InvalidRequestError] (not persistent within this Session). *)
Definition refresh (T : Table Row) (session : nat) (o : Mapped Row)
    : M (Mapped Row) :=
  fun w =>
    if attached session o then
      match key o with
      | Some k =>
          match rows T (db w) !! k with
          | Some r => (Return (mkMapped (owner o) (key o) r), w)
          | None => (Raise InvalidRequestError, w)
          end
      | None => (Raise InvalidRequestError, w)
      end
    else (Raise InvalidRequestError, w).
End Orm.

(** ** database_service.py: class DatabaseService

    Every [datetime.utcnow()] of a method is an argument of its model, in
    the order the method reads the clock; [uuid4().hex[:10]] is an argument
    as well.  [lower] is the engine's [lower()] and [round] its [round()]. *)

Module DatabaseService.
Section Engine.
Variable lower : string -> string.
Variable round : float -> Z -> float.

Definition get_user_by_telegram_id (telegram_id : Z)
    : M (option (Mapped User.t)) :=
  call session <- async_session ;
  call result <- select Users session
    (fun _ u => User.telegram_id u =? telegram_id) ;
  ret (option_map detach (first result)).

Definition get_or_create_user (now : datetime) (telegram_id : Z)
    (username first_name last_name : option string)
    : M (Mapped User.t) :=
  call session <- async_session ;
  call user <- get_user_by_telegram_id telegram_id ;
  match user with
  | Some user => ret user
  | None =>
      let user :=
        transient (User.mk telegram_id username first_name last_name now 3) in
      let user := add session user in
      call user <- commit Users session user ;
      call user <- refresh Users session user ;
      ret (detach user)
  end.

Definition decrement_trial_message (user_id : Z) : M Z :=
  call session <- async_session ;
  call result <- select Users session (fun id _ => id =? user_id) ;
  match first result with
  | Some user =>
      if 0 <? User.trial_messages_left (state user) then
        let user :=
          setattr (fun u => User.set_trial_messages_left
                              (User.trial_messages_left u - 1) u) user in
        call user <- commit Users session user ;
        ret (User.trial_messages_left (state user))
      else ret 0
  | None => ret 0
  end.

Definition get_active_subscription (now : datetime) (user_id : Z)
    : M (option (Mapped Subscription.t)) :=
  call session <- async_session ;
  call result <- select Subscriptions session
    (fun _ s => (Subscription.user_id s =? user_id)
                && (now <=? Subscription.end_date s)) ;
  ret (option_map detach (first result)).

Definition create_payment_link (unique_id : string) (now : datetime)
    (telegram_user_id : Z) (subscription_type : string) (amount : float)
    : M (Mapped PaymentLink.t) :=
  call session <- async_session ;
  let payment_link :=
    transient (PaymentLink.mk telegram_user_id unique_id subscription_type
                 amount now false) in
  let payment_link := add session payment_link in
  call payment_link <- commit PaymentLinks session payment_link ;
  call payment_link <- refresh PaymentLinks session payment_link ;
  ret (detach payment_link).

Definition get_payment_link (unique_id : string)
    : M (option (Mapped PaymentLink.t)) :=
  call session <- async_session ;
  call result <- select PaymentLinks session
    (fun _ p => String.eqb (PaymentLink.unique_id p) unique_id) ;
  ret (option_map detach (first result)).

Definition mark_payment_as_paid (unique_id : string)
    : M (option (Mapped PaymentLink.t)) :=
  call session <- async_session ;
  call payment_link <- select PaymentLinks session
    (fun _ p => String.eqb (PaymentLink.unique_id p) unique_id) ;
  match first payment_link with
  | Some payment_link =>
      if negb (PaymentLink.paid (state payment_link)) then
        let payment_link := setattr (PaymentLink.set_paid true) payment_link in
        call payment_link <- commit PaymentLinks session payment_link ;
        ret (Some (detach payment_link))
      else ret None
  | None => ret None
  end.

(** The [if]/[elif] chain of [create_subscription]. *)
Definition paid_duration (subscription_type : string) : Z :=
  if String.eqb subscription_type "week" then timedelta_weeks 1
  else if String.eqb subscription_type "two_weeks" then timedelta_weeks 2
  else if String.eqb subscription_type "month" then timedelta_days 31
  else timedelta_weeks 1 (* Default to 1 week *).

(** The assignments of the renewal branch of [create_subscription]. *)
Definition extend_paid (now : datetime) (duration : Z) (amount : float)
    (payment_id : string) (existing_subscription : Mapped Subscription.t)
    : Mapped Subscription.t :=
  let base_date :=
    Z.max now (Subscription.end_date (state existing_subscription)) in
  let existing_subscription :=
    setattr (Subscription.set_end_date (base_date + duration))
      existing_subscription in
  let existing_subscription :=
    setattr (fun s => Subscription.set_price_paid
                        (Subscription.price_paid s + amount)%float s)
      existing_subscription in
  let existing_subscription :=
    setattr (Subscription.set_payment_id payment_id) existing_subscription in
  existing_subscription.

Definition create_subscription (now now_query : datetime) (user_id : Z)
    (subscription_type : string) (amount : float) (payment_id : string)
    : M (Mapped Subscription.t * bool) :=
  call session <- async_session ;
  let duration := paid_duration subscription_type in
  call existing_subscription <- get_active_subscription now_query user_id ;
  match existing_subscription with
  | Some existing_subscription =>
      let subscription :=
        extend_paid now duration amount payment_id existing_subscription in
      let is_renewal := true in
      call subscription <- commit Subscriptions session subscription ;
      call subscription <- refresh Subscriptions session subscription ;
      ret (detach subscription, is_renewal)
  | None =>
      let end_date := now + duration in
      let subscription :=
        transient (Subscription.mk user_id now end_date subscription_type
                     amount payment_id) in
      let subscription := add session subscription in
      let is_renewal := false in
      call subscription <- commit Subscriptions session subscription ;
      call subscription <- refresh Subscriptions session subscription ;
      ret (detach subscription, is_renewal)
  end.

(** The user whose [username] equals the given one up to [lower]; a NULL
    username equals nothing. *)
Definition username_is (username : string) (_ : Z) (u : User.t) : bool :=
  match User.username u with
  | Some n => String.eqb (lower n) (lower username)
  | None => false
  end.

(** [user.id] of a loaded user. *)
Definition instance_id {Row : Type} (o : Mapped Row) : Z :=
  match key o with
  | Some k => row_id k
  | None => 0
  end.

(** The [if]/[elif] chain of [admin_create_subscription]: duration and
    price, [None] where the method returns [None]. *)
Definition admin_plan (subscription_type : string) : option (Z * float) :=
  if String.eqb subscription_type "week"
  then Some (timedelta_days 7, 650%float)
  else if String.eqb subscription_type "two_weeks"
  then Some (timedelta_days 14, 1300%float)
  else if String.eqb subscription_type "month"
  then Some (timedelta_days 30, 2500%float)
  else None (* Unknown subscription type *).

(** The assignments of the renewal branch of
    [admin_create_subscription]. *)
Definition extend_admin (now : datetime) (duration : Z) (price : float)
    (subscription_type payment_id : string)
    (existing_subscription : Mapped Subscription.t)
    : Mapped Subscription.t :=
  let base_date :=
    Z.max now (Subscription.end_date (state existing_subscription)) in
  let existing_subscription :=
    setattr (Subscription.set_end_date (base_date + duration))
      existing_subscription in
  let existing_subscription :=
    setattr (fun s => Subscription.set_price_paid
                        (Subscription.price_paid s + price)%float s)
      existing_subscription in
  let existing_subscription :=
    setattr (Subscription.set_subscription_type subscription_type)
      existing_subscription in
  let existing_subscription :=
    setattr (Subscription.set_payment_id payment_id) existing_subscription in
  existing_subscription.

Definition admin_create_subscription (now now_query : datetime)
    (uuid : string) (username subscription_type : string)
    : M (option (Mapped Subscription.t * Z * bool)) :=
  call session <- async_session ;
  call user_result <- select Users session (username_is username) ;
  match first user_result with
  | None => ret None
  | Some user =>
      match admin_plan subscription_type with
      | None => ret None
      | Some (duration, price) =>
          call existing_subscription <-
            get_active_subscription now_query (instance_id user) ;
          match existing_subscription with
          | Some existing_subscription =>
              let subscription :=
                extend_admin now duration price subscription_type
                  ("admin_" ++ uuid)%string existing_subscription in
              let is_renewal := true in
              call subscription <- commit Subscriptions session subscription ;
              call subscription <- refresh Subscriptions session subscription ;
              ret (Some (detach subscription,
                         User.telegram_id (state user), is_renewal))
          | None =>
              let end_date := now + duration in
              let subscription :=
                transient (Subscription.mk (instance_id user) now end_date
                             subscription_type price
                             ("admin_" ++ uuid)%string) in
              let subscription := add session subscription in
              let is_renewal := false in
              call subscription <- commit Subscriptions session subscription ;
              call subscription <- refresh Subscriptions session subscription ;
              ret (Some (detach subscription,
                         User.telegram_id (state user), is_renewal))
          end
      end
  end.

Definition revoke_subscription (now_query now : datetime) (username : string)
    : M (option Z) :=
  call session <- async_session ;
  call user_result <- select Users session (username_is username) ;
  match first user_result with
  | None => ret None
  | Some user =>
      call subscription_result <- select Subscriptions session
        (fun _ s => (Subscription.user_id s =? instance_id user)
                    && (now_query <=? Subscription.end_date s)) ;
      match first subscription_result with
      | None => ret None
      | Some subscription =>
          let subscription :=
            setattr (Subscription.set_end_date (now - timedelta_minutes 1))
              subscription in
          call subscription <- commit Subscriptions session subscription ;
          ret (Some (User.telegram_id (state user)))
      end
  end.

Definition add_match (home_team away_team competition : string)
    (match_time : datetime) (odds_1 odds_x odds_2 : float)
    (match_url : option string) : M (Mapped Match.t) :=
  call session <- async_session ;
  let match_ :=
    transient (Match.mk home_team away_team competition match_time odds_1
                 odds_x odds_2 false match_url) in
  let match_ := add session match_ in
  call match_ <- commit Matches session match_ ;
  call match_ <- refresh Matches session match_ ;
  ret (detach match_).

Definition target_odds (now1 now2 : datetime) (_ : Z) (m : Match.t) : bool :=
  ((round (Match.odds_1 m) 2 =? 4.25)%float
   && (round (Match.odds_2 m) 3 =? 1.225)%float
   && negb (Match.notification_sent m)
   && (now1 <=? Match.match_time m))
  || ((round (Match.odds_1 m) 2 =? 4.22)%float
      && (round (Match.odds_2 m) 3 =? 1.225)%float
      && negb (Match.notification_sent m)
      && (now2 <=? Match.match_time m)).

Definition get_matches_with_target_odds (now1 now2 : datetime)
    : M (list (Mapped Match.t)) :=
  call session <- async_session ;
  call result <- select Matches session (target_odds now1 now2) ;
  ret (map detach result).

Definition mark_match_as_notified (match_id : Z) : M unit :=
  call session <- async_session ;
  call result <- select Matches session (fun id _ => id =? match_id) ;
  match first result with
  | Some match_ =>
      let match_ := setattr (Match.set_notification_sent true) match_ in
      call match_ <- commit Matches session match_ ;
      ret tt
  | None => ret tt
  end.

Definition has_active_subscription (now : datetime) (user_id : Z) : M bool :=
  call session <- async_session ;
  call result <- select Subscriptions session
    (fun _ s => (Subscription.user_id s =? user_id)
                && (now <=? Subscription.end_date s)) ;
  ret (match first result with
       | Some _ => true     (* [first() is not None] *)
       | None => false
       end).
End Engine.
End DatabaseService.

(** ** Feed payloads

    What [resp.json()] returns: Python's image of a JSON document.  An
    object is a [dict]; its keys are pairwise distinct and listed in
    insertion order.  A string is the sequence of its bytes, which is the
    sequence of its characters for ASCII text. *)

Inductive json : Type :=
| JNull
| JBool (b : bool)
| JInt (n : Z)
| JFloat (x : float)
| JStr (s : string)
| JArr (l : list json)
| JObj (kvs : list (string * json)).

Module Py.
(** [bool(v)]. *)
Definition truthy (v : json) : bool :=
  match v with
  | JNull => false
  | JBool b => b
  | JInt n => negb (n =? 0)
  | JFloat x => negb (x =? 0)%float
  | JStr s => negb (String.eqb s "")
  | JArr l => negb (Nat.eqb (length l) 0)
  | JObj kvs => negb (Nat.eqb (length kvs) 0)
  end.

Fixpoint lookup_key (k : string) (kvs : list (string * json)) : option json :=
  match kvs with
  | [] => None
  | (k', v) :: rest => if String.eqb k' k then Some v else lookup_key k rest
  end.

(** [v.get(k, default)]: only a [dict] has [get]. *)
Definition get (k : string) (default : json) (v : json) : outcome json :=
  match v with
  | JObj kvs =>
      match lookup_key k kvs with
      | Some x => Return x
      | None => Return default
      end
  | _ => Raise AttributeError
  end.

Fixpoint chars (s : string) : list json :=
  match s with
  | EmptyString => []
  | String c s' => JStr (String c EmptyString) :: chars s'
  end.

(** [v[i]] for a non-negative literal index [i]. *)
Definition getitem (i : nat) (v : json) : outcome json :=
  match v with
  | JArr l =>
      match l !! i with
      | Some x => Return x
      | None => Raise IndexError
      end
  | JStr s =>
      match chars s !! i with
      | Some x => Return x
      | None => Raise IndexError
      end
  | JObj _ => Raise KeyError (* the keys of a JSON object are strings *)
  | _ => Raise TypeError
  end.

(** [len(v)]. *)
Definition len (v : json) : outcome nat :=
  match v with
  | JArr l => Return (length l)
  | JStr s => Return (String.length s)
  | JObj kvs => Return (length kvs)
  | _ => Raise TypeError
  end.

(** The items [for x in v] runs through. *)
Definition iter (v : json) : outcome (list json) :=
  match v with
  | JArr l => Return l
  | JStr s => Return (chars s)
  | JObj kvs => Return (map (fun kv => JStr (fst kv)) kvs)
  | _ => Raise TypeError
  end.

(** [float(n)] for an [int]: the nearest binary64, [OverflowError] when
    there is none. *)
Definition float_of_int (n : Z) : outcome float :=
  let x := SF2Prim (binary_normalize 53 1024 n 0 false) in
  if is_infinity x then Raise OverflowError else Return x.

(** [s.replace('Z', '+00:00')]. *)
Fixpoint replace_Z (s : string) : string :=
  match s with
  | EmptyString => EmptyString
  | String c s' =>
      if Ascii.eqb c "Z"%char then ("+00:00" ++ replace_Z s')%string
      else String c (replace_Z s')
  end.

(** A [datetime] object: naive, or aware of its UTC offset; [instant] is
    its reading in microseconds ([utc] for an aware one). *)
Record pydatetime : Type := mkdt {
  instant : Z;
  aware : bool
}.

(** [a < now] where [now = datetime.utcnow()] is naive: comparing an aware
    with a naive [datetime] raises [TypeError]. *)
Definition lt_naive (a : pydatetime) (now : datetime) : outcome bool :=
  if aware a then Raise TypeError else Return (instant a <? now).
End Py.

(** ** match_service.py *)

(** The upstream: [reply n] is what the [n]-th GET request meets. *)
Inductive http_result : Type :=
| RequestFailed                              (* the request raised *)
| Response (status : Z) (body : option json) (* [None]: [resp.json()] raises *).

Record Net : Type := mkNet {
  requests : nat;
  reply : nat -> http_result
}.

Module FootballApiClient.
Record t : Type := mk {
  api_key : option string;   (* os.getenv("THE_ODDS_API_KEY") *)
  base_url : string
}.

Definition has_key (c : t) : bool :=
  match api_key c with
  | Some k => negb (String.eqb k "")
  | None => false
  end.

Definition fetch_matches (c : t) (net : Net) : json * Net :=
  if negb (has_key c) then (JArr [], net)
  else
    let net' := mkNet (S (requests net)) (reply net) in
    match reply net (requests net) with
    | RequestFailed => (JArr [], net')
    | Response status body =>
        if negb (status =? 200) then (JArr [], net')
        else match body with
             | Some data => (data, net')
             | None => (JArr [], net')
             end
    end.
End FootballApiClient.

Module MatchService.
Record t : Type := mk {
  api_client : FootballApiClient.t;
  cache : json;
  last_update : option datetime;
  cache_ttl : Z               (* seconds *)
}.

(** [MatchService()] *)
Definition init (api_client : FootballApiClient.t) (cache_ttl : Z) : t :=
  mk api_client (JArr []) None cache_ttl.

(** [self.last_update and (now - self.last_update).total_seconds() <
    self.cache_ttl].  [total_seconds()] is the difference in microseconds
    divided by 10^6; the comparison is written on the exact quotient, which
    is what the float comparison decides for any TTL below 2^32 seconds. *)
Definition fresh (now : datetime) (s : t) : bool :=
  match last_update s with
  | Some last => now - last <? cache_ttl s * microseconds_per_second
  | None => false
  end.

Definition fetch_matches (now : datetime) (s : t) (net : Net)
    : json * t * Net :=
  if fresh now s then (cache s, s, net)
  else
    let '(matches, net') := FootballApiClient.fetch_matches (api_client s) net in
    if Py.truthy matches
    then (matches, mk (api_client s) matches (Some now) (cache_ttl s), net')
    else (cache s, s, net').

Section Parsers.
(** [datetime.fromisoformat] and [float] of a [str]; [None] is
    [ValueError]. *)
Variable fromisoformat : string -> option Py.pydatetime.
Variable float_of_string : string -> option float.

(** [float(v)]. *)
Definition float_ (v : json) : outcome float :=
  match v with
  | JInt n => Py.float_of_int n
  | JFloat x => Return x
  | JBool b => Return (if b then 1 else 0)%float
  | JStr s =>
      match float_of_string s with
      | Some x => Return x
      | None => Raise ValueError
      end
  | _ => Raise TypeError
  end.

(** The loop [for market in markets: if market.get("key") == "h2h": ...
    break]. *)
Fixpoint find_h2h (markets : list json) : outcome (option json) :=
  match markets with
  | [] => Return None
  | market :: rest =>
      match Py.get "key" JNull market with
      | Raise e => Raise e
      | Return (JStr k) =>
          if String.eqb k "h2h" then Return (Some market) else find_h2h rest
      | Return _ => find_h2h rest
      end
  end.

Definition in_range (min_odds max_odds x : float) : bool :=
  ((min_odds <=? x) && (x <=? max_odds))%float.

(** The body of the [try] for one entry: [Return true] when the entry is
    appended, [Return false] on [continue], [Raise] when the [except]
    clause logs a warning and the loop goes on. *)
Definition examine (now : datetime) (min_odds max_odds : float)
    (match_ : json) : outcome bool :=
  match Py.get "commence_time" JNull match_ with
  | Raise e => Raise e
  | Return match_time_str =>
  if negb (Py.truthy match_time_str) then Return false else
  match match_time_str with
  | JStr str =>
  match fromisoformat (Py.replace_Z str) with
  | None => Raise ValueError
  | Some match_time =>
  match Py.lt_naive match_time now with
  | Raise e => Raise e
  | Return true => Return false
  | Return false =>
  match Py.get "bookmakers" (JArr []) match_ with
  | Raise e => Raise e
  | Return bookmakers =>
  if negb (Py.truthy bookmakers) then Return false else
  match Py.getitem 0 bookmakers with
  | Raise e => Raise e
  | Return bookmaker =>
  match Py.get "markets" (JArr []) bookmaker with
  | Raise e => Raise e
  | Return markets =>
  if negb (Py.truthy markets) then Return false else
  match Py.iter markets with
  | Raise e => Raise e
  | Return market_list =>
  match find_h2h market_list with
  | Raise e => Raise e
  | Return None => Return false
  | Return (Some h2h_market) =>
  match Py.get "outcomes" (JArr []) h2h_market with
  | Raise e => Raise e
  | Return outcomes =>
  match Py.len outcomes with
  | Raise e => Raise e
  | Return n =>
  if (n <? 2)%nat then Return false else
  match Py.getitem 0 outcomes with
  | Raise e => Raise e
  | Return outcome0 =>
  match Py.get "price" (JInt 0) outcome0 with
  | Raise e => Raise e
  | Return price0 =>
  match float_ price0 with
  | Raise e => Raise e
  | Return odds_1 =>
  match Py.getitem 1 outcomes with
  | Raise e => Raise e
  | Return outcome1 =>
  match Py.get "price" (JInt 0) outcome1 with
  | Raise e => Raise e
  | Return price1 =>
  match float_ price1 with
  | Raise e => Raise e
  | Return odds_2 =>
      Return (in_range min_odds max_odds odds_1
              || in_range min_odds max_odds odds_2)
  end end end end end end end end end end end end end end end
  | _ => Raise AttributeError (* no [replace] on a non-string *)
  end
  end.

(** What the body reads of an entry: the first listed bookmaker, the
    markets the loop runs through, the market it stops at, the number of
    outcomes of a market and the price of its [i]-th outcome. *)
Definition first_bookmaker (match_ : json) : option json :=
  match Py.get "bookmakers" (JArr []) match_ with
  | Return bookmakers =>
      match Py.getitem 0 bookmakers with
      | Return bookmaker => Some bookmaker
      | Raise _ => None
      end
  | Raise _ => None
  end.

Definition market_list (bookmaker : json) : list json :=
  match Py.get "markets" (JArr []) bookmaker with
  | Return markets =>
      match Py.iter markets with
      | Return market_list => market_list
      | Raise _ => []
      end
  | Raise _ => []
  end.

Definition h2h_of (bookmaker : json) : option json :=
  match find_h2h (market_list bookmaker) with
  | Return h2h_market => h2h_market
  | Raise _ => None
  end.

Definition is_h2h (market : json) : bool :=
  match Py.get "key" JNull market with
  | Return (JStr k) => String.eqb k "h2h"
  | _ => false
  end.

Definition outcome_count (market : json) : nat :=
  match Py.get "outcomes" (JArr []) market with
  | Return outcomes =>
      match Py.len outcomes with
      | Return n => n
      | Raise _ => 0%nat
      end
  | Raise _ => 0%nat
  end.

Definition price_of (i : nat) (market : json) : option float :=
  match Py.get "outcomes" (JArr []) market with
  | Return outcomes =>
      match Py.getitem i outcomes with
      | Return outcome_ =>
          match Py.get "price" (JInt 0) outcome_ with
          | Return price =>
              match float_ price with
              | Return x => Some x
              | Raise _ => None
              end
          | Raise _ => None
          end
      | Raise _ => None
      end
  | Raise _ => None
  end.

(** An entry with a kickoff the loop accepts: a non-empty string that
    [fromisoformat] reads as a naive [datetime] not before [now]. *)
Definition upcoming (now : datetime) (match_ : json) : bool :=
  match Py.get "commence_time" JNull match_ with
  | Return (JStr str) =>
      negb (String.eqb str "")
      && match fromisoformat (Py.replace_Z str) with
         | Some match_time =>
             negb (Py.aware match_time) && negb (Py.instant match_time <? now)
         | None => false
         end
  | _ => false
  end.

(** The filter in the words of its description: an upcoming entry whose
    first bookmaker has a first h2h market with two outcomes or more, the
    first or the second of them priced within [min_odds, max_odds]. *)
Definition accepts (now : datetime) (min_odds max_odds : float)
    (match_ : json) : bool :=
  upcoming now match_
  && match first_bookmaker match_ with
     | Some bookmaker =>
         match h2h_of bookmaker with
         | Some market =>
             (2 <=? outcome_count market)%nat
             && match price_of 0 market, price_of 1 market with
                | Some p1, Some p2 =>
                    in_range min_odds max_odds p1
                    || in_range min_odds max_odds p2
                | _, _ => false
                end
         | None => false
         end
     | None => false
     end.

Definition appended (now : datetime) (min_odds max_odds : float)
    (match_ : json) : bool :=
  match examine now min_odds max_odds match_ with
  | Return true => true
  | _ => false
  end.

Definition check_for_matches_with_target_odds (now_fetch now : datetime)
    (min_odds max_odds : float) (s : t) (net : Net)
    : outcome (list json) * t * Net :=
  let '(matches, s', net') := fetch_matches now_fetch s net in
  match Py.iter matches with
  | Raise e => (Raise e, s', net')
  | Return entries =>
      (Return (List.filter (appended now min_odds max_odds) entries),
       s', net')
  end.
End Parsers.

Definition default_min_odds : float := 1.5%float.
Definition default_max_odds : float := 5.0%float.

(** The body of [mark_match_as_notified] is [pass]. *)
Definition mark_match_as_notified (match_id : json) (s : t) : t := s.

(** [fetch_matches] at each of the instants [times], in turn; the results
    in the order of the calls. *)
Fixpoint fetch_at (times : list datetime) (s : t) (net : Net)
    : list json * t * Net :=
  match times with
  | [] => ([], s, net)
  | now :: rest =>
      let '(r, s', net') := fetch_matches now s net in
      let '(rs, s'', net'') := fetch_at rest s' net' in
      (r :: rs, s'', net'')
  end.
End MatchService.

(** An exchange that gives [FootballApiClient.fetch_matches] nothing to
    return but its [[]]. *)
Definition failed (r : http_result) : bool :=
  match r with
  | RequestFailed => true
  | Response status body =>
      negb (status =? 200)
      || match body with
         | Some _ => false
         | None => true
         end
  end.

(** ** main.py

    The functions of [main.py] that decide over the two services.  The chat
    transport ([context.bot], keyboards, message texts) is outside the
    model. *)

Module Str.
(** [s.startswith(prefix)]. *)
Definition startswith (prefix s : string) : bool := String.prefix prefix s.

(** [s.replace(old, new)] for a non-empty [old]: the occurrences of [old]
    are taken from left to right, without overlap.  [skip] counts the
    characters of an occurrence that are still to be dropped. *)
Fixpoint replace_from (skip : nat) (old new s : string) : string :=
  match s with
  | EmptyString => EmptyString
  | String c s' =>
      match skip with
      | S n => replace_from n old new s'
      | O =>
          if String.prefix old s
          then (new ++ replace_from (String.length old - 1) old new s')%string
          else String c (replace_from 0 old new s')
      end
  end.

Definition replace (old new s : string) : string := replace_from 0 old new s.

(** [old in s]. *)
Fixpoint occurs (old s : string) : bool :=
  String.prefix old s
  || match s with
     | EmptyString => false
     | String _ s' => occurs old s'
     end.
End Str.

Module Main.
(** [is_user_subscribed(user_id)]; the callers pass
    [update.effective_user.id], a Telegram id. *)
Definition is_user_subscribed (now : datetime) (user_id : Z) : M bool :=
  call user <- DatabaseService.get_user_by_telegram_id user_id ;
  match user with
  | None => ret false
  | Some user =>
      call has_subscription <-
        DatabaseService.has_active_subscription now
          (DatabaseService.instance_id user) ;
      let has_trial := 0 <? User.trial_messages_left (state user) in
      ret (has_subscription || has_trial)
  end.

(** [decrement_trial_message(user_id)]; [find_matches] calls it with the
    same [user_id = update.effective_user.id]. *)
Definition decrement_trial_message (user_id : Z) : M Z :=
  DatabaseService.decrement_trial_message user_id.

Section Display.
Variable float_of_string : string -> option float.

(** The prices [send_match_info] computes for an entry of the feed (its
    [else] branch, from [bookmakers = match.get("bookmakers", [])] to the
    [break]): [(odds_1, odds_x, odds_2)]. *)
Definition api_odds (match_ : json) : outcome (float * float * float) :=
  match Py.get "bookmakers" (JArr []) match_ with
  | Raise e => Raise e
  | Return bookmakers =>
  if negb (Py.truthy bookmakers) then Return (0, 0, 0)%float else
  match Py.getitem 0 bookmakers with
  | Raise e => Raise e
  | Return bookmaker =>
  match Py.get "markets" (JArr []) bookmaker with
  | Raise e => Raise e
  | Return markets =>
  match Py.iter markets with
  | Raise e => Raise e
  | Return market_list =>
  match MatchService.find_h2h market_list with
  | Raise e => Raise e
  | Return None => Return (0, 0, 0)%float
  | Return (Some market) =>
  match Py.get "outcomes" (JArr []) market with
  | Raise e => Raise e
  | Return outcomes =>
  match Py.len outcomes with
  | Raise e => Raise e
  | Return n =>
  if (2 <=? n)%nat then
  match Py.getitem 0 outcomes with
  | Raise e => Raise e
  | Return outcome0 =>
  match Py.get "price" (JInt 0) outcome0 with
  | Raise e => Raise e
  | Return price0 =>
  match MatchService.float_ float_of_string price0 with
  | Raise e => Raise e
  | Return odds_1 =>
  match Py.getitem 1 outcomes with
  | Raise e => Raise e
  | Return outcome1 =>
  match Py.get "price" (JInt 0) outcome1 with
  | Raise e => Raise e
  | Return price1 =>
  match MatchService.float_ float_of_string price1 with
  | Raise e => Raise e
  | Return odds_2 =>
      Return (odds_1, ((odds_1 + odds_2) / 2)%float, odds_2)
  end end end end end end
  else Return (0, 0, 0)%float
  end end end end end end end.
End Display.

(** The coroutine [button_click] awaits for a callback payload; [None]
    when no branch of its [if]/[elif] chain is taken. *)
Inductive handler : Type :=
| start
| find_matches
| buy_subscription
| process_subscription_selection
| check_payment
| admin_panel
| admin_stats
| admin_give_subscription
| admin_revoke_subscription
| admin_process_give_subscription.

Definition button_click (callback_data : string) : option handler :=
  if String.eqb callback_data "start" then Some start
  else if String.eqb callback_data "find_matches" then Some find_matches
  else if String.eqb callback_data "buy_subscription"
  then Some buy_subscription
  else if Str.startswith "sub_" callback_data
  then Some process_subscription_selection
  else if Str.startswith "check_payment_" callback_data
  then Some check_payment
  else if String.eqb callback_data "admin_panel" then Some admin_panel
  else if String.eqb callback_data "admin_stats" then Some admin_stats
  else if String.eqb callback_data "admin_give_sub"
  then Some admin_give_subscription
  else if String.eqb callback_data "admin_revoke_sub"
  then Some admin_revoke_subscription
  else if Str.startswith "admin_give_" callback_data
  then Some admin_process_give_subscription
  else None.

(** What the handlers read back from [query.data]:
    [sub_type = query.data.replace("sub_", "")] in
    [process_subscription_selection],
    [unique_id = query.data.replace("check_payment_", "")] in
    [check_payment] and [sub_type = query.data.replace("admin_give_", "")]
    in [admin_process_give_subscription]. *)
Definition selection_sub_type (data : string) : string :=
  Str.replace "sub_" "" data.

Definition check_payment_unique_id (data : string) : string :=
  Str.replace "check_payment_" "" data.

Definition give_sub_type (data : string) : string :=
  Str.replace "admin_give_" "" data.
End Main.

(** ** Runs of the database service

    One constructor per modelled method of [DatabaseService], with the
    clock readings and generated identifiers the call meets. *)

Inductive op : Type :=
| GetUserByTelegramId (telegram_id : Z)
| GetOrCreateUser (now : datetime) (telegram_id : Z)
    (username first_name last_name : option string)
| DecrementTrialMessage (user_id : Z)
| GetActiveSubscription (now : datetime) (user_id : Z)
| CreatePaymentLink (unique_id : string) (now : datetime)
    (telegram_user_id : Z) (subscription_type : string) (amount : float)
| GetPaymentLink (unique_id : string)
| MarkPaymentAsPaid (unique_id : string)
| CreateSubscription (now now_query : datetime) (user_id : Z)
    (subscription_type : string) (amount : float) (payment_id : string)
| AdminCreateSubscription (now now_query : datetime) (uuid : string)
    (username subscription_type : string)
| RevokeSubscription (now_query now : datetime) (username : string)
| AddMatch (home_team away_team competition : string) (match_time : datetime)
    (odds_1 odds_x odds_2 : float) (match_url : option string)
| GetMatchesWithTargetOdds (now1 now2 : datetime)
| MarkMatchAsNotified (match_id : Z).

(** The clock readings of a call, in the order they are taken. *)
Definition clock (o : op) : list datetime :=
  match o with
  | GetOrCreateUser now _ _ _ _ => [now]
  | GetActiveSubscription now _ => [now]
  | CreatePaymentLink _ now _ _ _ => [now]
  | CreateSubscription now now_query _ _ _ _ => [now; now_query]
  | AdminCreateSubscription now now_query _ _ _ => [now; now_query]
  | RevokeSubscription now_query now _ => [now_query; now]
  | GetMatchesWithTargetOdds now1 now2 => [now1; now2]
  | _ => []
  end.

(** The readings [l] never go back, starting from [t]. *)
Fixpoint ordered (t : datetime) (l : list datetime) : bool :=
  match l with
  | [] => true
  | x :: l' => (t <=? x) && ordered x l'
  end.

Definition chronological (t : datetime) (ops : list op) : bool :=
  ordered t (concat (map clock ops)).

Definition end_time (t : datetime) (ops : list op) : datetime :=
  List.last (concat (map clock ops)) t.

Section Runs.
Variable lower : string -> string.
Variable round : float -> Z -> float.

(** The store after a call, whether the call returns or raises. *)
Definition perform (o : op) (w : World) : World :=
  match o with
  | GetUserByTelegramId telegram_id =>
      snd (DatabaseService.get_user_by_telegram_id telegram_id w)
  | GetOrCreateUser now telegram_id username first_name last_name =>
      snd (DatabaseService.get_or_create_user now telegram_id username
             first_name last_name w)
  | DecrementTrialMessage user_id =>
      snd (DatabaseService.decrement_trial_message user_id w)
  | GetActiveSubscription now user_id =>
      snd (DatabaseService.get_active_subscription now user_id w)
  | CreatePaymentLink unique_id now telegram_user_id subscription_type amount =>
      snd (DatabaseService.create_payment_link unique_id now telegram_user_id
             subscription_type amount w)
  | GetPaymentLink unique_id =>
      snd (DatabaseService.get_payment_link unique_id w)
  | MarkPaymentAsPaid unique_id =>
      snd (DatabaseService.mark_payment_as_paid unique_id w)
  | CreateSubscription now now_query user_id subscription_type amount
      payment_id =>
      snd (DatabaseService.create_subscription now now_query user_id
             subscription_type amount payment_id w)
  | AdminCreateSubscription now now_query uuid username subscription_type =>
      snd (DatabaseService.admin_create_subscription lower now now_query uuid
             username subscription_type w)
  | RevokeSubscription now_query now username =>
      snd (DatabaseService.revoke_subscription lower now_query now username w)
  | AddMatch home_team away_team competition match_time odds_1 odds_x odds_2
      match_url =>
      snd (DatabaseService.add_match home_team away_team competition match_time
             odds_1 odds_x odds_2 match_url w)
  | GetMatchesWithTargetOdds now1 now2 =>
      snd (DatabaseService.get_matches_with_target_odds round now1 now2 w)
  | MarkMatchAsNotified match_id =>
      snd (DatabaseService.mark_match_as_notified match_id w)
  end.

Definition perform_all (ops : list op) (w : World) : World :=
  fold_left (fun w o => perform o w) ops w.

(** The user a lookup by [username] finds in a session of [w]. *)
Definition found_user (username : string) (w : World)
    : option (Mapped User.t) :=
  first (select_from (sessions w) 0
           (DatabaseService.username_is lower username) (users (db w))).

(** How many of the [mark_payment_as_paid(token)] calls of a run return a
    row. *)
Fixpoint redemptions (token : string) (ops : list op) (w : World) : nat :=
  match ops with
  | [] => 0
  | o :: rest =>
      (match o with
       | MarkPaymentAsPaid unique_id =>
           if String.eqb unique_id token then
             match fst (DatabaseService.mark_payment_as_paid unique_id w) with
             | Return (Some _) => 1
             | _ => 0
             end
           else 0
       | _ => 0
       end + redemptions token rest (perform o w))%nat
  end.
End Runs.

(** ** Properties of stores *)

(** No user has two subscription rows that end at [now] or later. *)
Definition at_most_one_active (now : datetime) (d : DB) : Prop :=
  forall (i j : nat) (si sj : Subscription.t),
    subscriptions d !! i = Some si ->
    subscriptions d !! j = Some sj ->
    Subscription.user_id si = Subscription.user_id sj ->
    now <= Subscription.end_date si ->
    now <= Subscription.end_date sj ->
    i = j.

(** The row a subscription query for [user_id] at [now] matches. *)
Definition active_for (user_id : Z) (now : datetime) (s : Subscription.t)
    : bool :=
  (Subscription.user_id s =? user_id) && (now <=? Subscription.end_date s).

(** The row a subscription query of a session of [w] returns first. *)
Definition active_row (user_id : Z) (now : datetime) (w : World)
    : option (Mapped Subscription.t) :=
  first (select_from (sessions w) 0 (fun _ => active_for user_id now)
           (subscriptions (db w))).

(** The world after [n] more sessions were opened. *)
Definition opened (n : nat) (w : World) : World :=
  mkWorld (db w) (n + sessions w).

(** What one call does to the subscription table. *)
Inductive ledger_step (o : op) (l l' : list Subscription.t) : Prop :=
| ledger_same : l' = l -> ledger_step o l l'
| ledger_new (s : Subscription.t) (now_query : datetime) :
    In now_query (clock o) ->
    (forall k r, l !! k = Some r ->
       Subscription.user_id r = Subscription.user_id s ->
       now_query <= Subscription.end_date r -> False) ->
    l' = l ++ [s] ->
    ledger_step o l l'
| ledger_end (k : nat) (s : Subscription.t) (now_query t : datetime) :
    In now_query (clock o) ->
    l !! k = Some s ->
    now_query <= Subscription.end_date s ->
    l' = <[k := Subscription.set_end_date t s]> l ->
    ledger_step o l l'.

(** A computation leaves the part [proj] of the store as it was. *)
Definition keeps {X A : Type} (proj : DB -> X) (m : M A) : Prop :=
  forall w, proj (db (snd (m w))) = proj (db w).

(** The link a token stands for: the first row that carries it. *)
Definition has_token (token : string) (p : PaymentLink.t) : bool :=
  String.eqb (PaymentLink.unique_id p) token.

Fixpoint link_of (token : string) (l : list PaymentLink.t)
    : option PaymentLink.t :=
  match l with
  | [] => None
  | p :: l' => if has_token token p then Some p else link_of token l'
  end.


(** The link a query by [token] returns first in a session of [w]. *)
Definition first_link (token : string) (w : World)
    : option (Mapped PaymentLink.t) :=
  first (select_from (sessions w) 0 (fun _ => has_token token)
           (payment_links (db w))).

(** A token is spent when the link it stands for is settled. *)
Definition spent (token : string) (l : list PaymentLink.t) : Prop :=
  exists p, link_of token l = Some p /\ PaymentLink.paid p = true.

(** What one call does to the table of payment links. *)
Inductive links_step (l l' : list PaymentLink.t) : Prop :=
| links_same : l' = l -> links_step l l'
| links_new (p : PaymentLink.t) : l' = l ++ [p] -> links_step l l'
| links_paid (k : nat) (p : PaymentLink.t) :
    l !! k = Some p -> l' = <[k := PaymentLink.set_paid true p]> l ->
    links_step l l'.

(** What one call does to the table of matches. *)
Inductive matches_step (l l' : list Match.t) : Prop :=
| matches_same : l' = l -> matches_step l l'
| matches_new (m : Match.t) : l' = l ++ [m] -> matches_step l l'
| matches_notified (k : nat) (m : Match.t) :
    l !! k = Some m -> l' = <[k := Match.set_notification_sent true m]> l ->
    matches_step l l'.

(** No two users share a Telegram id. *)
Definition unique_telegram_ids (l : list User.t) : Prop :=
  forall (i j : nat) (ui uj : User.t),
    l !! i = Some ui -> l !! j = Some uj ->
    User.telegram_id ui = User.telegram_id uj -> i = j.

(** Every trial quota lies between 0 and the 3 a new user gets. *)
Definition quota_in_bounds (l : list User.t) : Prop :=
  forall (k : nat) (u : User.t),
    l !! k = Some u -> 0 <= User.trial_messages_left u <= 3.

(** What one call does to the table of users. *)
Inductive users_step (l l' : list User.t) : Prop :=
| users_same : l' = l -> users_step l l'
| users_new (u : User.t) :
    (forall k r, l !! k = Some r ->
       User.telegram_id r <> User.telegram_id u) ->
    User.trial_messages_left u = 3 ->
    l' = l ++ [u] ->
    users_step l l'
| users_spent (k : nat) (u : User.t) :
    l !! k = Some u ->
    0 < User.trial_messages_left u ->
    l' = <[k := User.set_trial_messages_left
                  (User.trial_messages_left u - 1) u]> l ->
    users_step l l'.

(** The user a lookup by Telegram id returns first in a session of [w]. *)
Definition first_user (telegram_id : Z) (w : World)
    : option (Mapped User.t) :=
  first (select_from (sessions w) 0
           (fun _ u => User.telegram_id u =? telegram_id) (users (db w))).

(** The tables of the store, and the one a method writes to. *)
Inductive table : Type :=
| UsersTable
| SubscriptionsTable
| PaymentLinksTable
| MatchesTable.

Definition written (o : op) : option table :=
  match o with
  | GetOrCreateUser _ _ _ _ _ => Some UsersTable
  | DecrementTrialMessage _ => Some UsersTable
  | CreatePaymentLink _ _ _ _ _ => Some PaymentLinksTable
  | MarkPaymentAsPaid _ => Some PaymentLinksTable
  | CreateSubscription _ _ _ _ _ _ => Some SubscriptionsTable
  | AdminCreateSubscription _ _ _ _ _ => Some SubscriptionsTable
  | RevokeSubscription _ _ _ => Some SubscriptionsTable
  | AddMatch _ _ _ _ _ _ _ _ => Some MatchesTable
  | MarkMatchAsNotified _ => Some MatchesTable
  | GetUserByTelegramId _ => None
  | GetActiveSubscription _ _ => None
  | GetPaymentLink _ => None
  | GetMatchesWithTargetOdds _ _ => None
  end.

(** The cache is the [[]] of a service that never fetched, or a payload
    that is true in Python's sense. *)
Definition cache_consistent (s : MatchService.t) : Prop :=
  match MatchService.last_update s with
  | None => MatchService.cache s = JArr []
  | Some _ => Py.truthy (MatchService.cache s) = true
  end.

(** The characters of [uuid.uuid4().hex]: the digits and a to f. *)
Definition hex_digit (c : ascii) : bool :=
  let n := nat_of_ascii c in
  (((48 <=? n) && (n <=? 57)) || ((97 <=? n) && (n <=? 102)))%nat.

Fixpoint all_hex (s : string) : bool :=
  match s with
  | EmptyString => true
  | String c s' => hex_digit c && all_hex s'
  end.

(** Two rows are the same user, the second with no more quota than the
    first, and with none below 0 unless the first had. *)
Definition same_user_less_quota (u u' : User.t) : Prop :=
  User.telegram_id u' = User.telegram_id u
  /\ User.username u' = User.username u
  /\ User.first_name u' = User.first_name u
  /\ User.last_name u' = User.last_name u
  /\ User.registration_date u' = User.registration_date u
  /\ User.trial_messages_left u' <= User.trial_messages_left u
  /\ (0 <= User.trial_messages_left u -> 0 <= User.trial_messages_left u').

(** [s] has no occurrence of the character [c]. *)
Fixpoint lacks (c : ascii) (s : string) : bool :=
  match s with
  | EmptyString => true
  | String a s' => negb (Ascii.eqb a c) && lacks c s'
  end.

(** ** A small store, for examples *)

Definition day (n : Z) : datetime := timedelta_days n.

Definition lower_char (c : ascii) : ascii :=
  let n := nat_of_ascii c in
  if ((65 <=? n) && (n <=? 90))%nat then ascii_of_nat (n + 32) else c.

(** [lower()] on ASCII text. *)
Fixpoint ascii_lower (s : string) : string :=
  match s with
  | EmptyString => EmptyString
  | String c s' => String (lower_char c) (ascii_lower s')
  end.

(** [round()] on the prices of the examples, which have at most two
    decimals already. *)
Definition round_exact (x : float) (digits : Z) : float := x.

Definition alice : User.t :=
  User.mk 1001 (Some "Alice") (Some "Alice") None (day 0) 3.

Definition start_world : World := mkWorld (mkDB [alice] [] [] []) 0.

(** Alice (user id 1) buys a week on day 0. *)
Definition week_world : World :=
  snd (DatabaseService.create_subscription (day 0) (day 0) 1 "week" 650
         "pay-1" start_world).

Definition week_row : Subscription.t :=
  Subscription.mk 1 (day 0) (day 7) "week" 650 "pay-1".

(** Alice asks for a week; the link gets the token "a1b2c3d4e5". *)
Definition link_world : World :=
  snd (DatabaseService.create_payment_link "a1b2c3d4e5" (day 0) 1001 "week"
         650 start_world).

Definition link_row : PaymentLink.t :=
  PaymentLink.mk 1001 "a1b2c3d4e5" "week" 650 (day 0) false.

(** ** A small feed, for examples *)

Definition seconds (n : Z) : datetime := n * microseconds_per_second.

(** 2030-01-01 18:00 UTC. *)
Definition kickoff : datetime := day 21915 + seconds 64800.

(** [datetime.fromisoformat] on the two spellings of [kickoff] the examples
    use. *)
Definition iso_kickoff (s : string) : option Py.pydatetime :=
  if String.eqb s "2030-01-01T18:00:00" then Some (Py.mkdt kickoff false)
  else if String.eqb s "2030-01-01T18:00:00+00:00"
  then Some (Py.mkdt kickoff true)
  else None.

(** [float] of a [str]; the examples carry numbers, never strings. *)
Definition no_float_strings (s : string) : option float := None.

Definition outcome_ (name : string) (price : float) : json :=
  JObj [("name", JStr name); ("price", JFloat price)].

Definition market_ (outcomes : list json) : json :=
  JObj [("key", JStr "h2h"); ("outcomes", JArr outcomes)].

Definition bookmaker_ (key : string) (outcomes : list json) : json :=
  JObj [("key", JStr key); ("markets", JArr [market_ outcomes])].

Definition entry_ (id : string) (bookmakers : list json) : json :=
  JObj [("id", JStr id);
        ("home_team", JStr "Home");
        ("away_team", JStr "Away");
        ("commence_time", JStr "2030-01-01T18:00:00");
        ("bookmakers", JArr bookmakers)].

(** First bookmaker: 2.10 and 3.40, in range. *)
Definition entry_in_range : json :=
  entry_ "m1" [bookmaker_ "first" [outcome_ "Home" 2.1; outcome_ "Away" 3.4]].

(** First bookmaker: 6.00 and 7.50, out of range, then a draw at 3.40; the
    second bookmaker quotes 2.00 and 1.80. *)
Definition far_outcomes : list json :=
  [outcome_ "Home" 6; outcome_ "Away" 7.5; outcome_ "Draw" 3.4].

Definition near_outcomes : list json :=
  [outcome_ "Home" 2; outcome_ "Away" 1.8].

Definition entry_elsewhere : json :=
  entry_ "m2"
    [bookmaker_ "first" far_outcomes; bookmaker_ "second" near_outcomes].

Definition client : FootballApiClient.t :=
  FootballApiClient.mk (Some "key")
    "https://api.the-odds-api.com/v4/sports/soccer_epl/odds/".

(** An upstream that answers every request with [r]. *)
Definition always (r : http_result) : Net := mkNet 0 (fun _ => r).

(** A service that fetched [entry_in_range] at instant 0, TTL 600 s. *)
Definition warm_service : MatchService.t :=
  MatchService.mk client (JArr [entry_in_range]) (Some 0) 600.

(** A service whose cache holds both entries, fetched at instant 0. *)
Definition two_entry_service : MatchService.t :=
  MatchService.mk client (JArr [entry_in_range; entry_elsewhere]) (Some 0) 600.

(** A sweep ten seconds later, with the default range. *)
Definition sweep (s : MatchService.t)
    : outcome (list json) * MatchService.t * Net :=
  MatchService.check_for_matches_with_target_odds iso_kickoff no_float_strings
    (seconds 10) (seconds 10) MatchService.default_min_odds
    MatchService.default_max_odds s (always RequestFailed).

(** A persisted match with the target odds 4.25 and 1.225. *)
Definition target_row : Match.t :=
  Match.mk "Home" "Away" "EPL" kickoff 4.25 3.5 1.225 false None.

Definition match_world : World := mkWorld (mkDB [alice] [] [] [target_row]) 0.

(** Bob writes to the bot on day 1 and is registered as user 2. *)
Definition bob : User.t :=
  User.mk 2002 (Some "Bob") (Some "Bob") None (day 1) 3.

Definition two_user_world : World :=
  snd (DatabaseService.get_or_create_user (day 1) 2002 (Some "Bob")
         (Some "Bob") None start_world).

(** A run in which Bob is registered, writes again under another name and
    spends a trial message, and Alice writes again. *)
Definition visits : list op :=
  [ GetOrCreateUser (day 1) 2002 (Some "Bob") (Some "Bob") None;
    GetOrCreateUser (day 2) 2002 (Some "Robert") None None;
    GetOrCreateUser (day 2) 1001 (Some "Alice") (Some "Alice") None;
    DecrementTrialMessage 2 ].

(** An entry with prices in range whose kickoff is spelled with a Z. *)
Definition entry_zulu : json :=
  JObj [("id", JStr "m3");
        ("home_team", JStr "Home");
        ("away_team", JStr "Away");
        ("commence_time", JStr "2030-01-01T18:00:00Z");
        ("bookmakers",
         JArr [bookmaker_ "first" [outcome_ "Home" 2.1; outcome_ "Away" 3.4]])].

(** A service whose cache holds a number between two good entries. *)
Definition noisy_service : MatchService.t :=
  MatchService.mk client (JArr [entry_in_range; JInt 5; entry_in_range])
    (Some 0) 600.

(** ** Proof automation *)

Ltac unfold_orm :=
  unfold bind, ret, async_session, select, commit, refresh, flush, add,
    transient, setattr, detach, attached, loaded, first in *.


(** * Facts *)

(** ** Queries *)

Section SelectFacts.
Context {Row : Type}.
Implicit Types (p : Z -> Row -> bool) (l : list Row).

Lemma select_from_In session p l k o :
  In o (select_from session k p l) <->
  exists i r, l !! i = Some r /\ p (row_id (k + i)) r = true
              /\ o = loaded session (k + i)%nat r.
Proof.
  revert k. induction l as [|a l IH]; intros k; simpl.
  - split; [tauto | intros (i & r & H & _); destruct i; discriminate].
  - destruct (p (row_id k) a) eqn:Hp; simpl; rewrite IH; split.
    + intros [<- | (i & r & Hl & Hr & ->)].
      * exists 0%nat, a. rewrite Nat.add_0_r. repeat split; simpl; auto.
      * exists (S i), r. rewrite ?Nat.add_succ_r in *. repeat split; simpl; auto.
    + intros (i & r & Hl & Hr & ->). destruct i as [|i]; simpl in Hl.
      * left. rewrite Nat.add_0_r. congruence.
      * right. exists i, r. rewrite ?Nat.add_succ_r in *. repeat split; simpl; auto.
    + intros (i & r & Hl & Hr & ->). exists (S i), r.
      rewrite ?Nat.add_succ_r in *. repeat split; simpl; auto.
    + intros (i & r & Hl & Hr & ->). destruct i as [|i]; simpl in Hl.
      * rewrite Nat.add_0_r in Hr. congruence.
      * exists i, r. rewrite ?Nat.add_succ_r in *. repeat split; simpl; auto.
Qed.

Lemma first_select_None session p l k :
  first (select_from session k p l) = None <->
  forall i r, l !! i = Some r -> p (row_id (k + i)) r = false.
Proof.
  revert k. induction l as [|a l IH]; intros k; simpl.
  - split; [intros _ i r H; destruct i; discriminate | reflexivity].
  - destruct (p (row_id k) a) eqn:Hp; simpl.
    + split; [discriminate |].
      intros H. specialize (H 0%nat a eq_refl).
      rewrite Nat.add_0_r in H. congruence.
    + fold (first (select_from session (S k) p l)). rewrite IH. split.
      * intros H [|i] r Hl; simpl in Hl.
        -- rewrite Nat.add_0_r. congruence.
        -- rewrite Nat.add_succ_r. apply (H i r Hl).
      * intros H i r Hl. specialize (H (S i) r Hl).
        now rewrite Nat.add_succ_r in H.
Qed.

Lemma first_select_Some session p l k o :
  first (select_from session k p l) = Some o <->
  exists i r, l !! i = Some r /\ p (row_id (k + i)) r = true
              /\ o = loaded session (k + i)%nat r
              /\ forall j r', (j < i)%nat -> l !! j = Some r' ->
                              p (row_id (k + j)) r' = false.
Proof.
  revert k. induction l as [|a l IH]; intros k; simpl.
  - split; [discriminate | intros (i & r & H & _); destruct i; discriminate].
  - destruct (p (row_id k) a) eqn:Hp; simpl.
    + split.
      * intros [= <-]. exists 0%nat, a. rewrite Nat.add_0_r.
        repeat split; simpl; auto. intros j r' Hj. lia.
      * intros (i & r & Hl & Hr & -> & Hmin). destruct i as [|i].
        -- simpl in Hl. rewrite Nat.add_0_r. congruence.
        -- specialize (Hmin 0%nat a (Nat.lt_0_succ i) eq_refl).
           rewrite Nat.add_0_r in Hmin. congruence.
    + fold (first (select_from session (S k) p l)). rewrite IH. split.
      * intros (i & r & Hl & Hr & -> & Hmin). exists (S i), r.
        rewrite Nat.add_succ_r. repeat split; simpl; auto.
        intros [|j] r' Hj Hl'; simpl in Hl'.
        -- rewrite Nat.add_0_r. congruence.
        -- rewrite Nat.add_succ_r. apply (Hmin j r'); [lia | assumption].
      * intros (i & r & Hl & Hr & -> & Hmin). destruct i as [|i]; simpl in Hl.
        -- rewrite Nat.add_0_r in Hr. congruence.
        -- exists i, r. rewrite Nat.add_succ_r in *. repeat split; simpl; auto.
           intros j r' Hj Hl'. specialize (Hmin (S j) r').
           rewrite Nat.add_succ_r in Hmin. apply Hmin; [lia | assumption].
Qed.
End SelectFacts.

(** ** Frames: what a computation leaves alone *)


Section Frames.
Context {X : Type} (proj : DB -> X).

Lemma keeps_ret {A : Type} (a : A) : keeps proj (ret a).
Proof. intros w. reflexivity. Qed.

Lemma keeps_bind {A B : Type} (m : M A) (k : A -> M B) :
  keeps proj m -> (forall a, keeps proj (k a)) -> keeps proj (bind m k).
Proof.
  intros Hm Hk w. unfold bind. specialize (Hm w).
  destruct (m w) as [[a|e] w']; simpl in *.
  - now rewrite Hk.
  - assumption.
Qed.

Lemma keeps_async_session : keeps proj async_session.
Proof. intros w. reflexivity. Qed.

Lemma keeps_select {Row : Type} (T : Table Row) session p :
  keeps proj (select T session p).
Proof. intros w. reflexivity. Qed.

Lemma keeps_refresh {Row : Type} (T : Table Row) session o :
  keeps proj (refresh T session o).
Proof.
  intros w. unfold refresh. destruct (attached session o); [|reflexivity].
  destruct (key o); [|reflexivity].
  destruct (rows T (db w) !! n); reflexivity.
Qed.

Lemma keeps_commit {Row : Type} (T : Table Row) session o :
  (forall l d, proj (store T l d) = proj d) ->
  keeps proj (commit T session o).
Proof.
  intros H w. unfold commit. destruct (flush session o (rows T (db w))).
  simpl. apply H.
Qed.
End Frames.

Ltac keeps_step :=
  first
    [ apply keeps_ret
    | apply keeps_async_session
    | apply keeps_select
    | apply keeps_refresh
    | apply keeps_commit; reflexivity
    | apply keeps_bind; [|intros ?]
    | match goal with
      | |- keeps _ (match ?x with _ => _ end) => destruct x
      end ].

Ltac keeps_tac := cbv zeta; repeat keeps_step.

Ltac frame_method :=
  unfold perform,
    DatabaseService.get_or_create_user,
    DatabaseService.get_user_by_telegram_id,
    DatabaseService.decrement_trial_message,
    DatabaseService.create_payment_link,
    DatabaseService.get_payment_link,
    DatabaseService.mark_payment_as_paid,
    DatabaseService.create_subscription,
    DatabaseService.admin_create_subscription,
    DatabaseService.revoke_subscription,
    DatabaseService.get_active_subscription,
    DatabaseService.add_match,
    DatabaseService.get_matches_with_target_odds,
    DatabaseService.mark_match_as_notified;
  match goal with
  | |- ?proj (db (snd (?m ?w))) = ?proj (db ?w) =>
      revert w; change (keeps proj m); keeps_tac
  end.


(** ** The methods, call by call *)


Section MethodFacts.
Variable lower : string -> string.
Variable round : float -> Z -> float.



Lemma active_row_opened n user_id now w o :
  active_row user_id now (opened n w) = Some o ->
  exists k s, o = loaded (n + sessions w) k s
    /\ subscriptions (db w) !! k = Some s
    /\ Subscription.user_id s = user_id
    /\ now <= Subscription.end_date s.
Proof.
  unfold active_row. rewrite first_select_Some.
  intros (k & s & Hk & Hp & -> & _). exists k, s. simpl in *.
  unfold active_for in Hp. apply andb_prop in Hp as [Hu He].
  repeat split; auto; lia.
Qed.

Lemma active_row_none n user_id now w :
  active_row user_id now (opened n w) = None <->
  forall k s, subscriptions (db w) !! k = Some s ->
    Subscription.user_id s = user_id -> now <= Subscription.end_date s -> False.
Proof.
  unfold active_row. rewrite first_select_None. simpl. unfold active_for.
  split; intros H k s Hk.
  - intros Hu He. specialize (H k s Hk). apply andb_false_iff in H. lia.
  - apply andb_false_iff. destruct (Z.eqb_spec (Subscription.user_id s) user_id);
      [|now left]. right. apply Z.leb_gt.
    destruct (Z_lt_le_dec (Subscription.end_date s) now); [assumption|].
    exfalso. eauto.
Qed.

Lemma get_active_subscription_run now user_id w :
  DatabaseService.get_active_subscription now user_id w =
  (Return (option_map detach (active_row user_id now w)), opened 1 w).
Proof. reflexivity. Qed.

Lemma create_subscription_renewal now now_query user_id st amount pid w o :
  active_row user_id now_query (opened 1 w) = Some o ->
  DatabaseService.create_subscription now now_query user_id st amount pid w =
  (Raise InvalidRequestError, opened 2 w).
Proof.
  intros H. unfold DatabaseService.create_subscription, bind, async_session.
  change (mkWorld (db w) (S (sessions w))) with (opened 1 w).
  rewrite get_active_subscription_run, H.
  destruct w as [[us ss ps ms] n]. reflexivity.
Qed.

Lemma create_subscription_new now now_query user_id st amount pid w :
  active_row user_id now_query (opened 1 w) = None ->
  let row :=
    Subscription.mk user_id now (now + DatabaseService.paid_duration st) st
      amount pid in
  DatabaseService.create_subscription now now_query user_id st amount pid w =
  (Return (mkMapped None (Some (length (subscriptions (db w)))) row, false),
   mkWorld (store Subscriptions (subscriptions (db w) ++ [row]) (db w))
     (2 + sessions w)).
Proof.
  intros H row. unfold DatabaseService.create_subscription, bind, async_session.
  change (mkWorld (db w) (S (sessions w))) with (opened 1 w).
  rewrite get_active_subscription_run, H.
  destruct w as [[us ss ps ms] n]. unfold_orm. simpl.
  rewrite Nat.eqb_refl. simpl. rewrite Nat.eqb_refl.
  rewrite list_lookup_middle by reflexivity. reflexivity.
Qed.


Lemma found_user_loaded username w o :
  found_user lower username w = Some o ->
  exists k u, o = loaded (sessions w) k u /\ users (db w) !! k = Some u.
Proof.
  unfold found_user. rewrite first_select_Some.
  intros (k & u & Hk & _ & -> & _). eauto.
Qed.

Lemma admin_create_subscription_no_user now now_query uuid username st w :
  found_user lower username w = None ->
  DatabaseService.admin_create_subscription lower now now_query uuid username
    st w = (Return None, opened 1 w).
Proof.
  intros H. unfold DatabaseService.admin_create_subscription, bind,
    async_session, select.
  cbn [rows Users Subscriptions db sessions]. unfold found_user in H. rewrite H.
  reflexivity.
Qed.

Lemma admin_create_subscription_no_plan now now_query uuid username st w :
  DatabaseService.admin_plan st = None ->
  DatabaseService.admin_create_subscription lower now now_query uuid username
    st w = (Return None, opened 1 w).
Proof.
  intros H. unfold DatabaseService.admin_create_subscription, bind,
    async_session, select.
  cbn [rows Users Subscriptions db sessions]. rewrite H.
  destruct (first _); reflexivity.
Qed.

Lemma admin_create_subscription_renewal now now_query uuid username st w
    k u plan o :
  found_user lower username w = Some (loaded (sessions w) k u) ->
  DatabaseService.admin_plan st = Some plan ->
  active_row (row_id k) now_query (opened 1 w) = Some o ->
  DatabaseService.admin_create_subscription lower now now_query uuid username
    st w = (Raise InvalidRequestError, opened 2 w).
Proof.
  intros Hu Hp Ha. unfold DatabaseService.admin_create_subscription, bind,
    async_session, select.
  cbn [rows Users Subscriptions db sessions]. unfold found_user in Hu. rewrite Hu, Hp.
  destruct plan as [duration price].
  change (mkWorld (db w) (S (sessions w))) with (opened 1 w).
  rewrite get_active_subscription_run.
  change (DatabaseService.instance_id (loaded (sessions w) k u))
    with (row_id k). rewrite Ha.
  destruct w as [[us ss ps ms] n]. reflexivity.
Qed.

Lemma admin_create_subscription_new now now_query uuid username st w
    k u duration price :
  found_user lower username w = Some (loaded (sessions w) k u) ->
  DatabaseService.admin_plan st = Some (duration, price) ->
  active_row (row_id k) now_query (opened 1 w) = None ->
  let row :=
    Subscription.mk (row_id k) now (now + duration) st price
      ("admin_" ++ uuid)%string in
  DatabaseService.admin_create_subscription lower now now_query uuid username
    st w =
  (Return (Some (mkMapped None (Some (length (subscriptions (db w)))) row,
                 User.telegram_id u, false)),
   mkWorld (store Subscriptions (subscriptions (db w) ++ [row]) (db w))
     (2 + sessions w)).
Proof.
  intros Hu Hp Ha row. unfold DatabaseService.admin_create_subscription, bind,
    async_session, select.
  cbn [rows Users Subscriptions db sessions]. unfold found_user in Hu. rewrite Hu, Hp.
  change (mkWorld (db w) (S (sessions w))) with (opened 1 w).
  rewrite get_active_subscription_run.
  change (DatabaseService.instance_id (loaded (sessions w) k u))
    with (row_id k). rewrite Ha.
  destruct w as [[us ss ps ms] n]. unfold_orm. simpl.
  rewrite Nat.eqb_refl. simpl. rewrite Nat.eqb_refl.
  rewrite list_lookup_middle by reflexivity. reflexivity.
Qed.

Lemma revoke_subscription_no_user now_query now username w :
  found_user lower username w = None ->
  DatabaseService.revoke_subscription lower now_query now username w =
  (Return None, opened 1 w).
Proof.
  intros H. unfold DatabaseService.revoke_subscription, bind, async_session,
    select. simpl. unfold found_user in H. rewrite H. reflexivity.
Qed.

Lemma revoke_subscription_none now_query now username w k u :
  found_user lower username w = Some (loaded (sessions w) k u) ->
  active_row (row_id k) now_query w = None ->
  DatabaseService.revoke_subscription lower now_query now username w =
  (Return None, opened 1 w).
Proof.
  intros Hu Ha. unfold DatabaseService.revoke_subscription, bind,
    async_session, select.
  cbn [rows Users Subscriptions db sessions]. unfold found_user in Hu. rewrite Hu.
  cbv beta iota. cbn [db sessions].
  change (DatabaseService.instance_id (loaded (sessions w) k u))
    with (row_id k).
  change (first (select_from (sessions w) 0 _ (subscriptions (db w))))
    with (active_row (row_id k) now_query w). rewrite Ha.
  reflexivity.
Qed.

Lemma revoke_subscription_found now_query now username w k u i s :
  found_user lower username w = Some (loaded (sessions w) k u) ->
  active_row (row_id k) now_query w = Some (loaded (sessions w) i s) ->
  DatabaseService.revoke_subscription lower now_query now username w =
  (Return (Some (User.telegram_id u)),
   mkWorld
     (store Subscriptions
        (<[i := Subscription.set_end_date (now - timedelta_minutes 1) s]>
           (subscriptions (db w))) (db w))
     (1 + sessions w)).
Proof.
  intros Hu Ha. unfold DatabaseService.revoke_subscription, bind,
    async_session, select.
  cbn [rows Users Subscriptions db sessions]. unfold found_user in Hu. rewrite Hu.
  cbv beta iota. cbn [db sessions].
  change (DatabaseService.instance_id (loaded (sessions w) k u))
    with (row_id k).
  change (first (select_from (sessions w) 0 _ (subscriptions (db w))))
    with (active_row (row_id k) now_query w). rewrite Ha.
  destruct w as [[us ss ps ms] n]. unfold_orm. simpl.
  rewrite Nat.eqb_refl. reflexivity.
Qed.



Lemma perform_ledger_step o w :
  ledger_step o (subscriptions (db w))
    (subscriptions (db (perform lower round o w))).
Proof.
  destruct o as
    [ tg | now tg un fn ln | uid | now uid | unique_id now tg st amount
    | unique_id | unique_id | now now_query user_id st amount pid
    | now now_query uuid username subscription_type | now_query now username
    | ht aw comp mt o1 ox o2 url | now1 now2 | match_id ];
    try (apply ledger_same; frame_method; fail).
  - (* create_subscription *)
    simpl perform.
    destruct (active_row user_id now_query (opened 1 w)) as [o|] eqn:Ha.
    + rewrite (create_subscription_renewal _ _ _ _ _ _ _ _ Ha).
      now apply ledger_same.
    + rewrite (create_subscription_new _ _ _ _ _ _ _ Ha).
      eapply ledger_new with (now_query := now_query);
        [simpl; auto | | destruct w as [[? ? ? ?] ?]; reflexivity].
      rewrite active_row_none in Ha. intros k r Hk Hu. apply (Ha k r Hk Hu).
  - (* admin_create_subscription *)
    simpl perform.
    destruct (found_user lower username w) as [user|] eqn:Hu;
      [|rewrite admin_create_subscription_no_user by assumption;
        now apply ledger_same].
    destruct (DatabaseService.admin_plan subscription_type) as [[d price]|]
      eqn:Hp;
      [|rewrite admin_create_subscription_no_plan by assumption;
        now apply ledger_same].
    destruct (found_user_loaded _ _ _ Hu) as (k & u & -> & Hk).
    destruct (active_row (row_id k) now_query (opened 1 w)) as [o|] eqn:Ha.
    + rewrite (admin_create_subscription_renewal _ _ _ _ _ _ _ _ _ _ Hu Hp Ha).
      now apply ledger_same.
    + rewrite (admin_create_subscription_new _ _ _ _ _ _ _ _ _ _ Hu Hp Ha).
      eapply ledger_new with (now_query := now_query);
        [simpl; auto | | destruct w as [[? ? ? ?] ?]; reflexivity].
      rewrite active_row_none in Ha. intros i r Hi Hr. apply (Ha i r Hi Hr).
  - (* revoke_subscription *)
    simpl perform.
    destruct (found_user lower username w) as [user|] eqn:Hu;
      [|rewrite revoke_subscription_no_user by assumption;
        now apply ledger_same].
    destruct (found_user_loaded _ _ _ Hu) as (k & u & -> & Hk).
    destruct (active_row (row_id k) now_query w) as [o|] eqn:Ha.
    + destruct (active_row_opened 0 _ _ w _ Ha) as (i & s & -> & Hi & _ & He).
      rewrite (revoke_subscription_found _ _ _ _ _ _ _ _ Hu Ha).
      eapply ledger_end with (now_query := now_query);
        [simpl; auto | exact Hi | exact He
        | destruct w as [[? ? ? ?] ?]; reflexivity].
    + rewrite (revoke_subscription_none _ _ _ _ _ _ Hu Ha).
      now apply ledger_same.
Qed.

(** ** The clock *)

Lemma last_cons_default (a t : datetime) (l : list datetime) :
  List.last (a :: l) t = List.last l a.
Proof.
  revert a t. induction l as [|b l IH]; intros a t; [reflexivity|].
  change (List.last (a :: b :: l) t) with (List.last (b :: l) t).
  now rewrite !IH.
Qed.

Lemma ordered_last t l : ordered t l = true -> t <= List.last l t.
Proof.
  revert t. induction l as [|a l IH]; intros t H; [simpl; lia|].
  simpl in H. apply andb_prop in H as [Hta Hl]. apply Z.leb_le in Hta.
  rewrite last_cons_default. specialize (IH a Hl). lia.
Qed.

Lemma ordered_bounds t l x :
  ordered t l = true -> In x l -> t <= x /\ x <= List.last l t.
Proof.
  revert t. induction l as [|a l IH]; intros t H Hin; [destruct Hin|].
  simpl in H. apply andb_prop in H as [Hta Hl]. apply Z.leb_le in Hta.
  rewrite last_cons_default. destruct Hin as [<- | Hin].
  - pose proof (ordered_last _ _ Hl). lia.
  - destruct (IH a Hl Hin). lia.
Qed.

Lemma last_app_default (t : datetime) (l1 l2 : list datetime) :
  List.last (l1 ++ l2) t = List.last l2 (List.last l1 t).
Proof.
  revert t. induction l1 as [|a l1 IH]; intros t; [reflexivity|].
  change ((a :: l1) ++ l2) with (a :: (l1 ++ l2)).
  rewrite !last_cons_default. apply IH.
Qed.

Lemma ordered_app t l1 l2 :
  ordered t (l1 ++ l2) = ordered t l1 && ordered (List.last l1 t) l2.
Proof.
  revert t. induction l1 as [|a l1 IH]; intros t; [reflexivity|].
  rewrite last_cons_default. change ((a :: l1) ++ l2) with (a :: (l1 ++ l2)).
  cbn [ordered]. now rewrite IH, andb_assoc.
Qed.

(** ** One unexpired row per user *)

Lemma one_active_mono t t' d :
  t <= t' -> at_most_one_active t d -> at_most_one_active t' d.
Proof.
  intros Ht H i j si sj Hi Hj Hu Hei Hej.
  apply (H i j si sj Hi Hj Hu); lia.
Qed.

Lemma ledger_step_one_active o t d d' :
  ordered t (clock o) = true ->
  ledger_step o (subscriptions d) (subscriptions d') ->
  at_most_one_active t d ->
  at_most_one_active (List.last (clock o) t) d'.
Proof.
  intros Hord Hstep Hinv.
  pose proof (ordered_last _ _ Hord) as Hlast.
  destruct Hstep as [Heq | s nq Hin Hnone Heq | k s nq t1 Hin Hk He Heq].
  - intros i j si sj Hi Hj. rewrite Heq in Hi, Hj. intros Hu Hei Hej.
    apply (Hinv i j si sj Hi Hj Hu); lia.
  - destruct (ordered_bounds _ _ _ Hord Hin) as [Htq Hql].
    intros i j si sj Hi Hj Hu Hei Hej. rewrite Heq in Hi, Hj.
    apply lookup_app_Some in Hi as [Hi | [Hli Hi]];
      apply lookup_app_Some in Hj as [Hj | [Hlj Hj]].
    + apply (Hinv i j si sj Hi Hj Hu); lia.
    + exfalso. destruct (j - length (subscriptions d))%nat eqn:E;
        [|destruct n; discriminate]. injection Hj as <-.
      apply (Hnone i si Hi Hu). lia.
    + exfalso. destruct (i - length (subscriptions d))%nat eqn:E;
        [|destruct n; discriminate]. injection Hi as <-.
      apply (Hnone j sj Hj (eq_sym Hu)). lia.
    + destruct (i - length (subscriptions d))%nat eqn:Ei;
        [|destruct n; discriminate].
      destruct (j - length (subscriptions d))%nat eqn:Ej;
        [|destruct n; discriminate]. lia.
  - destruct (ordered_bounds _ _ _ Hord Hin) as [Htq Hql].
    assert (Hold : forall i si, subscriptions d' !! i = Some si ->
              List.last (clock o) t <= Subscription.end_date si ->
              exists si', subscriptions d !! i = Some si'
                /\ Subscription.user_id si' = Subscription.user_id si
                /\ t <= Subscription.end_date si').
    { intros i si Hi Hei. rewrite Heq in Hi.
      apply list_lookup_insert_Some in Hi as [(-> & <- & _) | [_ Hi]].
      - exists s. repeat split; auto. lia.
      - exists si. repeat split; auto. lia. }
    intros i j si sj Hi Hj Hu Hei Hej.
    destruct (Hold i si Hi Hei) as (si' & Hi' & Hui & Hti).
    destruct (Hold j sj Hj Hej) as (sj' & Hj' & Huj & Htj).
    apply (Hinv i j si' sj' Hi' Hj'); congruence || assumption.
Qed.

Lemma perform_one_active o w t :
  ordered t (clock o) = true ->
  at_most_one_active t (db w) ->
  at_most_one_active (List.last (clock o) t) (db (perform lower round o w)).
Proof.
  intros Hord. apply ledger_step_one_active; [assumption|].
  apply perform_ledger_step.
Qed.

Lemma perform_all_one_active ops w t :
  chronological t ops = true ->
  at_most_one_active t (db w) ->
  at_most_one_active (end_time t ops) (db (perform_all lower round ops w)).
Proof.
  unfold chronological, end_time. revert w t.
  induction ops as [|o ops IH]; intros w t Hc Hinv; [assumption|].
  simpl in *. rewrite ordered_app in Hc. apply andb_prop in Hc as [Ho Hc].
  rewrite last_app_default. apply IH; [assumption|].
  now apply perform_one_active.
Qed.

Lemma get_active_subscription_sound now user_id w o :
  fst (DatabaseService.get_active_subscription now user_id w)
    = Return (Some o) ->
  exists k s, o = mkMapped None (Some k) s
    /\ subscriptions (db w) !! k = Some s
    /\ Subscription.user_id s = user_id
    /\ now <= Subscription.end_date s.
Proof.
  rewrite get_active_subscription_run. simpl.
  destruct (active_row user_id now w) as [o'|] eqn:Ha; [|discriminate].
  intros [= <-].
  destruct (active_row_opened 0 _ _ w _ Ha) as (k & s & -> & Hk & Hu & He).
  exists k, s. repeat split; assumption.
Qed.

Lemma get_active_subscription_none now user_id w :
  fst (DatabaseService.get_active_subscription now user_id w) = Return None <->
  forall k s, subscriptions (db w) !! k = Some s ->
    Subscription.user_id s = user_id -> now <= Subscription.end_date s -> False.
Proof.
  rewrite get_active_subscription_run. simpl.
  rewrite <- (active_row_none 0 user_id now w).
  change (opened 0 w) with (mkWorld (db w) (sessions w)).
  unfold active_row. simpl.
  destruct (first _); simpl; split; congruence.
Qed.

Lemma create_subscription_rows now now_query user_id st amount pid w :
  let l := subscriptions (db w) in
  let l' :=
    subscriptions
      (db (snd (DatabaseService.create_subscription now now_query user_id st
                  amount pid w))) in
  ((exists k s, l !! k = Some s /\ Subscription.user_id s = user_id
                /\ now_query <= Subscription.end_date s) -> l' = l)
  /\ ((forall k s, l !! k = Some s -> Subscription.user_id s = user_id ->
         now_query <= Subscription.end_date s -> False) ->
      l' = l ++ [Subscription.mk user_id now
                   (now + DatabaseService.paid_duration st) st amount pid]).
Proof.
  intros l l'. subst l l'.
  destruct (active_row user_id now_query (opened 1 w)) as [o|] eqn:Ha.
  - rewrite (create_subscription_renewal _ _ _ _ _ _ _ _ Ha). split.
    + reflexivity.
    + intros Hnone. exfalso.
      destruct (active_row_opened 1 _ _ w _ Ha) as (k & s & _ & Hk & Hu & He).
      apply (Hnone k s Hk Hu He).
  - rewrite (create_subscription_new _ _ _ _ _ _ _ Ha). split.
    + intros (k & s & Hk & Hu & He). exfalso.
      rewrite active_row_none in Ha. apply (Ha k s Hk Hu He).
    + intros _. destruct w as [[? ? ? ?] ?]. reflexivity.
Qed.

Lemma admin_create_subscription_rows now now_query uuid username st w :
  let l := subscriptions (db w) in
  let l' :=
    subscriptions
      (db (snd (DatabaseService.admin_create_subscription lower now now_query
                  uuid username st w))) in
  l' = l \/
  exists k u duration price,
    found_user lower username w = Some (loaded (sessions w) k u)
    /\ DatabaseService.admin_plan st = Some (duration, price)
    /\ (forall i s, l !! i = Some s -> Subscription.user_id s = row_id k ->
          now_query <= Subscription.end_date s -> False)
    /\ l' = l ++ [Subscription.mk (row_id k) now (now + duration) st price
                    ("admin_" ++ uuid)%string].
Proof.
  intros l l'. subst l l'.
  destruct (found_user lower username w) as [user|] eqn:Hu;
    [|rewrite admin_create_subscription_no_user by assumption; now left].
  destruct (DatabaseService.admin_plan st) as [[d price]|] eqn:Hp;
    [|rewrite admin_create_subscription_no_plan by assumption; now left].
  destruct (found_user_loaded _ _ _ Hu) as (k & u & -> & Hk).
  destruct (active_row (row_id k) now_query (opened 1 w)) as [o|] eqn:Ha.
  - rewrite (admin_create_subscription_renewal _ _ _ _ _ _ _ _ _ _ Hu Hp Ha).
    now left.
  - rewrite (admin_create_subscription_new _ _ _ _ _ _ _ _ _ _ Hu Hp Ha).
    right. exists k, u, d, price.
    split; [reflexivity|]. split; [reflexivity|]. split.
    + rewrite active_row_none in Ha. exact Ha.
    + destruct w as [[? ? ? ?] ?]. reflexivity.
Qed.

Lemma revoke_subscription_rows now_query now username w :
  length
    (subscriptions
       (db (snd (DatabaseService.revoke_subscription lower now_query now
                   username w))))
  = length (subscriptions (db w)).
Proof.
  destruct (found_user lower username w) as [user|] eqn:Hu;
    [|now rewrite revoke_subscription_no_user].
  destruct (found_user_loaded _ _ _ Hu) as (k & u & -> & Hk).
  destruct (active_row (row_id k) now_query w) as [o|] eqn:Ha.
  - destruct (active_row_opened 0 _ _ w _ Ha) as (i & s & -> & _).
    rewrite (revoke_subscription_found _ _ _ _ _ _ _ _ Hu Ha).
    destruct w as [[? ? ? ?] ?]. cbn [snd db subscriptions store Subscriptions].
    apply length_insert.
  - now rewrite (revoke_subscription_none _ _ _ _ _ _ Hu Ha).
Qed.

Lemma no_rows_one_active t d :
  subscriptions d = [] -> at_most_one_active t d.
Proof. intros H i j si sj Hi. rewrite H in Hi. destruct i; discriminate. Qed.

Lemma reachable_one_active ops t0 w0 :
  subscriptions (db w0) = [] ->
  chronological t0 ops = true ->
  at_most_one_active (end_time t0 ops) (db (perform_all lower round ops w0)).
Proof.
  intros Hempty Hc. apply perform_all_one_active; [assumption|].
  now apply no_rows_one_active.
Qed.
End MethodFacts.

Lemma active_row_unique user_id now w i s :
  at_most_one_active now (db w) ->
  subscriptions (db w) !! i = Some s ->
  Subscription.user_id s = user_id ->
  now <= Subscription.end_date s ->
  active_row user_id now w = Some (loaded (sessions w) i s).
Proof.
  intros Hinv Hi Hu He.
  destruct (active_row user_id now w) as [o|] eqn:Ha.
  - destruct (active_row_opened 0 _ _ w _ Ha) as (k & s' & -> & Hk & Hu' & He').
    assert (k = i) as -> by (apply (Hinv k i s' s); congruence).
    simpl. congruence.
  - exfalso. apply (proj1 (active_row_none 0 user_id now w)) with i s; auto.
Qed.

(** C8.  [revoke_subscription] on a user whose unexpired row is [s] (row
    [i]) sets the end of that row, and of no other, to one minute before its
    clock reading, returns the user's telegram id, and the next
    [get_active_subscription] for the user returns [None].  When the user is
    unknown or has no unexpired row it returns [None] and changes no
    table.  The user has no second unexpired row: that is the invariant of
    the ledger, which holds in every store reached from a ledger without
    rows while the clock does not go back. *)
Theorem revoke_ends_subscription
    (lower : string -> string) (round : float -> Z -> float)
    (now_query now next : datetime) (username : string) (w : World) :
  let result :=
    DatabaseService.revoke_subscription lower now_query now username w in
  (found_user lower username w = None ->
   fst result = Return None /\ db (snd result) = db w)
  /\ (forall k u,
        found_user lower username w = Some (loaded (sessions w) k u) ->
        (forall i s, subscriptions (db w) !! i = Some s ->
           Subscription.user_id s = row_id k ->
           now_query <= Subscription.end_date s -> False) ->
        fst result = Return None /\ db (snd result) = db w)
  /\ (forall k u i s,
        found_user lower username w = Some (loaded (sessions w) k u) ->
        subscriptions (db w) !! i = Some s ->
        Subscription.user_id s = row_id k ->
        now_query <= Subscription.end_date s ->
        at_most_one_active now_query (db w) ->
        now_query <= now -> now <= next ->
        fst result = Return (Some (User.telegram_id u))
        /\ subscriptions (db (snd result)) =
             <[i := Subscription.set_end_date (now - timedelta_minutes 1) s]>
               (subscriptions (db w))
        /\ now - timedelta_minutes 1 < now
        /\ users (db (snd result)) = users (db w)
        /\ payment_links (db (snd result)) = payment_links (db w)
        /\ matches (db (snd result)) = matches (db w)
        /\ fst (DatabaseService.get_active_subscription next (row_id k)
                  (snd result)) = Return None)
  /\ (forall t0 ops w0,
        subscriptions (db w0) = [] ->
        chronological t0 ops = true ->
        w = perform_all lower round ops w0 ->
        end_time t0 ops <= now_query ->
        at_most_one_active now_query (db w)).
Proof.
  intros result. subst result. repeat apply conj.
  - intros Hu. rewrite revoke_subscription_no_user by assumption.
    split; reflexivity.
  - intros k u Hu Hnone.
    rewrite (revoke_subscription_none lower now_query now username w k u Hu).
    + split; reflexivity.
    + apply (active_row_none 0). exact Hnone.
  - intros k u i s Hu Hi Hs He Hinv Hqn Hnn.
    pose proof (active_row_unique _ _ _ _ _ Hinv Hi Hs He) as Ha.
    rewrite (revoke_subscription_found lower _ _ _ _ _ _ _ _ Hu Ha).
    assert (Hmin : 0 < timedelta_minutes 1) by reflexivity.
    cbn [fst snd].
    split; [reflexivity|].
    split; [destruct w as [[us ss ps ms] n]; reflexivity|].
    split; [lia|].
    split; [destruct w as [[us ss ps ms] n]; reflexivity|].
    split; [destruct w as [[us ss ps ms] n]; reflexivity|].
    split; [destruct w as [[us ss ps ms] n]; reflexivity|].
    apply get_active_subscription_none.
    destruct w as [[us ss ps ms] n]. cbn [db subscriptions store Subscriptions].
    cbn [db subscriptions] in Hi, Hinv.
    intros k' s' Hk' Hu' He'.
    apply list_lookup_insert_Some in Hk' as [(-> & <- & _) | [Hne Hk']].
    + simpl in He'. lia.
    + apply Hne. apply (Hinv i k' s s' Hi Hk'); [congruence | lia | lia].
  - intros t0 ops w0 Hempty Hc -> Hle.
    apply one_active_mono with (end_time t0 ops); [assumption|].
    now apply reachable_one_active.
Qed.

(** ** Renewals *)

Lemma extend_paid_state now duration amount payment_id o :
  state (DatabaseService.extend_paid now duration amount payment_id o) =
  Subscription.mk (Subscription.user_id (state o))
    (Subscription.start_date (state o))
    (Z.max now (Subscription.end_date (state o)) + duration)
    (Subscription.subscription_type (state o))
    (Subscription.price_paid (state o) + amount)%float
    payment_id.
Proof. reflexivity. Qed.

Lemma active_row_some n user_id now w k s :
  subscriptions (db w) !! k = Some s ->
  Subscription.user_id s = user_id ->
  now <= Subscription.end_date s ->
  exists o, active_row user_id now (opened n w) = Some o.
Proof.
  intros Hk Hu He.
  destruct (active_row user_id now (opened n w)) as [o|] eqn:Ha; [eauto|].
  exfalso. rewrite active_row_none in Ha. eauto.
Qed.

Lemma create_subscription_unexpired now now_query user_id st amount pid w k s :
  subscriptions (db w) !! k = Some s ->
  Subscription.user_id s = user_id ->
  now_query <= Subscription.end_date s ->
  DatabaseService.create_subscription now now_query user_id st amount pid w =
  (Raise InvalidRequestError, opened 2 w).
Proof.
  intros Hk Hu He.
  destruct (active_row_some 1 _ _ _ _ _ Hk Hu He) as [o Ha].
  exact (create_subscription_renewal _ _ _ _ _ _ _ _ Ha).
Qed.

Lemma admin_create_subscription_unexpired lower now now_query uuid username st
    w ku u k s :
  found_user lower username w = Some (loaded (sessions w) ku u) ->
  subscriptions (db w) !! k = Some s ->
  Subscription.user_id s = row_id ku ->
  now_query <= Subscription.end_date s ->
  db (snd (DatabaseService.admin_create_subscription lower now now_query uuid
             username st w)) = db w
  /\ (forall plan, DatabaseService.admin_plan st = Some plan ->
        fst (DatabaseService.admin_create_subscription lower now now_query
               uuid username st w) = Raise InvalidRequestError).
Proof.
  intros Hu Hk Hs He.
  destruct (active_row_some 1 _ _ _ _ _ Hk Hs He) as [o Ha].
  destruct (DatabaseService.admin_plan st) as [plan|] eqn:Hp.
  - rewrite (admin_create_subscription_renewal lower _ _ _ _ _ _ _ _ _ _
               Hu Hp Ha).
    split; [reflexivity | intros; reflexivity].
  - rewrite admin_create_subscription_no_plan by assumption.
    split; [reflexivity | discriminate].
Qed.

(** C3.  What [create_subscription] does for a user with an unexpired row:
    the renewal branch computes end = max(now, end) + duration, adds the
    amount to [price_paid] and replaces [payment_id], but on the instance
    [get_active_subscription] loaded in a session of its own; the commit
    writes nothing, the refresh raises [InvalidRequestError], and the store
    is as it was.  No renewal is returned. *)
Theorem create_subscription_renewal_is_lost
    (now now_query : datetime) (user_id : Z) (st : string) (amount : float)
    (pid : string) (w : World) (k : nat) (s : Subscription.t) :
  subscriptions (db w) !! k = Some s ->
  Subscription.user_id s = user_id ->
  now_query <= Subscription.end_date s ->
  let result :=
    DatabaseService.create_subscription now now_query user_id st amount pid w
  in
  fst result = Raise InvalidRequestError
  /\ db (snd result) = db w
  /\ forall o,
       state (DatabaseService.extend_paid now
                (DatabaseService.paid_duration st) amount pid o) =
       Subscription.mk (Subscription.user_id (state o))
         (Subscription.start_date (state o))
         (Z.max now (Subscription.end_date (state o))
          + DatabaseService.paid_duration st)
         (Subscription.subscription_type (state o))
         (Subscription.price_paid (state o) + amount)%float
         pid.
Proof.
  intros Hk Hu He result. subst result.
  rewrite (create_subscription_unexpired _ _ _ _ _ _ _ _ _ Hk Hu He).
  split; [reflexivity|]. split; [reflexivity|].
  intros o. apply extend_paid_state.
Qed.

Lemma create_subscription_renewal_is_lost_witness :
  subscriptions (db week_world) = [week_row]
  /\ fst (DatabaseService.create_subscription (day 3) (day 3) 1 "two_weeks"
            1300 "pay-2" week_world) = Raise InvalidRequestError
  /\ subscriptions
       (db (snd (DatabaseService.create_subscription (day 3) (day 3) 1
                   "two_weeks" 1300 "pay-2" week_world))) = [week_row].
Proof.
  split; [reflexivity|].
  destruct (create_subscription_renewal_is_lost (day 3) (day 3) 1 "two_weeks"
              1300 "pay-2" week_world 0 week_row)
    as (Hraise & Hdb & _).
  - reflexivity.
  - reflexivity.
  - vm_compute. discriminate.
  - split; [exact Hraise|]. rewrite Hdb. reflexivity.
Defined.

(** C4.  A renewal does not change the stored plan kind.  The renewal branch
    of [create_subscription] never assigns [subscription_type]
    ([admin_create_subscription] does), and neither method stores what its
    renewal branch assigned: the row of a user with an unexpired
    subscription is the same after the call. *)
Theorem renewal_keeps_plan_kind
    (lower : string -> string) (now now_query : datetime) (user_id : Z)
    (st : string) (amount : float) (pid uuid username : string) (w : World)
    (k : nat) (s : Subscription.t) :
  subscriptions (db w) !! k = Some s ->
  Subscription.user_id s = user_id ->
  now_query <= Subscription.end_date s ->
  (forall duration o,
     Subscription.subscription_type
       (state (DatabaseService.extend_paid now duration amount pid o)) =
     Subscription.subscription_type (state o))
  /\ (forall duration price o,
        Subscription.subscription_type
          (state (DatabaseService.extend_admin now duration price st pid o)) =
        st)
  /\ subscriptions
       (db (snd (DatabaseService.create_subscription now now_query user_id st
                   amount pid w))) !! k = Some s
  /\ (forall ku u,
        found_user lower username w = Some (loaded (sessions w) ku u) ->
        row_id ku = user_id ->
        subscriptions
          (db (snd (DatabaseService.admin_create_subscription lower now
                      now_query uuid username st w))) !! k = Some s).
Proof.
  intros Hk Hu He. repeat apply conj.
  - reflexivity.
  - reflexivity.
  - now rewrite (create_subscription_unexpired _ _ _ _ _ _ _ _ _ Hk Hu He).
  - intros ku u Hfound Hid.
    destruct (admin_create_subscription_unexpired lower now now_query uuid
                username st w ku u k s Hfound Hk) as [Hdb _];
      [congruence | assumption |].
    now rewrite Hdb.
Qed.

Lemma renewal_keeps_plan_kind_witness :
  option_map Subscription.subscription_type
    (subscriptions
       (db (snd (DatabaseService.create_subscription (day 3) (day 3) 1
                   "two_weeks" 1300 "pay-2" week_world))) !! 0%nat)
    = Some "week"
  /\ option_map Subscription.subscription_type
       (subscriptions
          (db (snd (DatabaseService.admin_create_subscription ascii_lower
                      (day 3) (day 3) "0123456789" "alice" "two_weeks"
                      week_world))) !! 0%nat)
       = Some "week".
Proof.
  destruct (renewal_keeps_plan_kind ascii_lower (day 3) (day 3) 1 "two_weeks"
              1300 "pay-2" "0123456789" "alice" week_world 0 week_row)
    as (_ & _ & Hpaid & Hadmin).
  - reflexivity.
  - reflexivity.
  - vm_compute. discriminate.
  - split.
    + rewrite Hpaid. reflexivity.
    + rewrite (Hadmin 0%nat alice); reflexivity.
Defined.

(** ** The invariant of the ledger, and the extension that is lost *)

Lemma paid_duration_positive st : 0 < DatabaseService.paid_duration st.
Proof.
  unfold DatabaseService.paid_duration.
  destruct (String.eqb st "week"); [reflexivity|].
  destruct (String.eqb st "two_weeks"); [reflexivity|].
  destruct (String.eqb st "month"); reflexivity.
Qed.

Lemma admin_plan_positive st duration price :
  DatabaseService.admin_plan st = Some (duration, price) -> 0 < duration.
Proof.
  unfold DatabaseService.admin_plan.
  destruct (String.eqb st "week"); [intros [= <- _]; reflexivity|].
  destruct (String.eqb st "two_weeks"); [intros [= <- _]; reflexivity|].
  destruct (String.eqb st "month"); [intros [= <- _]; reflexivity|].
  discriminate.
Qed.

(** C6.  The invariant holds and the extension in place does not happen.
    No user has two subscription rows that end now or later: this holds in
    every store reached from a ledger without rows by calls of the service
    whose clock readings do not go back, and every single call and every
    run of calls preserves it.  [create_subscription] and
    [admin_create_subscription] add a row only when the user has no
    unexpired row, [revoke_subscription] never adds one, and
    [get_active_subscription] returns at most one row, which belongs to the
    user, ends at [now] or later and, under the invariant, is the only such
    row.  But for a user with an unexpired row the existing row is not
    extended in place: the renewal branch computes an end of
    max(now, end) + duration, later than the stored end, on an instance of
    a closed session, the call raises [InvalidRequestError], and the
    subscription table is exactly as it was. *)
Theorem ledger_one_active_row_not_extended
    (lower : string -> string) (round : float -> Z -> float) (w : World) :
  (forall t0 ops,
     subscriptions (db w) = [] ->
     chronological t0 ops = true ->
     at_most_one_active (end_time t0 ops)
       (db (perform_all lower round ops w)))
  /\ (forall t o,
        at_most_one_active t (db w) ->
        ordered t (clock o) = true ->
        at_most_one_active (List.last (clock o) t)
          (db (perform lower round o w)))
  /\ (forall t ops,
        at_most_one_active t (db w) ->
        chronological t ops = true ->
        at_most_one_active (end_time t ops)
          (db (perform_all lower round ops w)))
  /\ (forall now now_query user_id st amount pid,
        (forall k s, subscriptions (db w) !! k = Some s ->
           Subscription.user_id s = user_id ->
           now_query <= Subscription.end_date s -> False) ->
        subscriptions
          (db (snd (DatabaseService.create_subscription now now_query user_id
                      st amount pid w)))
        = subscriptions (db w)
          ++ [Subscription.mk user_id now
                (now + DatabaseService.paid_duration st) st amount pid])
  /\ (forall now now_query uuid username st,
        let l := subscriptions (db w) in
        let l' :=
          subscriptions
            (db (snd (DatabaseService.admin_create_subscription lower now
                        now_query uuid username st w))) in
        l' = l
        \/ exists row, l' = l ++ [row]
             /\ forall k s, l !! k = Some s ->
                  Subscription.user_id s = Subscription.user_id row ->
                  now_query <= Subscription.end_date s -> False)
  /\ (forall now_query now username,
        length
          (subscriptions
             (db (snd (DatabaseService.revoke_subscription lower now_query
                         now username w))))
        = length (subscriptions (db w)))
  /\ (forall now user_id o,
        fst (DatabaseService.get_active_subscription now user_id w)
          = Return (Some o) ->
        exists k s, o = mkMapped None (Some k) s
          /\ subscriptions (db w) !! k = Some s
          /\ Subscription.user_id s = user_id
          /\ now <= Subscription.end_date s
          /\ (at_most_one_active now (db w) ->
              forall k' s', subscriptions (db w) !! k' = Some s' ->
                Subscription.user_id s' = user_id ->
                now <= Subscription.end_date s' -> k' = k))
  /\ (forall now now_query user_id st amount pid k s,
        subscriptions (db w) !! k = Some s ->
        Subscription.user_id s = user_id ->
        now_query <= Subscription.end_date s ->
        let result :=
          DatabaseService.create_subscription now now_query user_id st amount
            pid w in
        let computed :=
          DatabaseService.extend_paid now (DatabaseService.paid_duration st)
            amount pid (mkMapped None (Some k) s) in
        fst result = Raise InvalidRequestError
        /\ subscriptions (db (snd result)) = subscriptions (db w)
        /\ subscriptions (db (snd result)) !! k = Some s
        /\ Subscription.end_date (state computed)
           = Z.max now (Subscription.end_date s)
             + DatabaseService.paid_duration st
        /\ Subscription.end_date s < Subscription.end_date (state computed))
  /\ (forall now now_query uuid username st ku u duration price k s,
        found_user lower username w = Some (loaded (sessions w) ku u) ->
        DatabaseService.admin_plan st = Some (duration, price) ->
        subscriptions (db w) !! k = Some s ->
        Subscription.user_id s = row_id ku ->
        now_query <= Subscription.end_date s ->
        let result :=
          DatabaseService.admin_create_subscription lower now now_query uuid
            username st w in
        let computed :=
          DatabaseService.extend_admin now duration price st
            ("admin_" ++ uuid)%string (mkMapped None (Some k) s) in
        fst result = Raise InvalidRequestError
        /\ subscriptions (db (snd result)) = subscriptions (db w)
        /\ subscriptions (db (snd result)) !! k = Some s
        /\ Subscription.end_date (state computed)
           = Z.max now (Subscription.end_date s) + duration
        /\ Subscription.end_date s < Subscription.end_date (state computed)).
Proof.
  repeat apply conj.
  - intros t0 ops Hempty Hc. now apply reachable_one_active.
  - intros t o Hinv Ho. now apply perform_one_active.
  - intros t ops Hinv Hc. now apply perform_all_one_active.
  - intros now now_query user_id st amount pid Hnone.
    exact (proj2 (create_subscription_rows now now_query user_id st amount
                    pid w) Hnone).
  - intros now now_query uuid username st l l'. subst l l'.
    destruct (admin_create_subscription_rows lower now now_query uuid
                username st w) as [H | (k & u & d & price & _ & _ & Hnone & H)].
    + now left.
    + right. eexists. split; [exact H | exact Hnone].
  - intros now_query now username. apply revoke_subscription_rows.
  - intros now user_id o Hget.
    destruct (get_active_subscription_sound _ _ _ _ Hget)
      as (k & s & -> & Hk & Hu & He).
    exists k, s. repeat split; auto.
    intros Hinv k' s' Hk' Hu' He'.
    apply (Hinv k' k s' s); congruence.
  - intros now now_query user_id st amount pid k s Hk Hu He result computed.
    subst result computed.
    rewrite (create_subscription_unexpired _ _ _ _ _ _ _ _ _ Hk Hu He).
    rewrite extend_paid_state. cbn [fst snd db opened state
      Subscription.end_date].
    pose proof (paid_duration_positive st).
    repeat split; auto; lia.
  - intros now now_query uuid username st ku u duration price k s
      Hfound Hplan Hk Hu He result computed. subst result computed.
    destruct (admin_create_subscription_unexpired lower now now_query uuid
                username st w ku u k s Hfound Hk Hu He) as [Hdb Hraise].
    rewrite Hdb, (Hraise _ Hplan).
    pose proof (admin_plan_positive _ _ _ Hplan).
    cbn [state DatabaseService.extend_admin setattr Subscription.end_date
         Subscription.set_end_date Subscription.set_price_paid
         Subscription.set_subscription_type Subscription.set_payment_id].
    repeat split; auto; lia.
Qed.

(** ** Unknown plan kinds *)

Lemma unknown_plan st :
  st <> "week" -> st <> "two_weeks" -> st <> "month" ->
  DatabaseService.admin_plan st = None
  /\ DatabaseService.paid_duration st = timedelta_weeks 1.
Proof.
  intros H1 H2 H3. unfold DatabaseService.admin_plan,
    DatabaseService.paid_duration.
  apply String.eqb_neq in H1, H2, H3. now rewrite H1, H2, H3.
Qed.

(** C5, as stated, fails: [create_subscription] with the plan kind "year"
    for a user without a subscription returns a new row of seven days. *)
Lemma create_subscription_accepts_unknown_plan :
  subscriptions (db start_world) = []
  /\ fst (DatabaseService.create_subscription (day 0) (day 0) 1 "year" 100
            "pay-9" start_world)
     = Return (mkMapped None (Some 0%nat)
                 (Subscription.mk 1 (day 0) (day 7) "year" 100 "pay-9"),
               false)
  /\ subscriptions
       (db (snd (DatabaseService.create_subscription (day 0) (day 0) 1 "year"
                   100 "pay-9" start_world)))
     = [Subscription.mk 1 (day 0) (day 7) "year" 100 "pay-9"].
Proof. repeat split. Qed.

(** C5, amended.  For a plan kind other than "week", "two_weeks" and
    "month", [admin_create_subscription] returns [None] and changes no
    table; [create_subscription] takes the duration of one week, and for a
    user without an unexpired row it adds a row of that plan kind ending one
    week after [now]. *)
Theorem unknown_plan_admin_rejects_paid_defaults
    (lower : string -> string) (now now_query : datetime) (user_id : Z)
    (st : string) (amount : float) (pid uuid username : string) (w : World) :
  st <> "week" -> st <> "two_weeks" -> st <> "month" ->
  let admin :=
    DatabaseService.admin_create_subscription lower now now_query uuid
      username st w in
  let paid :=
    DatabaseService.create_subscription now now_query user_id st amount pid w
  in
  let row :=
    Subscription.mk user_id now (now + timedelta_weeks 1) st amount pid in
  fst admin = Return None
  /\ db (snd admin) = db w
  /\ DatabaseService.paid_duration st = timedelta_weeks 1
  /\ ((forall k s, subscriptions (db w) !! k = Some s ->
         Subscription.user_id s = user_id ->
         now_query <= Subscription.end_date s -> False) ->
      fst paid
        = Return (mkMapped None (Some (length (subscriptions (db w)))) row,
                  false)
      /\ subscriptions (db (snd paid)) = subscriptions (db w) ++ [row]).
Proof.
  intros H1 H2 H3 admin paid row. subst admin paid row.
  destruct (unknown_plan st H1 H2 H3) as [Hplan Hdur].
  rewrite admin_create_subscription_no_plan by assumption.
  split; [reflexivity|]. split; [reflexivity|]. split; [assumption|].
  intros Hnone. apply (active_row_none 1) in Hnone.
  rewrite (create_subscription_new _ _ _ _ _ _ _ Hnone), Hdur.
  split; [reflexivity|]. destruct w as [[? ? ? ?] ?]. reflexivity.
Qed.

Lemma unknown_plan_admin_rejects_paid_defaults_witness :
  fst (DatabaseService.admin_create_subscription ascii_lower (day 0) (day 0)
         "0123456789" "alice" "year" start_world) = Return None
  /\ db (snd (DatabaseService.admin_create_subscription ascii_lower (day 0)
                (day 0) "0123456789" "alice" "year" start_world))
     = db start_world
  /\ subscriptions
       (db (snd (DatabaseService.create_subscription (day 0) (day 0) 1 "year"
                   100 "pay-9" start_world)))
     = [Subscription.mk 1 (day 0) (day 0 + timedelta_weeks 1) "year" 100
          "pay-9"].
Proof.
  destruct (unknown_plan_admin_rejects_paid_defaults ascii_lower (day 0)
              (day 0) 1 "year" 100 "pay-9" "0123456789" "alice" start_world)
    as (Hnone & Hdb & _ & Hpaid); try discriminate.
  split; [exact Hnone|]. split; [exact Hdb|].
  destruct Hpaid as [_ Hrows]; [intros [|k] s Hk; discriminate|].
  exact Hrows.
Defined.

(** ** Payment links *)


Lemma first_link_of token session k l :
  option_map state
    (first (select_from session k (fun _ => has_token token) l))
  = link_of token l.
Proof.
  revert k. induction l as [|p l IH]; intros k; [reflexivity|].
  simpl. destruct (has_token token p); [reflexivity | apply IH].
Qed.

Lemma first_link_loaded token w o :
  first_link token w = Some o ->
  exists k p, o = loaded (sessions w) k p
    /\ payment_links (db w) !! k = Some p
    /\ link_of token (payment_links (db w)) = Some p.
Proof.
  intros H. pose proof (first_link_of token (sessions w) 0
                          (payment_links (db w))) as Hl.
  unfold first_link in H. rewrite H in Hl.
  apply first_select_Some in H as (k & p & Hk & _ & -> & _).
  exists k, p. repeat split; auto.
Qed.

Lemma first_link_none token w :
  first_link token w = None <-> link_of token (payment_links (db w)) = None.
Proof.
  rewrite <- (first_link_of token (sessions w) 0). unfold first_link.
  destruct (first _); simpl; split; congruence.
Qed.

Lemma mark_payment_as_paid_unknown token w :
  first_link token w = None ->
  DatabaseService.mark_payment_as_paid token w = (Return None, opened 1 w).
Proof.
  intros H. unfold DatabaseService.mark_payment_as_paid, bind, async_session,
    select. cbn [rows PaymentLinks db sessions].
  unfold first_link, has_token in H. rewrite H. reflexivity.
Qed.

Lemma mark_payment_as_paid_settled token w k p :
  first_link token w = Some (loaded (sessions w) k p) ->
  PaymentLink.paid p = true ->
  DatabaseService.mark_payment_as_paid token w = (Return None, opened 1 w).
Proof.
  intros H Hp. unfold DatabaseService.mark_payment_as_paid, bind,
    async_session, select. cbn [rows PaymentLinks db sessions].
  unfold first_link, has_token in H. rewrite H. cbn [state loaded].
  rewrite Hp. reflexivity.
Qed.

Lemma mark_payment_as_paid_first token w k p :
  first_link token w = Some (loaded (sessions w) k p) ->
  PaymentLink.paid p = false ->
  DatabaseService.mark_payment_as_paid token w =
  (Return (Some (mkMapped None (Some k) (PaymentLink.set_paid true p))),
   mkWorld
     (store PaymentLinks
        (<[k := PaymentLink.set_paid true p]> (payment_links (db w))) (db w))
     (1 + sessions w)).
Proof.
  intros H Hp. unfold DatabaseService.mark_payment_as_paid, bind,
    async_session, select. cbn [rows PaymentLinks db sessions].
  unfold first_link, has_token in H. rewrite H. cbn [state loaded].
  rewrite Hp. destruct w as [[? ? ? ?] ?]. unfold_orm. simpl.
  rewrite Nat.eqb_refl. reflexivity.
Qed.


Section LinkFacts.
Variable lower : string -> string.
Variable round : float -> Z -> float.

Lemma perform_links_step o w :
  links_step (payment_links (db w))
    (payment_links (db (perform lower round o w))).
Proof.
  destruct o as
    [ tg | now tg un fn ln | uid | now uid | unique_id now tg st amount
    | unique_id | unique_id | now now_query user_id st amount pid
    | now now_query uuid username subscription_type | now_query now username
    | ht aw comp mt o1 ox o2 url | now1 now2 | match_id ];
    try (apply links_same; frame_method; fail).
  - (* create_payment_link *)
    apply links_new with (p := PaymentLink.mk tg unique_id st amount now false).
    destruct w as [[? ? ? ?] ?]. unfold perform,
      DatabaseService.create_payment_link. unfold_orm. simpl.
    rewrite Nat.eqb_refl. simpl. rewrite Nat.eqb_refl.
    rewrite list_lookup_middle by reflexivity. reflexivity.
  - (* mark_payment_as_paid *)
    simpl perform. destruct (first_link unique_id w) as [o|] eqn:Hf.
    + destruct (first_link_loaded _ _ _ Hf) as (k & p & -> & Hk & _).
      destruct (PaymentLink.paid p) eqn:Hp.
      * rewrite (mark_payment_as_paid_settled _ _ _ _ Hf Hp).
        now apply links_same.
      * rewrite (mark_payment_as_paid_first _ _ _ _ Hf Hp).
        apply links_paid with k p; [assumption|].
        destruct w as [[? ? ? ?] ?]. reflexivity.
    + rewrite (mark_payment_as_paid_unknown _ _ Hf). now apply links_same.
Qed.
End LinkFacts.


Lemma link_of_Some token l p :
  link_of token l = Some p <->
  exists k, l !! k = Some p /\ has_token token p = true
    /\ forall j q, (j < k)%nat -> l !! j = Some q -> has_token token q = false.
Proof.
  induction l as [|a l IH]; simpl.
  - split; [discriminate | intros ([|k] & H & _); discriminate].
  - destruct (has_token token a) eqn:Ha.
    + split.
      * intros [= <-]. exists 0%nat. repeat split; auto. intros j q Hj. lia.
      * intros ([|k] & Hk & Hp & Hmin); simpl in Hk; [congruence|].
        specialize (Hmin 0%nat a (Nat.lt_0_succ k) eq_refl). congruence.
    + rewrite IH. split.
      * intros (k & Hk & Hp & Hmin). exists (S k). repeat split; auto.
        intros [|j] q Hj Hq; simpl in Hq; [congruence|].
        apply (Hmin j q); [lia | assumption].
      * intros ([|k] & Hk & Hp & Hmin); simpl in Hk; [congruence|].
        exists k. repeat split; auto. intros j q Hj Hq.
        apply (Hmin (S j) q); [lia | assumption].
Qed.

Lemma has_token_set_paid token b p :
  has_token token (PaymentLink.set_paid b p) = has_token token p.
Proof. reflexivity. Qed.

Lemma links_step_link token l l' p :
  links_step l l' -> link_of token l = Some p ->
  link_of token l' = Some p
  \/ link_of token l' = Some (PaymentLink.set_paid true p).
Proof.
  intros Hstep Hl. apply link_of_Some in Hl as (k & Hk & Hp & Hmin).
  destruct Hstep as [-> | q -> | i q Hi ->].
  - left. apply link_of_Some. eauto.
  - left. apply link_of_Some. exists k. repeat split; auto.
    + now apply lookup_app_l_Some.
    + intros j r Hj Hr. apply (Hmin j r Hj).
      rewrite lookup_app_l in Hr; [assumption|].
      apply lookup_lt_Some in Hk. lia.
  - destruct (decide (i = k)) as [-> | Hne].
    + right. assert (q = p) as -> by congruence.
      apply link_of_Some. exists k. repeat split; auto.
      * apply list_lookup_insert_eq. now apply lookup_lt_Some in Hk.
      * intros j r Hj Hr. rewrite list_lookup_insert_ne in Hr by lia.
        apply (Hmin j r Hj Hr).
    + left. apply link_of_Some. exists k. repeat split; auto.
      * now rewrite list_lookup_insert_ne.
      * intros j r Hj Hr.
        apply list_lookup_insert_Some in Hr as [(-> & <- & _) | [_ Hr]].
        -- rewrite has_token_set_paid. apply (Hmin j q Hj Hi).
        -- apply (Hmin j r Hj Hr).
Qed.

Lemma links_step_spent token l l' :
  links_step l l' -> spent token l -> spent token l'.
Proof.
  intros Hstep (p & Hl & Hp).
  destruct (links_step_link token l l' p Hstep Hl) as [H | H].
  - exists p. auto.
  - exists (PaymentLink.set_paid true p). auto.
Qed.

Lemma links_step_row l l' k p :
  links_step l l' -> l !! k = Some p ->
  l' !! k = Some p \/ l' !! k = Some (PaymentLink.set_paid true p).
Proof.
  intros Hstep Hk. destruct Hstep as [-> | q -> | i q Hi ->].
  - now left.
  - left. now apply lookup_app_l_Some.
  - destruct (decide (i = k)) as [-> | Hne].
    + right. assert (q = p) as -> by congruence.
      apply list_lookup_insert_eq. now apply lookup_lt_Some in Hk.
    + left. now rewrite list_lookup_insert_ne.
Qed.

Lemma mark_payment_as_paid_spent token w :
  spent token (payment_links (db w)) ->
  DatabaseService.mark_payment_as_paid token w = (Return None, opened 1 w).
Proof.
  intros (p & Hl & Hp).
  destruct (first_link token w) as [o|] eqn:Hf.
  - destruct (first_link_loaded _ _ _ Hf) as (k & q & -> & _ & Hq).
    assert (q = p) as -> by congruence.
    exact (mark_payment_as_paid_settled _ _ _ _ Hf Hp).
  - apply first_link_none in Hf. congruence.
Qed.

Lemma mark_payment_as_paid_outcome token w :
  (exists k p,
     payment_links (db w) !! k = Some p
     /\ link_of token (payment_links (db w)) = Some p
     /\ PaymentLink.paid p = false
     /\ DatabaseService.mark_payment_as_paid token w =
        (Return (Some (mkMapped None (Some k) (PaymentLink.set_paid true p))),
         mkWorld
           (store PaymentLinks
              (<[k := PaymentLink.set_paid true p]> (payment_links (db w)))
              (db w))
           (1 + sessions w))
     /\ spent token
          (payment_links
             (db (snd (DatabaseService.mark_payment_as_paid token w)))))
  \/ ((link_of token (payment_links (db w)) = None
       \/ spent token (payment_links (db w)))
      /\ DatabaseService.mark_payment_as_paid token w
         = (Return None, opened 1 w)).
Proof.
  destruct (first_link token w) as [o|] eqn:Hf.
  - destruct (first_link_loaded _ _ _ Hf) as (k & p & -> & Hk & Hl).
    destruct (PaymentLink.paid p) eqn:Hp.
    + right. split; [right; exists p; auto|].
      exact (mark_payment_as_paid_settled _ _ _ _ Hf Hp).
    + left. exists k, p.
      pose proof (mark_payment_as_paid_first _ _ _ _ Hf Hp) as Hrun.
      repeat split; auto. rewrite Hrun.
      assert (Hstep : links_step (payment_links (db w))
                (<[k := PaymentLink.set_paid true p]> (payment_links (db w))))
        by (now apply links_paid with k p).
      destruct w as [[us ss ps ms] n]. cbn [snd db store PaymentLinks
        payment_links] in *.
      exists (PaymentLink.set_paid true p). split; [|reflexivity].
      apply link_of_Some in Hl as (k' & Hk' & Ht & Hmin).
      apply link_of_Some. exists k.
      assert (k' = k) as ->.
      { apply first_select_Some in Hf as (i & q & Hi & Hq & Heq & Hm).
        injection Heq as Hki Hpq. simpl in Hki. subst i q.
        cbn [db payment_links] in Hi, Hm.
        destruct (Nat.lt_trichotomy k' k) as [Hlt | [Hkk | Hgt]]; auto.
        - specialize (Hm k' p Hlt Hk'). simpl in Hm. congruence.
        - specialize (Hmin k p Hgt Hi). congruence. }
      repeat split; auto.
      * apply list_lookup_insert_eq. now apply lookup_lt_Some in Hk.
      * intros j r Hj Hr. rewrite list_lookup_insert_ne in Hr by lia.
        apply (Hmin j r Hj Hr).
  - right. split; [left; now apply first_link_none|].
    exact (mark_payment_as_paid_unknown _ _ Hf).
Qed.

Section RedeemFacts.
Variable lower : string -> string.
Variable round : float -> Z -> float.

Lemma perform_all_links ops w :
  (forall token, spent token (payment_links (db w)) ->
     spent token (payment_links (db (perform_all lower round ops w))))
  /\ (forall k p, payment_links (db w) !! k = Some p ->
        payment_links (db (perform_all lower round ops w)) !! k = Some p
        \/ payment_links (db (perform_all lower round ops w)) !! k
           = Some (PaymentLink.set_paid true p)).
Proof.
  revert w. induction ops as [|o ops IH]; intros w; simpl.
  - split; auto.
  - destruct (IH (perform lower round o w)) as [IHs IHr].
    pose proof (perform_links_step lower round o w) as Hstep. split.
    + intros token Hs. apply IHs. now apply links_step_spent with (2 := Hs).
    + intros k p Hk.
      destruct (links_step_row _ _ k p Hstep Hk) as [H | H];
        destruct (IHr _ _ H) as [H' | H']; auto.
Qed.

Lemma redemptions_spent token ops w :
  spent token (payment_links (db w)) ->
  redemptions lower round token ops w = 0%nat.
Proof.
  revert w. induction ops as [|o ops IH]; intros w Hs; [reflexivity|].
  cbn [redemptions].
  rewrite IH
    by (apply links_step_spent with (2 := Hs); apply perform_links_step).
  destruct o as
    [ tg | now tg un fn ln | uid | now uid | unique_id now tg st amount
    | unique_id | unique_id | now now_query user_id st amount pid
    | now now_query uuid username subscription_type | now_query now username
    | ht aw comp mt o1 ox o2 url | now1 now2 | match_id ];
    try reflexivity.
  destruct (String.eqb_spec unique_id token) as [-> |]; [|reflexivity].
  now rewrite mark_payment_as_paid_spent.
Qed.

Lemma redemptions_at_most_one token ops w :
  (redemptions lower round token ops w <= 1)%nat.
Proof.
  revert w. induction ops as [|o ops IH]; intros w; [simpl; lia|].
  cbn [redemptions]. specialize (IH (perform lower round o w)).
  destruct o as
    [ tg | now tg un fn ln | uid | now uid | unique_id now tg st amount
    | unique_id | unique_id | now now_query user_id st amount pid
    | now now_query uuid username subscription_type | now_query now username
    | ht aw comp mt o1 ox o2 url | now1 now2 | match_id ];
    try lia.
  destruct (String.eqb_spec unique_id token) as [-> |]; [|lia].
  destruct (mark_payment_as_paid_outcome token w)
    as [(k & p & _ & _ & _ & Hrun & Hspent) | [_ Hrun]].
  - rewrite Hrun. cbn [fst]. simpl perform.
    rewrite redemptions_spent by exact Hspent. lia.
  - rewrite Hrun. cbn [fst]. lia.
Qed.
End RedeemFacts.

(** C2.  [mark_payment_as_paid]: the first call for a token whose link is
    unsettled sets [paid] on that row, on no other, and returns the row;
    every later call for the token, after any calls of the service, returns
    [None]; a call for an unknown token or a settled link returns [None] and
    changes no table.  In any run at most one call for a token returns a
    row, and a settled row stays settled. *)
Theorem redeem_settles_once
    (lower : string -> string) (round : float -> Z -> float)
    (token : string) (w : World) :
  let l := payment_links (db w) in
  let result := DatabaseService.mark_payment_as_paid token w in
  (forall p, link_of token l = Some p -> PaymentLink.paid p = false ->
     exists k, l !! k = Some p
       /\ fst result
          = Return (Some (mkMapped None (Some k)
                            (PaymentLink.set_paid true p)))
       /\ payment_links (db (snd result))
          = <[k := PaymentLink.set_paid true p]> l
       /\ users (db (snd result)) = users (db w)
       /\ subscriptions (db (snd result)) = subscriptions (db w)
       /\ matches (db (snd result)) = matches (db w)
       /\ forall ops,
            fst (DatabaseService.mark_payment_as_paid token
                   (perform_all lower round ops (snd result)))
            = Return None)
  /\ (link_of token l = None ->
      fst result = Return None /\ db (snd result) = db w)
  /\ (forall p, link_of token l = Some p -> PaymentLink.paid p = true ->
        fst result = Return None /\ db (snd result) = db w
        /\ forall ops,
             fst (DatabaseService.mark_payment_as_paid token
                    (perform_all lower round ops w))
             = Return None)
  /\ (forall ops, (redemptions lower round token ops w <= 1)%nat)
  /\ (forall ops k p, l !! k = Some p -> PaymentLink.paid p = true ->
        exists p',
          payment_links (db (perform_all lower round ops w)) !! k = Some p'
          /\ PaymentLink.paid p' = true
          /\ PaymentLink.unique_id p' = PaymentLink.unique_id p).
Proof.
  intros l result. subst l result. repeat apply conj.
  - intros p Hl Hp.
    destruct (mark_payment_as_paid_outcome token w)
      as [(k & q & Hk & Hq & _ & Hrun & Hspent) | [[Hnone | Hs] _]].
    + assert (q = p) as -> by congruence. exists k.
      split; [assumption|]. rewrite Hrun in *. cbn [fst snd] in *.
      split; [reflexivity|].
      split; [destruct w as [[? ? ? ?] ?]; reflexivity|].
      split; [destruct w as [[? ? ? ?] ?]; reflexivity|].
      split; [destruct w as [[? ? ? ?] ?]; reflexivity|].
      split; [destruct w as [[? ? ? ?] ?]; reflexivity|].
      intros ops. rewrite mark_payment_as_paid_spent; [reflexivity|].
      now apply perform_all_links.
    + congruence.
    + destruct Hs as (q & Hq & Hpaid). congruence.
  - intros Hnone. apply first_link_none in Hnone.
    rewrite (mark_payment_as_paid_unknown _ _ Hnone). split; reflexivity.
  - intros p Hl Hp.
    assert (Hs : spent token (payment_links (db w))) by (exists p; auto).
    rewrite (mark_payment_as_paid_spent _ _ Hs).
    split; [reflexivity|]. split; [reflexivity|].
    intros ops. rewrite mark_payment_as_paid_spent; [reflexivity|].
    now apply perform_all_links.
  - intros ops. apply redemptions_at_most_one.
  - intros ops k p Hk Hp.
    destruct (proj2 (perform_all_links lower round ops w) k p Hk) as [H | H].
    + exists p. auto.
    + exists (PaymentLink.set_paid true p). auto.
Qed.

Lemma redeem_settles_once_witness :
  fst (DatabaseService.mark_payment_as_paid "a1b2c3d4e5" link_world)
    = Return (Some (mkMapped None (Some 0%nat)
                      (PaymentLink.set_paid true link_row)))
  /\ fst (DatabaseService.mark_payment_as_paid "a1b2c3d4e5"
            (snd (DatabaseService.mark_payment_as_paid "a1b2c3d4e5"
                    link_world)))
     = Return None.
Proof.
  destruct (redeem_settles_once ascii_lower round_exact "a1b2c3d4e5"
              link_world) as (Hfirst & _).
  destruct (Hfirst link_row) as (k & Hk & Hres & _ & _ & _ & _ & Hlater).
  - reflexivity.
  - reflexivity.
  - split.
    + destruct k as [|k]; [exact Hres | destruct k; discriminate].
    + exact (Hlater []).
Defined.

(** ** The ledger on the small store *)

Lemma ledger_one_active_row_not_extended_witness :
  at_most_one_active (day 5)
    (db (perform_all ascii_lower round_exact
           [ CreateSubscription (day 0) (day 0) 1 "week" 650 "pay-1";
             CreateSubscription (day 3) (day 3) 1 "two_weeks" 1300 "pay-2";
             RevokeSubscription (day 4) (day 4) "alice";
             AdminCreateSubscription (day 5) (day 5) "0123456789" "alice"
               "week" ]
           start_world))
  /\ fst (DatabaseService.create_subscription (day 3) (day 3) 1 "two_weeks"
            1300 "pay-2" week_world) = Raise InvalidRequestError
  /\ subscriptions
       (db (snd (DatabaseService.create_subscription (day 3) (day 3) 1
                   "two_weeks" 1300 "pay-2" week_world)))
     = [week_row]
  /\ Subscription.end_date week_row = day 7
  /\ Subscription.end_date
       (state (DatabaseService.extend_paid (day 3)
                 (DatabaseService.paid_duration "two_weeks") 1300 "pay-2"
                 (mkMapped None (Some 0%nat) week_row)))
     = day 21.
Proof.
  split.
  - apply (proj1 (ledger_one_active_row_not_extended ascii_lower round_exact
                    start_world) (day 0)
             [ CreateSubscription (day 0) (day 0) 1 "week" 650 "pay-1";
               CreateSubscription (day 3) (day 3) 1 "two_weeks" 1300 "pay-2";
               RevokeSubscription (day 4) (day 4) "alice";
               AdminCreateSubscription (day 5) (day 5) "0123456789" "alice"
                 "week" ]);
      reflexivity.
  - destruct (ledger_one_active_row_not_extended ascii_lower round_exact
                week_world) as (_ & _ & _ & _ & _ & _ & _ & Hpaid & _).
    destruct (Hpaid (day 3) (day 3) 1 "two_weeks" 1300%float "pay-2" 0%nat
                week_row) as (Hraise & Hrows & _ & Hend & _).
    + reflexivity.
    + reflexivity.
    + vm_compute. discriminate.
    + split; [exact Hraise|]. split; [exact Hrows|].
      split; [reflexivity|]. rewrite Hend. reflexivity.
Defined.

Lemma revoke_ends_subscription_witness :
  fst (DatabaseService.revoke_subscription ascii_lower (day 5) (day 5) "alice"
         week_world) = Return (Some 1001)
  /\ subscriptions
       (db (snd (DatabaseService.revoke_subscription ascii_lower (day 5)
                   (day 5) "alice" week_world)))
     = [Subscription.set_end_date (day 5 - timedelta_minutes 1) week_row]
  /\ fst (DatabaseService.get_active_subscription (day 5) 1
            (snd (DatabaseService.revoke_subscription ascii_lower (day 5)
                    (day 5) "alice" week_world)))
     = Return None.
Proof.
  destruct (revoke_ends_subscription ascii_lower round_exact (day 5) (day 5)
              (day 5) "alice" week_world) as (_ & _ & Hfound & Hreach).
  destruct (Hfound 0%nat alice 0%nat week_row)
    as (Hres & Hrows & _ & _ & _ & _ & Hnext).
  - reflexivity.
  - reflexivity.
  - reflexivity.
  - vm_compute. discriminate.
  - apply (Hreach (day 0)
             [CreateSubscription (day 0) (day 0) 1 "week" 650 "pay-1"]
             start_world); try reflexivity.
    vm_compute. discriminate.
  - lia.
  - lia.
  - split; [exact Hres|]. split; [exact Hrows | exact Hnext].
Defined.

(** ** The odds cache *)

Lemma api_fetch_failed c net :
  failed (reply net (requests net)) = true ->
  FootballApiClient.fetch_matches c net =
  (JArr [], if FootballApiClient.has_key c
            then mkNet (S (requests net)) (reply net) else net).
Proof.
  intros H. unfold FootballApiClient.fetch_matches.
  destruct (FootballApiClient.has_key c); [|reflexivity]. simpl.
  destruct (reply net (requests net)) as [|status body]; [reflexivity|].
  simpl in H. destruct (status =? 200); simpl in *; [|reflexivity].
  destruct body; [discriminate | reflexivity].
Qed.

Lemma api_fetch_no_key c net :
  FootballApiClient.has_key c = false ->
  FootballApiClient.fetch_matches c net = (JArr [], net).
Proof.
  intros H. unfold FootballApiClient.fetch_matches. now rewrite H.
Qed.

Lemma api_fetch_ok c net data :
  FootballApiClient.has_key c = true ->
  reply net (requests net) = Response 200 (Some data) ->
  FootballApiClient.fetch_matches c net =
  (data, mkNet (S (requests net)) (reply net)).
Proof.
  intros Hk Hr. unfold FootballApiClient.fetch_matches. now rewrite Hk, Hr.
Qed.

Lemma fetch_matches_fresh now s net :
  MatchService.fresh now s = true ->
  MatchService.fetch_matches now s net = (MatchService.cache s, s, net).
Proof. intros H. unfold MatchService.fetch_matches. now rewrite H. Qed.

Lemma fetch_matches_stale now s net data net' :
  MatchService.fresh now s = false ->
  FootballApiClient.fetch_matches (MatchService.api_client s) net
    = (data, net') ->
  MatchService.fetch_matches now s net =
  if Py.truthy data
  then (data,
        MatchService.mk (MatchService.api_client s) data (Some now)
          (MatchService.cache_ttl s),
        net')
  else (MatchService.cache s, s, net').
Proof.
  intros Hf Ha. unfold MatchService.fetch_matches. now rewrite Hf, Ha.
Qed.

Lemma fetch_at_never_succeeded times c ttl net :
  (forall n, failed (reply net n) = true) ->
  MatchService.fetch_at times (MatchService.init c ttl) net =
  (map (fun _ => JArr []) times, MatchService.init c ttl,
   if FootballApiClient.has_key c
   then mkNet (length times + requests net) (reply net) else net).
Proof.
  intros Hfail. revert net Hfail.
  induction times as [|now times IH]; intros net Hfail.
  - simpl. destruct net. destruct (FootballApiClient.has_key c); reflexivity.
  - cbn [MatchService.fetch_at].
    rewrite (fetch_matches_stale now (MatchService.init c ttl) net _ _ eq_refl
               (api_fetch_failed c net (Hfail _))).
    cbn [Py.truthy length Nat.eqb negb MatchService.cache MatchService.init].
    destruct (FootballApiClient.has_key c) eqn:Hk.
    + rewrite IH by exact Hfail. cbn [requests reply map length].
      now rewrite Nat.add_succ_r.
    + now rewrite IH by exact Hfail.
Qed.

(** C7, as stated, fails: the cache holds one entry fetched at instant 0
    with a TTL of 600 s; at 1000 s the upstream answers 200 with the empty
    list.  The request is made, and the cache and [last_update] stay as they
    were. *)
Lemma fetch_matches_empty_success_keeps_cache :
  MatchService.fresh (seconds 1000) warm_service = false
  /\ reply (always (Response 200 (Some (JArr [])))) 0
     = Response 200 (Some (JArr []))
  /\ MatchService.fetch_matches (seconds 1000) warm_service
       (always (Response 200 (Some (JArr []))))
     = (JArr [entry_in_range], warm_service,
        mkNet 1 (reply (always (Response 200 (Some (JArr [])))))).
Proof. repeat split. Qed.

(** C7, amended.  [fetch_matches]: a cache younger than the TTL is returned
    as it is and no request is made; otherwise one request is made (none
    without an API key), a payload that is true in Python's sense replaces
    the cache and sets [last_update] to [now], and after a failure or a
    payload that is false in that sense (the empty list) the cache, expired
    or not, is returned and the service is as it was.  The call always
    returns; a service none of whose fetches succeeded returns the empty
    list each time. *)
Theorem fetch_matches_serves_cache (now : datetime) (s : MatchService.t)
    (net : Net) :
  (MatchService.fresh now s = true ->
   MatchService.fetch_matches now s net = (MatchService.cache s, s, net))
  /\ (forall data,
        MatchService.fresh now s = false ->
        FootballApiClient.has_key (MatchService.api_client s) = true ->
        reply net (requests net) = Response 200 (Some data) ->
        Py.truthy data = true ->
        MatchService.fetch_matches now s net =
        (data,
         MatchService.mk (MatchService.api_client s) data (Some now)
           (MatchService.cache_ttl s),
         mkNet (S (requests net)) (reply net)))
  /\ (MatchService.fresh now s = false ->
      FootballApiClient.has_key (MatchService.api_client s) = false
      \/ failed (reply net (requests net)) = true
      \/ (exists data, reply net (requests net) = Response 200 (Some data)
                       /\ Py.truthy data = false) ->
      fst (MatchService.fetch_matches now s net) = (MatchService.cache s, s)
      /\ (requests (snd (MatchService.fetch_matches now s net))
          <= S (requests net))%nat)
  /\ (forall times c ttl,
        (forall n, failed (reply net n) = true) ->
        fst (fst (MatchService.fetch_at times (MatchService.init c ttl) net))
        = map (fun _ => JArr []) times).
Proof.
  repeat apply conj.
  - apply fetch_matches_fresh.
  - intros data Hf Hk Hr Ht.
    rewrite (fetch_matches_stale now s net _ _ Hf (api_fetch_ok _ _ _ Hk Hr)).
    now rewrite Ht.
  - intros Hf [Hk | [Hfail | (data & Hr & Ht)]].
    + rewrite (fetch_matches_stale now s net _ _ Hf (api_fetch_no_key _ _ Hk)).
      simpl. split; [reflexivity | lia].
    + rewrite (fetch_matches_stale now s net _ _ Hf
                 (api_fetch_failed _ _ Hfail)).
      simpl. split; [reflexivity|].
      destruct (FootballApiClient.has_key _); simpl; lia.
    + destruct (FootballApiClient.has_key (MatchService.api_client s)) eqn:Hk.
      * rewrite (fetch_matches_stale now s net _ _ Hf
                   (api_fetch_ok _ _ _ Hk Hr)).
        rewrite Ht. simpl. split; [reflexivity | lia].
      * rewrite (fetch_matches_stale now s net _ _ Hf
                   (api_fetch_no_key _ _ Hk)).
        simpl. split; [reflexivity | lia].
  - intros times c ttl Hfail. now rewrite fetch_at_never_succeeded.
Qed.

Lemma fetch_matches_serves_cache_witness :
  MatchService.fetch_matches (seconds 599) warm_service (always RequestFailed)
    = (JArr [entry_in_range], warm_service, always RequestFailed)
  /\ MatchService.fetch_matches (seconds 600) warm_service
       (always (Response 200 (Some (JArr [entry_elsewhere]))))
     = (JArr [entry_elsewhere],
        MatchService.mk client (JArr [entry_elsewhere]) (Some (seconds 600))
          600,
        mkNet 1 (fun _ => Response 200 (Some (JArr [entry_elsewhere]))))
  /\ fst (MatchService.fetch_matches (seconds 600) warm_service
            (always (Response 503 None)))
     = (JArr [entry_in_range], warm_service).
Proof.
  split; [|split].
  - apply (proj1 (fetch_matches_serves_cache (seconds 599) warm_service
                    (always RequestFailed))). reflexivity.
  - apply (proj1 (proj2 (fetch_matches_serves_cache (seconds 600)
                           warm_service
                           (always (Response 200
                                      (Some (JArr [entry_elsewhere]))))))
             (JArr [entry_elsewhere])); reflexivity.
  - apply (proj1 (proj2 (proj2 (fetch_matches_serves_cache (seconds 600)
                                  warm_service
                                  (always (Response 503 None)))))).
    + reflexivity.
    + right. left. reflexivity.
Defined.

(** C9.  When the cache has expired and the upstream answers 200 with the
    empty list, [fetch_matches] makes the request, leaves the cache and
    [last_update] as they were and returns the old cache: result and
    service are what a failed request gives. *)
Theorem fetch_matches_empty_payload_is_failure (now : datetime)
    (s : MatchService.t) (net : Net) :
  MatchService.fresh now s = false ->
  FootballApiClient.has_key (MatchService.api_client s) = true ->
  reply net (requests net) = Response 200 (Some (JArr [])) ->
  MatchService.fetch_matches now s net
    = (MatchService.cache s, s, mkNet (S (requests net)) (reply net))
  /\ fst (MatchService.fetch_matches now s net)
     = fst (MatchService.fetch_matches now s
              (mkNet (requests net) (fun _ => RequestFailed))).
Proof.
  intros Hf Hk Hr.
  rewrite (fetch_matches_stale now s net _ _ Hf (api_fetch_ok _ _ _ Hk Hr)).
  rewrite (fetch_matches_stale now s
             (mkNet (requests net) (fun _ => RequestFailed)) _ _ Hf
             (api_fetch_failed (MatchService.api_client s)
                (mkNet (requests net) (fun _ => RequestFailed)) eq_refl)).
  rewrite Hk. split; reflexivity.
Qed.

Lemma fetch_matches_empty_payload_is_failure_witness :
  MatchService.fetch_matches (seconds 1000) warm_service
    (always (Response 200 (Some (JArr []))))
  = (JArr [entry_in_range], warm_service,
     mkNet 1 (fun _ => Response 200 (Some (JArr [])))).
Proof.
  apply (proj1 (fetch_matches_empty_payload_is_failure (seconds 1000)
                  warm_service (always (Response 200 (Some (JArr []))))
                  eq_refl eq_refl eq_refl)).
Defined.

(** ** The range filter *)

Section FilterFacts.
Variable fromisoformat : string -> option Py.pydatetime.
Variable float_of_string : string -> option float.

Lemma find_h2h_Some markets market :
  MatchService.find_h2h markets = Return (Some market) ->
  In market markets /\ MatchService.is_h2h market = true.
Proof.
  induction markets as [|m markets IH]; simpl; [discriminate|].
  unfold MatchService.is_h2h.
  destruct (Py.get "key" JNull m) as [k|e] eqn:Hk; [|discriminate].
  destruct k as [| | | |k| |]; try (intros H; destruct (IH H); auto).
  destruct (String.eqb k "h2h") eqn:Hs.
  - intros [= <-]. rewrite Hk, Hs. auto.
  - intros H. destruct (IH H). auto.
Qed.

Ltac split_if :=
  match goal with
  | |- context [if ?c then _ else _] => destruct c
  end.

Lemma getitem_truthy i v x : Py.getitem i v = Return x -> Py.truthy v = true.
Proof.
  destruct v as [|b|n|y|s|l|kvs]; simpl; try discriminate.
  - destruct s; [destruct i; discriminate | reflexivity].
  - destruct l; [destruct i; discriminate | reflexivity].
Qed.

Lemma iter_falsy v l : Py.truthy v = false -> Py.iter v = Return l -> l = [].
Proof.
  destruct v as [|b|n|y|s|l'|kvs]; simpl; try discriminate.
  - destruct s; [intros _ [= <-]; reflexivity | discriminate].
  - destruct l'; [intros _ [= <-]; reflexivity | discriminate].
  - destruct kvs; [intros _ [= <-]; reflexivity | discriminate].
Qed.

(** The loop body appends exactly the entries its description accepts. *)
Lemma appended_accepts now min_odds max_odds match_ :
  MatchService.appended fromisoformat float_of_string now min_odds max_odds
    match_
  = MatchService.accepts fromisoformat float_of_string now min_odds max_odds
      match_.
Proof.
  unfold MatchService.appended, MatchService.accepts, MatchService.examine,
    MatchService.upcoming.
  destruct (Py.get "commence_time" JNull match_) as [ct|e]; [|reflexivity].
  destruct ct as [|b|n|x|str|l|kvs]; cbn [Py.truthy negb];
    try reflexivity; try (split_if; reflexivity).
  destruct (String.eqb str ""); [reflexivity|]. cbn [negb andb].
  destruct (fromisoformat (Py.replace_Z str)) as [dt|]; [|reflexivity].
  unfold Py.lt_naive. destruct (Py.aware dt); [reflexivity|].
  destruct (Py.instant dt <? now); [reflexivity|]. cbn [negb andb].
  (* the first bookmaker *)
  unfold MatchService.first_bookmaker.
  destruct (Py.get "bookmakers" (JArr []) match_) as [bks|e]; [|reflexivity].
  destruct (Py.truthy bks) eqn:Hbks; cbn [negb].
  2:{ destruct (Py.getitem 0 bks) as [bookmaker|e] eqn:Hg; [|reflexivity].
      apply getitem_truthy in Hg. congruence. }
  destruct (Py.getitem 0 bks) as [bookmaker|e]; [|reflexivity].
  (* its markets *)
  unfold MatchService.h2h_of, MatchService.market_list.
  destruct (Py.get "markets" (JArr []) bookmaker) as [mkts|e]; [|reflexivity].
  destruct (Py.truthy mkts) eqn:Hmkts; cbn [negb].
  2:{ destruct (Py.iter mkts) as [ml|e] eqn:Hi; [|reflexivity].
      now rewrite (iter_falsy _ _ Hmkts Hi). }
  destruct (Py.iter mkts) as [ml|e]; [|reflexivity].
  destruct (MatchService.find_h2h ml) as [[market|]|e]; try reflexivity.
  (* the outcomes of the h2h market *)
  unfold MatchService.outcome_count, MatchService.price_of.
  destruct (Py.get "outcomes" (JArr []) market) as [outs|e]; [|reflexivity].
  destruct (Py.len outs) as [n|e]; [|reflexivity].
  rewrite Nat.ltb_antisym. destruct (2 <=? n)%nat; [|reflexivity].
  cbn [negb andb].
  destruct (Py.getitem 0 outs) as [o0|e]; [|reflexivity].
  destruct (Py.get "price" (JInt 0) o0) as [pr0|e]; [|reflexivity].
  destruct (MatchService.float_ float_of_string pr0) as [p1|e]; [|reflexivity].
  destruct (Py.getitem 1 outs) as [o1|e]; [|reflexivity].
  destruct (Py.get "price" (JInt 0) o1) as [pr1|e]; [|reflexivity].
  destruct (MatchService.float_ float_of_string pr1) as [p2|e]; [|reflexivity].
  destruct (MatchService.in_range min_odds max_odds p1
            || MatchService.in_range min_odds max_odds p2); reflexivity.
Qed.

Lemma accepts_true now min_odds max_odds match_ :
  MatchService.accepts fromisoformat float_of_string now min_odds max_odds
    match_ = true ->
  exists bookmaker market p1 p2,
    MatchService.first_bookmaker match_ = Some bookmaker
    /\ MatchService.h2h_of bookmaker = Some market
    /\ (2 <= MatchService.outcome_count market)%nat
    /\ MatchService.price_of float_of_string 0 market = Some p1
    /\ MatchService.price_of float_of_string 1 market = Some p2
    /\ (MatchService.in_range min_odds max_odds p1
        || MatchService.in_range min_odds max_odds p2) = true.
Proof.
  unfold MatchService.accepts. intros H. apply andb_prop in H as [_ H].
  destruct (MatchService.first_bookmaker match_) as [bookmaker|] eqn:Hb;
    [|discriminate].
  destruct (MatchService.h2h_of bookmaker) as [market|] eqn:Hm;
    [|discriminate].
  apply andb_prop in H as [Hn H]. apply Nat.leb_le in Hn.
  destruct (MatchService.price_of float_of_string 0 market) as [p1|] eqn:H1;
    [|discriminate].
  destruct (MatchService.price_of float_of_string 1 market) as [p2|] eqn:H2;
    [|discriminate].
  exists bookmaker, market, p1, p2. repeat split; assumption.
Qed.

Lemma h2h_of_Some bookmaker market :
  MatchService.h2h_of bookmaker = Some market ->
  In market (MatchService.market_list bookmaker)
  /\ MatchService.is_h2h market = true.
Proof.
  unfold MatchService.h2h_of.
  destruct (MatchService.find_h2h (MatchService.market_list bookmaker))
    as [[mk|]|e] eqn:Hf; try discriminate.
  intros [= <-]. now apply find_h2h_Some.
Qed.

Lemma check_result now_fetch now min_odds max_odds s net result s' net' :
  MatchService.check_for_matches_with_target_odds fromisoformat
    float_of_string now_fetch now min_odds max_odds s net
    = (Return result, s', net') ->
  exists entries,
    Py.iter (fst (fst (MatchService.fetch_matches now_fetch s net)))
      = Return entries
    /\ result
       = List.filter
           (MatchService.accepts fromisoformat float_of_string now min_odds
              max_odds) entries.
Proof.
  unfold MatchService.check_for_matches_with_target_odds.
  destruct (MatchService.fetch_matches now_fetch s net) as [[ms s1] net1].
  destruct (Py.iter ms) as [entries|e] eqn:Hi; [|discriminate].
  intros [= <- _ _]. exists entries. split; [exact Hi|].
  apply filter_ext. intros entry. apply appended_accepts.
Qed.
End FilterFacts.

(** C10.  [check_for_matches_with_target_odds] returns the entries of the
    snapshot that are upcoming and whose first listed bookmaker has a first
    market with key "h2h" that has at least two outcomes, the first or the
    second of them priced within [min_odds, max_odds]; nothing else of an
    entry is read.  Hence an entry is left out when it has no first
    bookmaker, when no h2h market of the first bookmaker has two outcomes,
    or when the first two prices of that market are both out of range,
    whatever the other bookmakers and the further outcomes quote. *)
Theorem range_filter_reads_first_bookmaker
    (fromisoformat : string -> option Py.pydatetime)
    (float_of_string : string -> option float)
    (now_fetch now : datetime) (min_odds max_odds : float)
    (s s' : MatchService.t) (net net' : Net) (result : list json) :
  MatchService.check_for_matches_with_target_odds fromisoformat
    float_of_string now_fetch now min_odds max_odds s net
    = (Return result, s', net') ->
  (exists entries,
     Py.iter (fst (fst (MatchService.fetch_matches now_fetch s net)))
       = Return entries
     /\ result
        = List.filter
            (MatchService.accepts fromisoformat float_of_string now min_odds
               max_odds) entries)
  /\ (forall entry, In entry result ->
        exists bookmaker market p1 p2,
          MatchService.first_bookmaker entry = Some bookmaker
          /\ MatchService.h2h_of bookmaker = Some market
          /\ In market (MatchService.market_list bookmaker)
          /\ MatchService.is_h2h market = true
          /\ (2 <= MatchService.outcome_count market)%nat
          /\ MatchService.price_of float_of_string 0 market = Some p1
          /\ MatchService.price_of float_of_string 1 market = Some p2
          /\ (MatchService.in_range min_odds max_odds p1
              || MatchService.in_range min_odds max_odds p2) = true)
  /\ (forall entry,
        MatchService.first_bookmaker entry = None -> ~ In entry result)
  /\ (forall entry bookmaker,
        MatchService.first_bookmaker entry = Some bookmaker ->
        (forall market, In market (MatchService.market_list bookmaker) ->
           MatchService.is_h2h market = true ->
           (MatchService.outcome_count market < 2)%nat) ->
        ~ In entry result)
  /\ (forall entry bookmaker market p1 p2,
        MatchService.first_bookmaker entry = Some bookmaker ->
        MatchService.h2h_of bookmaker = Some market ->
        MatchService.price_of float_of_string 0 market = Some p1 ->
        MatchService.price_of float_of_string 1 market = Some p2 ->
        MatchService.in_range min_odds max_odds p1 = false ->
        MatchService.in_range min_odds max_odds p2 = false ->
        ~ In entry result).
Proof.
  intros Hcheck.
  destruct (check_result _ _ _ _ _ _ _ _ _ _ _ Hcheck)
    as (entries & Hiter & Hresult).
  assert (Hread : forall entry, In entry result ->
            exists bookmaker market p1 p2,
              MatchService.first_bookmaker entry = Some bookmaker
              /\ MatchService.h2h_of bookmaker = Some market
              /\ In market (MatchService.market_list bookmaker)
              /\ MatchService.is_h2h market = true
              /\ (2 <= MatchService.outcome_count market)%nat
              /\ MatchService.price_of float_of_string 0 market = Some p1
              /\ MatchService.price_of float_of_string 1 market = Some p2
              /\ (MatchService.in_range min_odds max_odds p1
                  || MatchService.in_range min_odds max_odds p2) = true).
  { intros entry Hin. rewrite Hresult in Hin.
    apply filter_In in Hin as [_ Ha].
    destruct (accepts_true _ _ _ _ _ _ Ha)
      as (b & mk & p1 & p2 & Hb & Hm & Hn & H1 & H2 & Hr).
    destruct (h2h_of_Some _ _ Hm) as [Hin' Hh].
    exists b, mk, p1, p2. repeat split; assumption. }
  split; [exists entries; auto|]. split; [exact Hread|]. repeat apply conj.
  - intros entry Hnone Hin.
    destruct (Hread entry Hin) as (b & _ & _ & _ & Hb & _). congruence.
  - intros entry b Hb Hlack Hin.
    destruct (Hread entry Hin) as (b' & mk & _ & _ & Hb' & _ & Hm & Hh & Hn & _).
    assert (b' = b) as -> by congruence.
    specialize (Hlack mk Hm Hh). lia.
  - intros entry b mk p1 p2 Hb Hm H1 H2 Hr1 Hr2 Hin.
    destruct (Hread entry Hin)
      as (b' & mk' & q1 & q2 & Hb' & Hm' & _ & _ & _ & H1' & H2' & Hr).
    assert (b' = b) as -> by congruence.
    assert (mk' = mk) as -> by congruence.
    assert (q1 = p1) as -> by congruence.
    assert (q2 = p2) as -> by congruence.
    rewrite Hr1, Hr2 in Hr. discriminate.
Qed.

Lemma range_filter_reads_first_bookmaker_witness :
  sweep two_entry_service
    = (Return [entry_in_range], two_entry_service, always RequestFailed)
  /\ ~ In entry_elsewhere [entry_in_range]
  /\ MatchService.price_of no_float_strings 2 (market_ far_outcomes)
     = Some 3.4%float
  /\ MatchService.in_range MatchService.default_min_odds
       MatchService.default_max_odds 3.4 = true
  /\ MatchService.h2h_of (bookmaker_ "second" near_outcomes)
     = Some (market_ near_outcomes)
  /\ MatchService.price_of no_float_strings 0 (market_ near_outcomes)
     = Some 2%float
  /\ MatchService.in_range MatchService.default_min_odds
       MatchService.default_max_odds 2 = true.
Proof.
  split; [reflexivity|]. split; [|repeat split].
  destruct (range_filter_reads_first_bookmaker iso_kickoff no_float_strings
              (seconds 10) (seconds 10) MatchService.default_min_odds
              MatchService.default_max_odds two_entry_service
              two_entry_service (always RequestFailed) (always RequestFailed)
              [entry_in_range] eq_refl) as (_ & _ & _ & _ & Hrange).
  apply (Hrange entry_elsewhere (bookmaker_ "first" far_outcomes)
           (market_ far_outcomes) 6%float 7.5%float); reflexivity.
Defined.

(** ** The persisted notified flag *)


Lemma select_by_id {Row : Type} session (l : list Row) (k : nat) (r : Row) :
  l !! k = Some r ->
  first (select_from session 0 (fun id _ => id =? row_id k) l)
  = Some (loaded session k r).
Proof.
  intros Hk. apply first_select_Some. exists k, r.
  change (0 + k)%nat with k.
  split; [exact Hk|]. split; [apply Z.eqb_refl|]. split; [reflexivity|].
  intros j r' Hj _. change (0 + j)%nat with j.
  apply Z.eqb_neq. unfold row_id. lia.
Qed.

Lemma mark_match_as_notified_run k m w :
  matches (db w) !! k = Some m ->
  DatabaseService.mark_match_as_notified (row_id k) w =
  (Return tt,
   mkWorld
     (store Matches
        (<[k := Match.set_notification_sent true m]> (matches (db w))) (db w))
     (1 + sessions w)).
Proof.
  intros Hk. unfold DatabaseService.mark_match_as_notified, bind,
    async_session, select. cbn [rows Matches db sessions].
  rewrite (select_by_id _ _ _ _ Hk).
  destruct w as [[? ? ? ?] ?]. unfold_orm. simpl.
  rewrite Nat.eqb_refl. reflexivity.
Qed.

Lemma mark_match_as_notified_step match_id w :
  matches_step (matches (db w))
    (matches (db (snd (DatabaseService.mark_match_as_notified match_id w)))).
Proof.
  unfold DatabaseService.mark_match_as_notified, bind, async_session, select.
  cbn [rows Matches db sessions].
  destruct (first _) as [o|] eqn:Hf.
  - apply first_select_Some in Hf as (k & m & Hk & _ & -> & _).
    apply matches_notified with k m; [assumption|].
    destruct w as [[? ? ? ?] ?]. unfold_orm. simpl.
    rewrite Nat.eqb_refl. reflexivity.
  - now apply matches_same.
Qed.

Section NotifiedFacts.
Variable lower : string -> string.
Variable round : float -> Z -> float.

Lemma perform_matches_step o w :
  matches_step (matches (db w)) (matches (db (perform lower round o w))).
Proof.
  destruct o as
    [ tg | now tg un fn ln | uid | now uid | unique_id now tg st amount
    | unique_id | unique_id | now now_query user_id st amount pid
    | now now_query uuid username subscription_type | now_query now username
    | ht aw comp mt o1 ox o2 url | now1 now2 | match_id ];
    try (apply matches_same; frame_method; fail).
  - (* add_match *)
    apply matches_new with (m := Match.mk ht aw comp mt o1 ox o2 false url).
    destruct w as [[? ? ? ?] ?]. unfold perform, DatabaseService.add_match.
    unfold_orm. simpl. rewrite Nat.eqb_refl. simpl. rewrite Nat.eqb_refl.
    rewrite list_lookup_middle by reflexivity. reflexivity.
  - (* mark_match_as_notified *)
    apply mark_match_as_notified_step.
Qed.

Lemma matches_step_notified l l' k m :
  matches_step l l' -> l !! k = Some m -> Match.notification_sent m = true ->
  exists m', l' !! k = Some m' /\ Match.notification_sent m' = true.
Proof.
  intros Hstep Hk Hn. destruct Hstep as [-> | q -> | i q Hi ->].
  - eauto.
  - exists m. split; [now apply lookup_app_l_Some | assumption].
  - destruct (decide (i = k)) as [-> | Hne].
    + exists (Match.set_notification_sent true q). split; [|reflexivity].
      apply list_lookup_insert_eq. now apply lookup_lt_Some in Hk.
    + exists m. split; [now rewrite list_lookup_insert_ne | assumption].
Qed.

Lemma perform_all_notified ops w k m :
  matches (db w) !! k = Some m -> Match.notification_sent m = true ->
  exists m', matches (db (perform_all lower round ops w)) !! k = Some m'
    /\ Match.notification_sent m' = true.
Proof.
  revert w m. induction ops as [|o ops IH]; intros w m Hk Hn; simpl; [eauto|].
  destruct (matches_step_notified _ _ k m (perform_matches_step o w) Hk Hn)
    as (m' & Hk' & Hn').
  exact (IH _ _ Hk' Hn').
Qed.

Lemma get_matches_with_target_odds_result now1 now2 w result :
  fst (DatabaseService.get_matches_with_target_odds round now1 now2 w)
    = Return result ->
  forall o, In o result ->
    exists k m, o = mkMapped None (Some k) m
      /\ matches (db w) !! k = Some m
      /\ Match.notification_sent m = false.
Proof.
  unfold DatabaseService.get_matches_with_target_odds, bind, async_session,
    select, ret. cbn [fst snd rows Matches db sessions].
  intros [= <-] o Hin. apply in_map_iff in Hin as (o' & <- & Hin).
  apply select_from_In in Hin as (k & m & Hk & Hp & ->).
  exists k, m. repeat split; auto.
  unfold DatabaseService.target_odds in Hp.
  destruct (Match.notification_sent m); [|reflexivity].
  cbn [negb] in Hp. rewrite !andb_false_r in Hp. cbn [andb orb] in Hp.
  discriminate.
Qed.

(** X10.  The persisted path, where it is used: once
    [DatabaseService.mark_match_as_notified] has found the row of a match,
    that row is flagged, no later [get_matches_with_target_odds] returns it
    after any calls of the service, and marking it again changes no
    table. *)
Theorem persisted_notified_match_stays_out (k : nat) (m : Match.t)
    (w : World) :
  matches (db w) !! k = Some m ->
  let w1 := snd (DatabaseService.mark_match_as_notified (row_id k) w) in
  matches (db w1)
    = <[k := Match.set_notification_sent true m]> (matches (db w))
  /\ (forall ops now1 now2 result,
        fst (DatabaseService.get_matches_with_target_odds round now1 now2
               (perform_all lower round ops w1)) = Return result ->
        forall o, In o result -> key o <> Some k)
  /\ db (snd (DatabaseService.mark_match_as_notified (row_id k) w1)) = db w1.
Proof.
  intros Hk w1. subst w1. rewrite (mark_match_as_notified_run _ _ _ Hk).
  cbn [snd].
  assert (Hlt : (k < length (matches (db w)))%nat)
    by (now apply lookup_lt_Some in Hk).
  assert (Hk1 : matches
                  (db (mkWorld
                         (store Matches
                            (<[k := Match.set_notification_sent true m]>
                               (matches (db w))) (db w))
                         (1 + sessions w))) !! k
                = Some (Match.set_notification_sent true m)).
  { destruct w as [[? ? ? ?] ?]. cbn [db matches store Matches] in *.
    now apply list_lookup_insert_eq. }
  split; [destruct w as [[? ? ? ?] ?]; reflexivity|]. split.
  - intros ops now1 now2 result Hres o Hin Hkey.
    destruct (perform_all_notified ops _ k _ Hk1 eq_refl) as (m' & Hm' & Hn').
    destruct (get_matches_with_target_odds_result _ _ _ _ Hres o Hin)
      as (k' & m'' & -> & Hk' & Hn''). simpl in Hkey.
    injection Hkey as ->. congruence.
  - rewrite (mark_match_as_notified_run _ _ _ Hk1).
    destruct w as [[us ss ps ms] n]. cbn [snd db store Matches matches] in *.
    f_equal. rewrite list_insert_insert_eq. reflexivity.
Qed.
End NotifiedFacts.

Lemma persisted_notified_match_stays_out_witness :
  fst (DatabaseService.get_matches_with_target_odds round_exact 0 0
         (snd (DatabaseService.mark_match_as_notified 1 match_world)))
  = Return [].
Proof.
  destruct (persisted_notified_match_stays_out ascii_lower round_exact 0
              target_row match_world eq_refl) as (_ & Hout & _).
  specialize (Hout [] 0 0).
  destruct (fst (DatabaseService.get_matches_with_target_odds round_exact 0 0
                   (perform_all ascii_lower round_exact []
                      (snd (DatabaseService.mark_match_as_notified (row_id 0)
                              match_world))))) as [[|o result]|e] eqn:E.
  - exact E.
  - exfalso. vm_compute in E. discriminate.
  - exfalso. vm_compute in E. discriminate.
Defined.





(** ** Users *)

Lemma detach_first_select {Row : Type} s s' k (p : Z -> Row -> bool) l :
  option_map detach (first (select_from s k p l))
  = option_map detach (first (select_from s' k p l)).
Proof.
  revert k. induction l as [|r l IH]; intros k; [reflexivity|].
  simpl. destruct (p (row_id k) r); [reflexivity | apply IH].
Qed.

Lemma get_user_by_telegram_id_run telegram_id w :
  DatabaseService.get_user_by_telegram_id telegram_id w =
  (Return (option_map detach (first_user telegram_id w)), opened 1 w).
Proof. reflexivity. Qed.

Lemma first_user_opened n telegram_id w :
  option_map detach (first_user telegram_id (opened n w))
  = option_map detach (first_user telegram_id w).
Proof. apply detach_first_select. Qed.

Lemma first_user_loaded telegram_id w o :
  first_user telegram_id w = Some o ->
  exists k u, o = loaded (sessions w) k u
    /\ users (db w) !! k = Some u
    /\ User.telegram_id u = telegram_id
    /\ forall j v, (j < k)%nat -> users (db w) !! j = Some v ->
         User.telegram_id v <> telegram_id.
Proof.
  unfold first_user. rewrite first_select_Some.
  intros (k & u & Hk & Hp & -> & Hmin). exists k, u. simpl in *.
  repeat split; auto; [lia|].
  intros j v Hj Hv. specialize (Hmin j v Hj Hv). simpl in Hmin. lia.
Qed.

Lemma first_user_none telegram_id w :
  first_user telegram_id w = None <->
  forall k u, users (db w) !! k = Some u -> User.telegram_id u <> telegram_id.
Proof.
  unfold first_user. rewrite first_select_None. simpl.
  split; intros H k u Hk; specialize (H k u Hk); lia.
Qed.

Lemma first_user_found telegram_id w k u :
  users (db w) !! k = Some u ->
  User.telegram_id u = telegram_id ->
  (forall j v, (j < k)%nat -> users (db w) !! j = Some v ->
     User.telegram_id v <> telegram_id) ->
  first_user telegram_id w = Some (loaded (sessions w) k u).
Proof.
  intros Hk Hu Hmin. unfold first_user. apply first_select_Some.
  exists k, u. simpl. repeat split; auto; [lia|].
  intros j v Hj Hv. specialize (Hmin j v Hj Hv). lia.
Qed.

Lemma get_or_create_user_found now telegram_id un fn ln w o :
  first_user telegram_id w = Some o ->
  DatabaseService.get_or_create_user now telegram_id un fn ln w =
  (Return (detach o), opened 2 w).
Proof.
  intros H. unfold DatabaseService.get_or_create_user, bind, async_session.
  change (mkWorld (db w) (S (sessions w))) with (opened 1 w).
  rewrite get_user_by_telegram_id_run, first_user_opened, H.
  destruct w as [[us ss ps ms] n]. reflexivity.
Qed.

Lemma get_or_create_user_new now telegram_id un fn ln w :
  first_user telegram_id w = None ->
  let u := User.mk telegram_id un fn ln now 3 in
  DatabaseService.get_or_create_user now telegram_id un fn ln w =
  (Return (mkMapped None (Some (length (users (db w)))) u),
   mkWorld (store Users (users (db w) ++ [u]) (db w)) (2 + sessions w)).
Proof.
  intros H u. unfold DatabaseService.get_or_create_user, bind, async_session.
  change (mkWorld (db w) (S (sessions w))) with (opened 1 w).
  rewrite get_user_by_telegram_id_run, first_user_opened, H.
  destruct w as [[us ss ps ms] n]. unfold_orm. simpl.
  rewrite Nat.eqb_refl. simpl. rewrite Nat.eqb_refl.
  rewrite list_lookup_middle by reflexivity. reflexivity.
Qed.

Lemma select_by_id_unknown {Row : Type} session (l : list Row) (id : Z) :
  (forall k r, l !! k = Some r -> row_id k <> id) ->
  first (select_from session 0 (fun id' _ => id' =? id) l) = None.
Proof.
  intros H. apply first_select_None. intros k r Hk.
  change (0 + k)%nat with k. apply Z.eqb_neq. eauto.
Qed.

Lemma decrement_trial_message_spend k u w :
  users (db w) !! k = Some u ->
  0 < User.trial_messages_left u ->
  DatabaseService.decrement_trial_message (row_id k) w =
  (Return (User.trial_messages_left u - 1),
   mkWorld
     (store Users
        (<[k := User.set_trial_messages_left
                  (User.trial_messages_left u - 1) u]> (users (db w)))
        (db w))
     (1 + sessions w)).
Proof.
  intros Hk Hpos. unfold DatabaseService.decrement_trial_message, bind,
    async_session, select. cbn [rows Users db sessions].
  rewrite (select_by_id _ _ _ _ Hk). cbn [state loaded].
  apply Z.ltb_lt in Hpos. rewrite Hpos.
  destruct w as [[us ss ps ms] n]. unfold_orm. simpl.
  rewrite Nat.eqb_refl. reflexivity.
Qed.

Lemma decrement_trial_message_exhausted k u w :
  users (db w) !! k = Some u ->
  User.trial_messages_left u <= 0 ->
  DatabaseService.decrement_trial_message (row_id k) w =
  (Return 0, opened 1 w).
Proof.
  intros Hk Hle. unfold DatabaseService.decrement_trial_message, bind,
    async_session, select. cbn [rows Users db sessions].
  rewrite (select_by_id _ _ _ _ Hk). cbn [state loaded].
  apply Z.ltb_ge in Hle. rewrite Hle. reflexivity.
Qed.

Lemma decrement_trial_message_unknown user_id w :
  (forall k u, users (db w) !! k = Some u -> row_id k <> user_id) ->
  DatabaseService.decrement_trial_message user_id w = (Return 0, opened 1 w).
Proof.
  intros H. unfold DatabaseService.decrement_trial_message, bind,
    async_session, select. cbn [rows Users db sessions].
  rewrite (select_by_id_unknown _ _ _ H). reflexivity.
Qed.

(** The three cases of [decrement_trial_message], by the rows of [w]. *)
Lemma decrement_trial_message_cases user_id w :
  (exists k u, users (db w) !! k = Some u /\ user_id = row_id k
               /\ 0 < User.trial_messages_left u)
  \/ (exists k u, users (db w) !! k = Some u /\ user_id = row_id k
                  /\ User.trial_messages_left u <= 0)
  \/ (forall k u, users (db w) !! k = Some u -> row_id k <> user_id).
Proof.
  destruct (decide (1 <= user_id <= Z.of_nat (length (users (db w)))))
    as [Hin | Hout].
  - destruct (users (db w) !! Z.to_nat (user_id - 1)) as [u|] eqn:Hk.
    + assert (Hid : user_id = row_id (Z.to_nat (user_id - 1)))
        by (unfold row_id; lia).
      destruct (Z_lt_le_dec 0 (User.trial_messages_left u)).
      * left. eauto.
      * right. left. eauto.
    + apply lookup_ge_None in Hk. lia.
  - right. right. intros k u Hk Hid. apply lookup_lt_Some in Hk.
    unfold row_id in Hid. lia.
Qed.

Section UserFacts.
Variable lower : string -> string.
Variable round : float -> Z -> float.

Lemma perform_users_step o w :
  users_step (users (db w)) (users (db (perform lower round o w))).
Proof.
  destruct o as
    [ tg | now tg un fn ln | uid | now uid | unique_id now tg st amount
    | unique_id | unique_id | now now_query user_id st amount pid
    | now now_query uuid username subscription_type | now_query now username
    | ht aw comp mt o1 ox o2 url | now1 now2 | match_id ];
    try (apply users_same; frame_method; fail).
  - (* get_or_create_user *)
    simpl perform. destruct (first_user tg w) as [o|] eqn:Hf.
    + rewrite (get_or_create_user_found _ _ _ _ _ _ _ Hf). now apply users_same.
    + rewrite (get_or_create_user_new _ _ _ _ _ _ Hf).
      apply users_new with (u := User.mk tg un fn ln now 3);
        [| reflexivity | destruct w as [[? ? ? ?] ?]; reflexivity].
      now apply first_user_none.
  - (* decrement_trial_message *)
    simpl perform.
    destruct (decrement_trial_message_cases uid w)
      as [(k & u & Hk & -> & Hpos) | [(k & u & Hk & -> & Hle) | Hnone]].
    + rewrite (decrement_trial_message_spend _ _ _ Hk Hpos).
      apply users_spent with k u; [assumption | assumption |].
      destruct w as [[? ? ? ?] ?]. reflexivity.
    + rewrite (decrement_trial_message_exhausted _ _ _ Hk Hle).
      now apply users_same.
    + rewrite (decrement_trial_message_unknown _ _ Hnone).
      now apply users_same.
Qed.
End UserFacts.

(** X1.  [get_or_create_user]: when a user with the Telegram id is stored,
    the first such row is returned as it is and the store is unchanged,
    whatever display names are passed; otherwise a row with the given names,
    the clock reading and three trial messages is appended and returned
    with the next id, the other tables are unchanged, the lookup by Telegram
    id finds that row, and a second call returns it without adding one. *)
Theorem get_or_create_user_finds_or_registers
    (now : datetime) (telegram_id : Z)
    (username first_name last_name : option string) (w : World) :
  let result :=
    DatabaseService.get_or_create_user now telegram_id username first_name
      last_name w in
  (forall k u,
     users (db w) !! k = Some u ->
     User.telegram_id u = telegram_id ->
     (forall j v, (j < k)%nat -> users (db w) !! j = Some v ->
        User.telegram_id v <> telegram_id) ->
     fst result = Return (mkMapped None (Some k) u)
     /\ db (snd result) = db w)
  /\ ((forall k u, users (db w) !! k = Some u ->
         User.telegram_id u <> telegram_id) ->
      let u := User.mk telegram_id username first_name last_name now 3 in
      let o := mkMapped None (Some (length (users (db w)))) u in
      fst result = Return o
      /\ DatabaseService.instance_id o
         = Z.of_nat (length (users (db w))) + 1
      /\ users (db (snd result)) = users (db w) ++ [u]
      /\ subscriptions (db (snd result)) = subscriptions (db w)
      /\ payment_links (db (snd result)) = payment_links (db w)
      /\ matches (db (snd result)) = matches (db w)
      /\ fst (DatabaseService.get_user_by_telegram_id telegram_id
                (snd result)) = Return (Some o)
      /\ forall now' username' first_name' last_name',
           let again :=
             DatabaseService.get_or_create_user now' telegram_id username'
               first_name' last_name' (snd result) in
           fst again = Return o /\ db (snd again) = db (snd result)).
Proof.
  intros result. subst result. split.
  - intros k u Hk Hu Hmin.
    rewrite (get_or_create_user_found _ _ _ _ _ _ _
               (first_user_found _ _ _ _ Hk Hu Hmin)).
    split; reflexivity.
  - intros Hnone u o. subst o.
    rewrite (get_or_create_user_new _ _ _ _ _ _
               (proj2 (first_user_none _ _) Hnone)).
    fold u. cbn [fst snd].
    set (w' := mkWorld (store Users (users (db w) ++ [u]) (db w))
                 (2 + sessions w)).
    assert (Hf : first_user telegram_id w'
                 = Some (loaded (sessions w') (length (users (db w))) u)).
    { apply first_user_found.
      - subst w'. destruct w as [[us ss ps ms] n]. cbn [db users store Users].
        now apply list_lookup_middle.
      - reflexivity.
      - intros j v Hj Hv. subst w'. destruct w as [[us ss ps ms] n].
        cbn [db users store Users] in *.
        rewrite lookup_app_l in Hv by assumption. eauto. }
    split; [reflexivity|].
    split; [unfold DatabaseService.instance_id, row_id; cbn [key]; lia|].
    split; [destruct w as [[? ? ? ?] ?]; reflexivity|].
    split; [destruct w as [[? ? ? ?] ?]; reflexivity|].
    split; [destruct w as [[? ? ? ?] ?]; reflexivity|].
    split; [destruct w as [[? ? ? ?] ?]; reflexivity|].
    split.
    + rewrite get_user_by_telegram_id_run, Hf. reflexivity.
    + intros now' un' fn' ln'. cbv zeta.
      rewrite (get_or_create_user_found _ _ _ _ _ _ _ Hf).
      split; reflexivity.
Qed.

(** X3.  [decrement_trial_message]: for a stored user with a positive
    quota it stores the quota less one in that row, changes nothing else and
    returns the new quota; for a user whose quota is 0 or less, and for an
    id that is no row's, it returns 0 and the store is unchanged.  The result
    is never negative.  Called [n] times in a row for a user with a quota of
    [q >= 0] it leaves max(0, q - n). *)
Theorem decrement_trial_message_counts_down
    (lower : string -> string) (round : float -> Z -> float)
    (user_id : Z) (w : World) :
  let result := DatabaseService.decrement_trial_message user_id w in
  (forall k u,
     users (db w) !! k = Some u -> user_id = row_id k ->
     0 < User.trial_messages_left u ->
     fst result = Return (User.trial_messages_left u - 1)
     /\ users (db (snd result))
        = <[k := User.set_trial_messages_left
                   (User.trial_messages_left u - 1) u]> (users (db w))
     /\ subscriptions (db (snd result)) = subscriptions (db w)
     /\ payment_links (db (snd result)) = payment_links (db w)
     /\ matches (db (snd result)) = matches (db w))
  /\ (forall k u,
        users (db w) !! k = Some u -> user_id = row_id k ->
        User.trial_messages_left u <= 0 ->
        fst result = Return 0 /\ db (snd result) = db w)
  /\ (user_id <= 0 \/ Z.of_nat (length (users (db w))) < user_id ->
      fst result = Return 0 /\ db (snd result) = db w)
  /\ (exists remaining, fst result = Return remaining /\ 0 <= remaining)
  /\ (forall k u n,
        users (db w) !! k = Some u -> user_id = row_id k ->
        0 <= User.trial_messages_left u ->
        users
          (db (perform_all lower round
                 (replicate n (DecrementTrialMessage user_id)) w)) !! k
        = Some (User.set_trial_messages_left
                  (Z.max 0 (User.trial_messages_left u - Z.of_nat n)) u)).
Proof.
  intros result. subst result. repeat apply conj.
  - intros k u Hk -> Hpos.
    rewrite (decrement_trial_message_spend _ _ _ Hk Hpos).
    destruct w as [[? ? ? ?] ?]. repeat split.
  - intros k u Hk -> Hle.
    rewrite (decrement_trial_message_exhausted _ _ _ Hk Hle).
    split; reflexivity.
  - intros Hout. rewrite decrement_trial_message_unknown; [split; reflexivity|].
    intros k u Hk Hid. apply lookup_lt_Some in Hk. unfold row_id in Hid. lia.
  - destruct (decrement_trial_message_cases user_id w)
      as [(k & u & Hk & -> & Hpos) | [(k & u & Hk & -> & Hle) | Hnone]].
    + rewrite (decrement_trial_message_spend _ _ _ Hk Hpos).
      eexists. split; [reflexivity | lia].
    + rewrite (decrement_trial_message_exhausted _ _ _ Hk Hle).
      eexists. split; [reflexivity | lia].
    + rewrite (decrement_trial_message_unknown _ _ Hnone).
      eexists. split; [reflexivity | lia].
  - intros k u n Hk -> Hq. revert w u Hk Hq.
    induction n as [|n IH]; intros w u Hk Hq.
    + simpl. rewrite Hk. f_equal. destruct u as [tg un fn ln rd q].
      unfold User.set_trial_messages_left. simpl in *. f_equal. lia.
    + cbn [replicate perform_all fold_left].
      change (fold_left (fun w o => perform lower round o w) ?ops ?w0)
        with (perform_all lower round ops w0).
      cbn [perform].
      destruct (Z_lt_le_dec 0 (User.trial_messages_left u)) as [Hpos | Hle].
      * rewrite (decrement_trial_message_spend _ _ _ Hk Hpos). cbn [snd].
        rewrite (IH _ (User.set_trial_messages_left
                         (User.trial_messages_left u - 1) u)).
        -- f_equal. destruct u as [tg un fn ln rd q].
           unfold User.set_trial_messages_left. simpl in *. f_equal. lia.
        -- destruct w as [[us ss ps ms] m]. cbn [db users store Users] in *.
           apply list_lookup_insert_eq. now apply lookup_lt_Some in Hk.
        -- destruct u. simpl in *. lia.
      * rewrite (decrement_trial_message_exhausted _ _ _ Hk Hle). cbn [snd].
        rewrite (IH _ u); [| exact Hk | exact Hq].
        f_equal. f_equal. lia.
Qed.

(** ** The table of users over a run *)

Lemma same_user_refl u : same_user_less_quota u u.
Proof. unfold same_user_less_quota. repeat split; auto; lia. Qed.

Lemma same_user_trans u v x :
  same_user_less_quota u v -> same_user_less_quota v x ->
  same_user_less_quota u x.
Proof.
  unfold same_user_less_quota.
  intros (? & ? & ? & ? & ? & ? & ?) (? & ? & ? & ? & ? & ? & ?).
  repeat split; try congruence; try lia; auto.
Qed.

Lemma users_step_row l l' k u :
  users_step l l' -> l !! k = Some u ->
  exists u', l' !! k = Some u' /\ same_user_less_quota u u'.
Proof.
  intros Hstep Hk. destruct Hstep as [-> | v Hfresh Hq -> | i v Hi Hpos ->].
  - exists u. split; [assumption | apply same_user_refl].
  - exists u. split; [now apply lookup_app_l_Some | apply same_user_refl].
  - destruct (decide (i = k)) as [-> | Hne].
    + assert (v = u) as -> by congruence.
      eexists. split.
      * apply list_lookup_insert_eq. now apply lookup_lt_Some in Hk.
      * unfold same_user_less_quota. destruct u. simpl in *.
        repeat split; lia.
    + exists u. split; [now rewrite list_lookup_insert_ne
                       | apply same_user_refl].
Qed.

Lemma users_step_length l l' :
  users_step l l' -> (length l <= length l')%nat.
Proof.
  intros [-> | v _ _ -> | i v _ _ ->].
  - lia.
  - rewrite length_app. simpl. lia.
  - rewrite length_insert. lia.
Qed.

Lemma users_step_unique l l' :
  users_step l l' -> unique_telegram_ids l -> unique_telegram_ids l'.
Proof.
  intros Hstep Hu. destruct Hstep as [-> | v Hfresh Hq -> | k v Hk Hpos ->].
  - assumption.
  - intros i j ui uj Hi Hj Heq.
    apply lookup_app_Some in Hi as [Hi | [Hli Hi]];
      apply lookup_app_Some in Hj as [Hj | [Hlj Hj]].
    + now apply (Hu i j ui uj).
    + exfalso. destruct (j - length l)%nat; [|destruct n; discriminate].
      injection Hj as <-. now apply (Hfresh i ui).
    + exfalso. destruct (i - length l)%nat; [|destruct n; discriminate].
      injection Hi as <-. now apply (Hfresh j uj).
    + destruct (i - length l)%nat eqn:Ei; [|destruct n; discriminate].
      destruct (j - length l)%nat eqn:Ej; [|destruct n; discriminate]. lia.
  - assert (Hold : forall i ui,
              <[k := User.set_trial_messages_left
                       (User.trial_messages_left v - 1) v]> l !! i = Some ui ->
              exists ui', l !! i = Some ui'
                /\ User.telegram_id ui' = User.telegram_id ui).
    { intros i ui Hi.
      apply list_lookup_insert_Some in Hi as [(-> & <- & _) | [_ Hi]]; eauto. }
    intros i j ui uj Hi Hj Heq.
    destruct (Hold i ui Hi) as (ui' & Hi' & Hti).
    destruct (Hold j uj Hj) as (uj' & Hj' & Htj).
    apply (Hu i j ui' uj' Hi' Hj'). congruence.
Qed.

Lemma users_step_bounds l l' :
  users_step l l' -> quota_in_bounds l -> quota_in_bounds l'.
Proof.
  intros Hstep Hb. destruct Hstep as [-> | v Hfresh Hq -> | k v Hk Hpos ->].
  - assumption.
  - intros i u Hi. apply lookup_app_Some in Hi as [Hi | [_ Hi]]; [eauto|].
    destruct (i - length l)%nat; [|destruct n; discriminate].
    injection Hi as <-. lia.
  - intros i u Hi.
    apply list_lookup_insert_Some in Hi as [(-> & <- & _) | [_ Hi]]; [|eauto].
    specialize (Hb _ _ Hk). destruct v. simpl in *. lia.
Qed.

Section UserRuns.
Variable lower : string -> string.
Variable round : float -> Z -> float.

Lemma perform_all_users ops w :
  let l := users (db w) in
  let l' := users (db (perform_all lower round ops w)) in
  (length l <= length l')%nat
  /\ (forall k u, l !! k = Some u ->
        exists u', l' !! k = Some u' /\ same_user_less_quota u u')
  /\ (unique_telegram_ids l -> unique_telegram_ids l')
  /\ (quota_in_bounds l -> quota_in_bounds l').
Proof.
  revert w. induction ops as [|o ops IH]; intros w; cbv zeta.
  - simpl. split; [lia|]. split; [|split; auto].
    intros k u Hk. exists u. split; [assumption | apply same_user_refl].
  - cbn [perform_all fold_left].
    change (fold_left (fun w o => perform lower round o w) ops ?w0)
      with (perform_all lower round ops w0).
    pose proof (perform_users_step lower round o w) as Hstep.
    destruct (IH (perform lower round o w)) as (Hlen & Hrow & Huniq & Hbd).
    split; [|split; [|split]].
    + apply users_step_length in Hstep. lia.
    + intros k u Hk.
      destruct (users_step_row _ _ _ _ Hstep Hk) as (u1 & Hk1 & Hs1).
      destruct (Hrow _ _ Hk1) as (u2 & Hk2 & Hs2).
      exists u2. split; [assumption | now apply same_user_trans with u1].
    + intros H. apply Huniq. now apply users_step_unique with (2 := H).
    + intros H. apply Hbd. now apply users_step_bounds with (2 := H).
Qed.
End UserRuns.

(** X2.  The service never stores a second user with a Telegram id: in a
    store whose users have pairwise distinct Telegram ids, they stay distinct
    over every run of calls, and the lookup by the Telegram id of a stored
    user returns exactly that user. *)
Theorem telegram_ids_stay_unique
    (lower : string -> string) (round : float -> Z -> float)
    (ops : list op) (w : World) :
  unique_telegram_ids (users (db w)) ->
  let w' := perform_all lower round ops w in
  unique_telegram_ids (users (db w'))
  /\ forall k u,
       users (db w') !! k = Some u ->
       fst (DatabaseService.get_user_by_telegram_id (User.telegram_id u) w')
       = Return (Some (mkMapped None (Some k) u)).
Proof.
  intros Hu w'.
  assert (Hu' : unique_telegram_ids (users (db w')))
    by (now apply (perform_all_users lower round ops w)).
  split; [exact Hu'|].
  intros k u Hk. rewrite get_user_by_telegram_id_run. cbn [fst].
  rewrite (first_user_found (User.telegram_id u) w' k u Hk eq_refl);
    [reflexivity|].
  intros j v Hj Hv Heq. specialize (Hu' j k v u Hv Hk Heq). lia.
Qed.

(** X4.  Over every run of calls the users stay where they are: no row is
    removed, the row of a user keeps its Telegram id, names and registration
    instant, and its trial quota never rises and never falls below 0; quotas
    between 0 and 3 stay between 0 and 3. *)
Theorem users_only_lose_trial_quota
    (lower : string -> string) (round : float -> Z -> float)
    (ops : list op) (w : World) :
  let l := users (db w) in
  let l' := users (db (perform_all lower round ops w)) in
  (length l <= length l')%nat
  /\ (forall k u, l !! k = Some u ->
        exists u', l' !! k = Some u'
          /\ User.telegram_id u' = User.telegram_id u
          /\ User.username u' = User.username u
          /\ User.first_name u' = User.first_name u
          /\ User.last_name u' = User.last_name u
          /\ User.registration_date u' = User.registration_date u
          /\ User.trial_messages_left u' <= User.trial_messages_left u
          /\ (0 <= User.trial_messages_left u ->
              0 <= User.trial_messages_left u'))
  /\ (quota_in_bounds l -> quota_in_bounds l').
Proof.
  destruct (perform_all_users lower round ops w) as (Hlen & Hrow & _ & Hbd).
  split; [exact Hlen|]. split; [exact Hrow | exact Hbd].
Qed.

(** ** Access *)

Lemma has_active_subscription_run now user_id w :
  DatabaseService.has_active_subscription now user_id w =
  (Return (match active_row user_id now w with
           | Some _ => true
           | None => false
           end), opened 1 w).
Proof. reflexivity. Qed.

Lemma has_active_subscription_spec now user_id w (b : bool) :
  (b = true <->
   exists k s, subscriptions (db w) !! k = Some s
     /\ Subscription.user_id s = user_id
     /\ now <= Subscription.end_date s) ->
  fst (DatabaseService.has_active_subscription now user_id w) = Return b.
Proof.
  intros Hb. rewrite has_active_subscription_run. cbn [fst].
  destruct (active_row user_id now w) as [o|] eqn:Ha.
  - destruct (active_row_opened 0 _ _ w _ Ha) as (k & s & _ & Hk & Hu & He).
    f_equal. symmetry. apply Hb. eauto.
  - f_equal. destruct b; [|reflexivity].
    destruct (proj1 Hb eq_refl) as (k & s & Hk & Hu & He).
    exfalso. exact (proj1 (active_row_none 0 user_id now w) Ha k s Hk Hu He).
Qed.

Lemma has_active_subscription_value now user_id w :
  exists b : bool,
    fst (DatabaseService.has_active_subscription now user_id w) = Return b
    /\ (b = true <->
        exists k s, subscriptions (db w) !! k = Some s
          /\ Subscription.user_id s = user_id
          /\ now <= Subscription.end_date s).
Proof.
  rewrite has_active_subscription_run. cbn [fst].
  destruct (active_row user_id now w) as [o|] eqn:Ha.
  - destruct (active_row_opened 0 _ _ w _ Ha) as (k & s & _ & Hk & Hu & He).
    exists true. split; [reflexivity | split; eauto].
  - exists false. split; [reflexivity|]. split; [discriminate|].
    intros (k & s & Hk & Hu & He). exfalso.
    exact (proj1 (active_row_none 0 user_id now w) Ha k s Hk Hu He).
Qed.

(** X5.  [has_active_subscription] changes no table and always returns;
    it returns [True] exactly when the user has a row that ends at the clock
    reading or later, which is exactly when [get_active_subscription]
    returns a row. *)
Theorem has_active_subscription_agrees
    (now : datetime) (user_id : Z) (w : World) :
  let result := DatabaseService.has_active_subscription now user_id w in
  let active := DatabaseService.get_active_subscription now user_id w in
  db (snd result) = db w
  /\ (fst result = Return true \/ fst result = Return false)
  /\ (fst result = Return true <->
      exists k s, subscriptions (db w) !! k = Some s
        /\ Subscription.user_id s = user_id
        /\ now <= Subscription.end_date s)
  /\ (fst result = Return true <-> exists o, fst active = Return (Some o))
  /\ (fst result = Return false <-> fst active = Return None).
Proof.
  intros result active. subst result active.
  rewrite has_active_subscription_run, get_active_subscription_run.
  cbn [fst snd]. split; [reflexivity|].
  destruct (active_row user_id now w) as [o|] eqn:Ha.
  - destruct (active_row_opened 0 _ _ w _ Ha) as (k & s & _ & Hk & Hu & He).
    split; [now left|]. split; [split; eauto|].
    split; [split; eauto | split; discriminate].
  - pose proof (proj1 (active_row_none 0 user_id now w) Ha) as Hnone.
    split; [now right|]. split.
    + split; [discriminate|]. intros (k & s & Hk & Hu & He).
      exfalso. exact (Hnone k s Hk Hu He).
    + split; [split; [discriminate | intros [o [=]]] | split; reflexivity].
Qed.

Lemma has_active_after_new now_query user_id row l t :
  (forall k s, l !! k = Some s -> Subscription.user_id s = user_id ->
     now_query <= Subscription.end_date s -> False) ->
  Subscription.user_id row = user_id ->
  now_query <= t ->
  (t <=? Subscription.end_date row) = true <->
  exists k s, (l ++ [row]) !! k = Some s
    /\ Subscription.user_id s = user_id
    /\ t <= Subscription.end_date s.
Proof.
  intros Hnone Hrow Ht. split.
  - intros Hle. apply Z.leb_le in Hle. exists (length l), row.
    split; [now apply list_lookup_middle | auto].
  - intros (k & s & Hk & Hu & He). apply Z.leb_le.
    apply lookup_app_Some in Hk as [Hk | [_ Hk]].
    + exfalso. apply (Hnone k s Hk Hu). lia.
    + destruct (k - length l)%nat; [|destruct n; discriminate].
      injection Hk as <-. assumption.
Qed.

Lemma has_active_other_user user_id user_id' row l t :
  Subscription.user_id row = user_id ->
  user_id' <> user_id ->
  (exists k s, (l ++ [row]) !! k = Some s
     /\ Subscription.user_id s = user_id'
     /\ t <= Subscription.end_date s)
  <-> (exists k s, l !! k = Some s
         /\ Subscription.user_id s = user_id'
         /\ t <= Subscription.end_date s).
Proof.
  intros Hrow Hne. split; intros (k & s & Hk & Hu & He).
  - apply lookup_app_Some in Hk as [Hk | [_ Hk]]; [eauto|].
    destruct (k - length l)%nat; [|destruct n; discriminate].
    injection Hk as <-. congruence.
  - exists k, s. split; [now apply lookup_app_l_Some | auto].
Qed.

Lemma has_active_subscription_same_rows now user_id w w' :
  subscriptions (db w') = subscriptions (db w) ->
  fst (DatabaseService.has_active_subscription now user_id w')
  = fst (DatabaseService.has_active_subscription now user_id w).
Proof.
  intros H. rewrite !has_active_subscription_run. cbn [fst].
  unfold active_row. rewrite H.
  pose proof (detach_first_select (sessions w') (sessions w) 0
                (fun _ => active_for user_id now) (subscriptions (db w))) as Hd.
  destruct (first _), (first _); simpl in Hd; congruence.
Qed.

(** X6.  A first purchase gives access for exactly the plan's duration.
    For a user without an unexpired row, [create_subscription] appends one
    row that starts at its clock reading and ends the plan's duration later
    (7, 14 or 31 days; 7 days for any other plan kind), leaves the other
    tables alone and returns the row with [is_renewal = False]; from then on
    [has_active_subscription] is [True] for that user up to the end instant,
    included, and [False] after it, and for every other user it answers as
    before. *)
Theorem first_purchase_gives_exact_access
    (now now_query : datetime) (user_id : Z) (st : string) (amount : float)
    (pid : string) (w : World) :
  (forall k s, subscriptions (db w) !! k = Some s ->
     Subscription.user_id s = user_id ->
     now_query <= Subscription.end_date s -> False) ->
  let result :=
    DatabaseService.create_subscription now now_query user_id st amount pid w
  in
  let row :=
    Subscription.mk user_id now (now + DatabaseService.paid_duration st) st
      amount pid in
  fst result
    = Return (mkMapped None (Some (length (subscriptions (db w)))) row, false)
  /\ subscriptions (db (snd result)) = subscriptions (db w) ++ [row]
  /\ users (db (snd result)) = users (db w)
  /\ payment_links (db (snd result)) = payment_links (db w)
  /\ matches (db (snd result)) = matches (db w)
  /\ (forall t, now_query <= t ->
        fst (DatabaseService.has_active_subscription t user_id (snd result))
        = Return (t <=? now + DatabaseService.paid_duration st))
  /\ (forall t user_id', user_id' <> user_id ->
        fst (DatabaseService.has_active_subscription t user_id' (snd result))
        = fst (DatabaseService.has_active_subscription t user_id' w))
  /\ DatabaseService.paid_duration "week" = timedelta_days 7
  /\ DatabaseService.paid_duration "two_weeks" = timedelta_days 14
  /\ DatabaseService.paid_duration "month" = timedelta_days 31.
Proof.
  intros Hnone result row. subst result.
  rewrite (create_subscription_new _ _ _ _ _ _ _
             (proj2 (active_row_none 1 user_id now_query w) Hnone)).
  fold row. cbn [fst snd].
  set (w' := mkWorld _ _).
  assert (Hrows : subscriptions (db w') = subscriptions (db w) ++ [row])
    by (subst w'; destruct w as [[? ? ? ?] ?]; reflexivity).
  split; [reflexivity|]. split; [exact Hrows|].
  split; [subst w'; destruct w as [[? ? ? ?] ?]; reflexivity|].
  split; [subst w'; destruct w as [[? ? ? ?] ?]; reflexivity|].
  split; [subst w'; destruct w as [[? ? ? ?] ?]; reflexivity|].
  split; [|split; [|repeat split]].
  - intros t Ht. apply has_active_subscription_spec. rewrite Hrows.
    apply (has_active_after_new now_query user_id row _ t Hnone eq_refl Ht).
  - intros t user_id' Hne.
    destruct (has_active_subscription_value t user_id' w) as (b & Hb & Hiff).
    rewrite Hb. apply has_active_subscription_spec. rewrite Hrows.
    now rewrite (has_active_other_user user_id user_id' row _ t eq_refl Hne).
Qed.

(** X7.  A grant by an administrator gives access for exactly the plan's
    duration.  For a stored user without an unexpired row and one of the
    three plan kinds, [admin_create_subscription] appends one row for the
    user that starts at its clock reading and lasts 7, 14 or 30 days, priced
    650, 1300 or 2500, with a payment id that starts with admin_; it returns
    the row, the user's Telegram id and [is_renewal = False], and from then
    on [has_active_subscription] is [True] for the user up to the end
    instant, included, and [False] after it. *)
Theorem admin_grant_gives_exact_access
    (lower : string -> string) (now now_query : datetime)
    (uuid username st : string) (w : World) (k : nat) (u : User.t) :
  found_user lower username w = Some (loaded (sessions w) k u) ->
  st = "week" \/ st = "two_weeks" \/ st = "month" ->
  (forall i s, subscriptions (db w) !! i = Some s ->
     Subscription.user_id s = row_id k ->
     now_query <= Subscription.end_date s -> False) ->
  let result :=
    DatabaseService.admin_create_subscription lower now now_query uuid
      username st w in
  (exists duration price,
     DatabaseService.admin_plan st = Some (duration, price)
     /\ let row :=
          Subscription.mk (row_id k) now (now + duration) st price
            ("admin_" ++ uuid)%string in
        fst result
          = Return (Some (mkMapped None
                            (Some (length (subscriptions (db w)))) row,
                          User.telegram_id u, false))
        /\ subscriptions (db (snd result)) = subscriptions (db w) ++ [row]
        /\ users (db (snd result)) = users (db w)
        /\ payment_links (db (snd result)) = payment_links (db w)
        /\ matches (db (snd result)) = matches (db w)
        /\ forall t, now_query <= t ->
             fst (DatabaseService.has_active_subscription t (row_id k)
                    (snd result))
             = Return (t <=? now + duration))
  /\ DatabaseService.admin_plan "week" = Some (timedelta_days 7, 650%float)
  /\ DatabaseService.admin_plan "two_weeks"
     = Some (timedelta_days 14, 1300%float)
  /\ DatabaseService.admin_plan "month"
     = Some (timedelta_days 30, 2500%float).
Proof.
  intros Hu Hst Hnone result. subst result.
  split; [|repeat split].
  assert (Hplan : exists duration price,
            DatabaseService.admin_plan st = Some (duration, price)).
  { destruct Hst as [-> | [-> | ->]]; eexists; eexists; reflexivity. }
  destruct Hplan as (duration & price & Hplan). exists duration, price.
  split; [exact Hplan|]. intros row.
  rewrite (admin_create_subscription_new lower _ _ _ _ _ _ _ _ _ _ Hu Hplan
             (proj2 (active_row_none 1 (row_id k) now_query w) Hnone)).
  fold row. cbn [fst snd].
  set (w' := mkWorld _ _).
  assert (Hrows : subscriptions (db w') = subscriptions (db w) ++ [row])
    by (subst w'; destruct w as [[? ? ? ?] ?]; reflexivity).
  split; [reflexivity|]. split; [exact Hrows|].
  split; [subst w'; destruct w as [[? ? ? ?] ?]; reflexivity|].
  split; [subst w'; destruct w as [[? ? ? ?] ?]; reflexivity|].
  split; [subst w'; destruct w as [[? ? ? ?] ?]; reflexivity|].
  intros t Ht. apply has_active_subscription_spec. rewrite Hrows.
  apply (has_active_after_new now_query (row_id k) row _ t Hnone eq_refl Ht).
Qed.

(** ** Payment links: creation and lookup *)

Lemma select_from_app {Row : Type} session k (p : Z -> Row -> bool) l1 l2 :
  select_from session k p (l1 ++ l2)
  = select_from session k p l1
    ++ select_from session (k + length l1) p l2.
Proof.
  revert k. induction l1 as [|r l1 IH]; intros k.
  - simpl. now rewrite Nat.add_0_r.
  - simpl. rewrite IH, Nat.add_succ_r.
    destruct (p (row_id k) r); reflexivity.
Qed.

Lemma map_detach_select {Row : Type} s s' k (p : Z -> Row -> bool) l :
  map detach (select_from s k p l) = map detach (select_from s' k p l).
Proof.
  revert k. induction l as [|r l IH]; intros k; [reflexivity|].
  simpl. destruct (p (row_id k) r); simpl; now rewrite IH.
Qed.

Lemma create_payment_link_run unique_id now tg st amount w :
  let row := PaymentLink.mk tg unique_id st amount now false in
  DatabaseService.create_payment_link unique_id now tg st amount w =
  (Return (mkMapped None (Some (length (payment_links (db w)))) row),
   mkWorld (store PaymentLinks (payment_links (db w) ++ [row]) (db w))
     (1 + sessions w)).
Proof.
  intros row. destruct w as [[? ? ? ?] ?].
  unfold DatabaseService.create_payment_link. unfold_orm. simpl.
  rewrite Nat.eqb_refl. simpl. rewrite Nat.eqb_refl.
  rewrite list_lookup_middle by reflexivity. reflexivity.
Qed.

Lemma get_payment_link_run token w :
  DatabaseService.get_payment_link token w =
  (Return (option_map detach (first_link token w)), opened 1 w).
Proof. reflexivity. Qed.

Lemma link_of_None token l :
  link_of token l = None <->
  forall j q, l !! j = Some q -> has_token token q = false.
Proof.
  induction l as [|a l IH]; simpl.
  - split; [intros _ [|j] q H; discriminate | reflexivity].
  - destruct (has_token token a) eqn:Ha.
    + split; [discriminate|]. intros H. specialize (H 0%nat a eq_refl).
      congruence.
    + rewrite IH. split.
      * intros H [|j] q Hq; simpl in Hq; [congruence | eauto].
      * intros H j q Hq. apply (H (S j) q Hq).
Qed.

Lemma first_link_at token w k p :
  payment_links (db w) !! k = Some p ->
  has_token token p = true ->
  (forall j q, (j < k)%nat -> payment_links (db w) !! j = Some q ->
     has_token token q = false) ->
  first_link token w = Some (loaded (sessions w) k p).
Proof.
  intros Hk Hp Hmin. unfold first_link. apply first_select_Some.
  exists k, p. simpl. repeat split; auto.
Qed.

Lemma first_link_same_rows token w w' :
  payment_links (db w') = payment_links (db w) ->
  option_map detach (first_link token w')
  = option_map detach (first_link token w).
Proof.
  intros H. unfold first_link. rewrite H. apply detach_first_select.
Qed.

(** X8.  Payment links, from creation to lookup.  [get_payment_link]
    changes no table and returns [None] exactly when no row carries the
    token.  For a token no row carries, [create_payment_link] appends an
    unsettled row with the token, the user, the plan kind, the amount and
    the clock reading, leaves the other tables alone and returns the row
    with the next id; [get_payment_link] then returns that row for the
    token and answers as before for every other token; and after
    [mark_payment_as_paid] has returned the row, settled,
    [get_payment_link] returns it settled. *)
Theorem payment_link_round_trip
    (unique_id : string) (now : datetime) (telegram_user_id : Z)
    (subscription_type : string) (amount : float) (w : World) :
  let l := payment_links (db w) in
  let result :=
    DatabaseService.create_payment_link unique_id now telegram_user_id
      subscription_type amount w in
  let row :=
    PaymentLink.mk telegram_user_id unique_id subscription_type amount now
      false in
  (forall token,
     db (snd (DatabaseService.get_payment_link token w)) = db w
     /\ (fst (DatabaseService.get_payment_link token w) = Return None
         <-> link_of token l = None))
  /\ (link_of unique_id l = None ->
      fst result = Return (mkMapped None (Some (length l)) row)
      /\ payment_links (db (snd result)) = l ++ [row]
      /\ users (db (snd result)) = users (db w)
      /\ subscriptions (db (snd result)) = subscriptions (db w)
      /\ matches (db (snd result)) = matches (db w)
      /\ fst (DatabaseService.get_payment_link unique_id (snd result))
         = Return (Some (mkMapped None (Some (length l)) row))
      /\ (forall token, token <> unique_id ->
            fst (DatabaseService.get_payment_link token (snd result))
            = fst (DatabaseService.get_payment_link token w))
      /\ let paid :=
           DatabaseService.mark_payment_as_paid unique_id (snd result) in
         fst paid
           = Return (Some (mkMapped None (Some (length l))
                             (PaymentLink.set_paid true row)))
         /\ fst (DatabaseService.get_payment_link unique_id (snd paid))
            = Return (Some (mkMapped None (Some (length l))
                              (PaymentLink.set_paid true row)))).
Proof.
  intros l result row. subst result. split.
  - intros token. rewrite get_payment_link_run. cbn [fst snd].
    split; [reflexivity|]. subst l. rewrite <- first_link_none.
    destruct (first_link token w); simpl; split; congruence.
  - intros Hfresh. rewrite create_payment_link_run. fold row. cbn [fst snd].
    set (w' := mkWorld _ _).
    assert (Hrows : payment_links (db w') = l ++ [row])
      by (subst w' l; destruct w as [[? ? ? ?] ?]; reflexivity).
    assert (Htok : has_token unique_id row = true)
      by (apply String.eqb_refl).
    pose proof (proj1 (link_of_None _ _) Hfresh) as Hnone.
    assert (Hf : first_link unique_id w'
                 = Some (loaded (sessions w') (length l) row)).
    { apply first_link_at; [| exact Htok |].
      - rewrite Hrows. now apply list_lookup_middle.
      - intros j q Hj Hq. rewrite Hrows, lookup_app_l in Hq by assumption.
        eauto. }
    split; [reflexivity|]. split; [exact Hrows|].
    split; [subst w'; destruct w as [[? ? ? ?] ?]; reflexivity|].
    split; [subst w'; destruct w as [[? ? ? ?] ?]; reflexivity|].
    split; [subst w'; destruct w as [[? ? ? ?] ?]; reflexivity|].
    split; [rewrite get_payment_link_run, Hf; reflexivity|].
    split.
    + intros token Hne. rewrite !get_payment_link_run. cbn [fst]. f_equal.
      unfold first_link. rewrite Hrows, select_from_app.
      assert (Hrow : has_token token row = false)
        by (apply String.eqb_neq; simpl; congruence).
      cbn [select_from]. rewrite Hrow, app_nil_r.
      apply detach_first_select.
    + cbv zeta.
      rewrite (mark_payment_as_paid_first _ _ _ _ Hf eq_refl). cbn [fst snd].
      split; [reflexivity|].
      rewrite get_payment_link_run. cbn [fst].
      rewrite (first_link_at unique_id _ (length l)
                 (PaymentLink.set_paid true row)); [reflexivity| | |].
      * cbn [db payment_links store PaymentLinks]. rewrite Hrows.
        apply list_lookup_insert_eq. rewrite length_app. simpl. lia.
      * exact Htok.
      * intros j q Hj Hq. cbn [db payment_links store PaymentLinks] in Hq.
        rewrite Hrows, list_lookup_insert_ne in Hq by lia.
        rewrite lookup_app_l in Hq by assumption. eauto.
Qed.

(** ** Persisted matches: creation and query *)

Lemma add_match_run ht aw comp mt o1 ox o2 url w :
  let m := Match.mk ht aw comp mt o1 ox o2 false url in
  DatabaseService.add_match ht aw comp mt o1 ox o2 url w =
  (Return (mkMapped None (Some (length (matches (db w)))) m),
   mkWorld (store Matches (matches (db w) ++ [m]) (db w)) (1 + sessions w)).
Proof.
  intros m. destruct w as [[? ? ? ?] ?].
  unfold DatabaseService.add_match. unfold_orm. simpl.
  rewrite Nat.eqb_refl. simpl. rewrite Nat.eqb_refl.
  rewrite list_lookup_middle by reflexivity. reflexivity.
Qed.

Lemma get_matches_with_target_odds_run round now1 now2 w :
  DatabaseService.get_matches_with_target_odds round now1 now2 w =
  (Return (map detach
             (select_from (sessions w) 0
                (DatabaseService.target_odds round now1 now2)
                (matches (db w)))),
   opened 1 w).
Proof. reflexivity. Qed.

Lemma mark_match_as_notified_unknown match_id w :
  (forall k m, matches (db w) !! k = Some m -> row_id k <> match_id) ->
  DatabaseService.mark_match_as_notified match_id w = (Return tt, opened 1 w).
Proof.
  intros H. unfold DatabaseService.mark_match_as_notified, bind,
    async_session, select. cbn [rows Matches db sessions].
  rewrite (select_by_id_unknown _ _ _ H). reflexivity.
Qed.

(** X9.  Persisted matches, from creation to query.  [add_match] appends
    the match, not yet notified, leaves the other tables alone and returns
    it with the next id.  [get_matches_with_target_odds] changes no table;
    after the [add_match] it returns what it returned before, in the same
    order, followed by the new match when that one meets the target: odds_1
    rounds to 4.25 or 4.22 at two decimals, odds_2 rounds to 1.225 at
    three, and the kickoff is not before the clock reading.
    [mark_match_as_notified] with an id that is no row's changes
    nothing. *)
Theorem add_match_then_query
    (round : float -> Z -> float)
    (home_team away_team competition : string) (match_time : datetime)
    (odds_1 odds_x odds_2 : float) (match_url : option string) (w : World) :
  let l := matches (db w) in
  let result :=
    DatabaseService.add_match home_team away_team competition match_time
      odds_1 odds_x odds_2 match_url w in
  let m :=
    Match.mk home_team away_team competition match_time odds_1 odds_x odds_2
      false match_url in
  let o := mkMapped None (Some (length l)) m in
  fst result = Return o
  /\ matches (db (snd result)) = l ++ [m]
  /\ users (db (snd result)) = users (db w)
  /\ subscriptions (db (snd result)) = subscriptions (db w)
  /\ payment_links (db (snd result)) = payment_links (db w)
  /\ (forall now1 now2,
        db (snd (DatabaseService.get_matches_with_target_odds round now1 now2
                   w)) = db w)
  /\ (forall now1 now2 before,
        fst (DatabaseService.get_matches_with_target_odds round now1 now2 w)
          = Return before ->
        fst (DatabaseService.get_matches_with_target_odds round now1 now2
               (snd result))
        = Return
            (before ++
             if (((round odds_1 2%Z =? 4.25)%float && (now1 <=? match_time))
                 || ((round odds_1 2%Z =? 4.22)%float
                     && (now2 <=? match_time)))
                && (round odds_2 3%Z =? 1.225)%float
             then [o] else []))
  /\ (forall match_id,
        match_id <= 0 \/ Z.of_nat (length l) < match_id ->
        db (snd (DatabaseService.mark_match_as_notified match_id w)) = db w).
Proof.
  intros l result m o. subst result. rewrite add_match_run. fold m.
  cbn [fst snd]. set (w' := mkWorld _ _).
  assert (Hrows : matches (db w') = l ++ [m])
    by (subst w' l; destruct w as [[? ? ? ?] ?]; reflexivity).
  split; [reflexivity|]. split; [exact Hrows|].
  split; [subst w'; destruct w as [[? ? ? ?] ?]; reflexivity|].
  split; [subst w'; destruct w as [[? ? ? ?] ?]; reflexivity|].
  split; [subst w'; destruct w as [[? ? ? ?] ?]; reflexivity|].
  split; [reflexivity|]. split.
  - intros now1 now2 before. rewrite !get_matches_with_target_odds_run.
    cbn [fst]. intros [= <-]. f_equal.
    rewrite Hrows, select_from_app, map_app. f_equal.
    + apply map_detach_select.
    + cbn [select_from]. unfold DatabaseService.target_odds.
      cbn [Match.odds_1 Match.odds_2 Match.notification_sent Match.match_time
           m negb].
      destruct (round odds_1 2%Z =? 4.25)%float,
        (round odds_1 2%Z =? 4.22)%float,
        (round odds_2 3%Z =? 1.225)%float, (now1 <=? match_time),
        (now2 <=? match_time); reflexivity.
  - intros match_id Hout. rewrite mark_match_as_notified_unknown; [reflexivity|].
    intros k r Hk Hid. apply lookup_lt_Some in Hk. unfold row_id in Hid.
    subst l. lia.
Qed.

(** ** What a call leaves alone *)

Ltac read_only_method :=
  unfold perform,
    DatabaseService.get_user_by_telegram_id,
    DatabaseService.get_payment_link,
    DatabaseService.get_active_subscription,
    DatabaseService.get_matches_with_target_odds;
  match goal with
  | |- db (snd (?m ?w)) = db ?w =>
      revert w; change (keeps (fun d : DB => d) m); keeps_tac
  end.

(** X11.  Every method of the service writes to one table at most: the
    user methods to the users, the subscription methods to the
    subscriptions, the payment-link methods to the payment links and the
    match methods to the matches; the four lookups change nothing.  Whether
    it returns or raises, a call leaves every other table as it was, and it
    opens at least one session. *)
Theorem methods_touch_only_their_table
    (lower : string -> string) (round : float -> Z -> float)
    (o : op) (w : World) :
  let d := db w in
  let d' := db (perform lower round o w) in
  (written o <> Some UsersTable -> users d' = users d)
  /\ (written o <> Some SubscriptionsTable ->
      subscriptions d' = subscriptions d)
  /\ (written o <> Some PaymentLinksTable ->
      payment_links d' = payment_links d)
  /\ (written o <> Some MatchesTable -> matches d' = matches d)
  /\ (written o = None -> d' = d).
Proof.
  cbv zeta.
  destruct o as
    [ tg | now tg un fn ln | uid | now uid | unique_id now tg st amount
    | unique_id | unique_id | now now_query user_id st amount pid
    | now now_query uuid username subscription_type | now_query now username
    | ht aw comp mt o1 ox o2 url | now1 now2 | match_id ];
    (split; [|split; [|split; [|split]]]); cbn [written]; intros H;
    try congruence; try (frame_method; fail); try (read_only_method; fail).
Qed.

(** ** The cache over a run of fetches *)

Lemma api_fetch_net c net :
  let r := FootballApiClient.fetch_matches c net in
  reply (snd r) = reply net
  /\ (requests net <= requests (snd r) <= S (requests net))%nat
  /\ (FootballApiClient.has_key c = false -> snd r = net).
Proof.
  unfold FootballApiClient.fetch_matches.
  destruct (FootballApiClient.has_key c); cbn [negb].
  - destruct (reply net (requests net)) as [|status [data|]];
      [|destruct (negb (status =? 200))..]; simpl;
      (split; [reflexivity | split; [lia | discriminate]]).
  - simpl. split; [reflexivity | split; [lia | reflexivity]].
Qed.

Lemma fetch_matches_cases now s net :
  let r := MatchService.fetch_matches now s net in
  (snd (fst r) = s /\ fst (fst r) = MatchService.cache s)
  \/ (exists data,
        Py.truthy data = true
        /\ MatchService.fresh now s = false
        /\ fst (fst r) = data
        /\ snd (fst r)
           = MatchService.mk (MatchService.api_client s) data (Some now)
               (MatchService.cache_ttl s)).
Proof.
  unfold MatchService.fetch_matches.
  destruct (MatchService.fresh now s) eqn:Hf; [now left|].
  destruct (FootballApiClient.fetch_matches (MatchService.api_client s) net)
    as [data net'].
  destruct (Py.truthy data) eqn:Ht; [|now left].
  right. exists data. auto.
Qed.

Lemma fetch_matches_net now s net :
  let r := MatchService.fetch_matches now s net in
  reply (snd r) = reply net
  /\ (requests net <= requests (snd r) <= S (requests net))%nat
  /\ (FootballApiClient.has_key (MatchService.api_client s) = false ->
      snd r = net)
  /\ (MatchService.fresh now s = true -> snd r = net).
Proof.
  unfold MatchService.fetch_matches.
  destruct (MatchService.fresh now s) eqn:Hf.
  - simpl. repeat split; auto; lia.
  - pose proof (api_fetch_net (MatchService.api_client s) net) as Hn.
    destruct (FootballApiClient.fetch_matches (MatchService.api_client s) net)
      as [data net'].
    cbv zeta in Hn. cbn [snd] in Hn. destruct Hn as (Hr & Hq & Hk).
    destruct (Py.truthy data); simpl;
      (split; [exact Hr | split; [exact Hq | split; [exact Hk|discriminate]]]).
Qed.

Lemma fetch_matches_consistent now s net :
  cache_consistent s ->
  cache_consistent (snd (fst (MatchService.fetch_matches now s net))).
Proof.
  intros Hc.
  destruct (fetch_matches_cases now s net)
    as [[-> _] | (data & Ht & _ & _ & ->)]; [assumption | exact Ht].
Qed.

Lemma cache_consistent_value s :
  cache_consistent s ->
  MatchService.cache s = JArr [] \/ Py.truthy (MatchService.cache s) = true.
Proof.
  unfold cache_consistent. destruct (MatchService.last_update s); auto.
Qed.

Lemma fetch_at_consistent times s net :
  cache_consistent s ->
  let rs := MatchService.fetch_at times s net in
  cache_consistent (snd (fst rs))
  /\ forall r, In r (fst (fst rs)) -> r = JArr [] \/ Py.truthy r = true.
Proof.
  revert s net. induction times as [|now times IH]; intros s net Hc.
  - simpl. split; [assumption | intros r []].
  - cbn [MatchService.fetch_at].
    pose proof (fetch_matches_consistent now s net Hc) as Hc1.
    pose proof (fetch_matches_cases now s net) as Hcase.
    destruct (MatchService.fetch_matches now s net) as [[r1 s1] net1].
    cbn [fst snd] in Hc1, Hcase.
    specialize (IH s1 net1 Hc1).
    destruct (MatchService.fetch_at times s1 net1) as [[rs s2] net2].
    cbv zeta in IH. cbn [fst snd] in IH |- *.
    destruct IH as [Hc2 Hrs]. split; [assumption|].
    intros r [<- | Hin]; [|auto].
    destruct Hcase as [[-> ->] | (data & Ht & _ & -> & _)];
      [now apply cache_consistent_value | now right].
Qed.

(** X12.  What [fetch_matches] returns is what the cache holds after the
    call; the call never changes the client or the TTL, and [last_update]
    is left alone or set to the clock reading.  The cache of a service is
    either the [[]] it starts with, when no fetch ever succeeded, or a
    payload that is true in Python's sense: a cache that holds data is never
    emptied, and every result of a run of fetches on a new service is [[]]
    or such a payload. *)
Theorem cache_holds_what_fetch_returns
    (now : datetime) (s : MatchService.t) (net : Net) :
  let r := MatchService.fetch_matches now s net in
  let s' := snd (fst r) in
  fst (fst r) = MatchService.cache s'
  /\ MatchService.api_client s' = MatchService.api_client s
  /\ MatchService.cache_ttl s' = MatchService.cache_ttl s
  /\ (MatchService.last_update s' = MatchService.last_update s
      \/ MatchService.last_update s' = Some now)
  /\ (Py.truthy (MatchService.cache s) = true ->
      Py.truthy (MatchService.cache s') = true)
  /\ (cache_consistent s ->
      cache_consistent s'
      /\ (fst (fst r) = JArr [] \/ Py.truthy (fst (fst r)) = true))
  /\ (forall times c ttl,
        let rs := MatchService.fetch_at times (MatchService.init c ttl) net in
        cache_consistent (snd (fst rs))
        /\ forall x, In x (fst (fst rs)) ->
             x = JArr [] \/ Py.truthy x = true).
Proof.
  intros r s'. subst r s'.
  destruct (fetch_matches_cases now s net)
    as [[Hs Hr] | (data & Ht & _ & Hr & Hs)]; cbv zeta in *.
  - rewrite Hs, Hr. repeat split; auto.
    + now apply cache_consistent_value.
    + now apply (fetch_at_consistent times (MatchService.init c ttl) net).
    + now apply (fetch_at_consistent times (MatchService.init c ttl) net).
  - rewrite Hs, Hr. repeat split; auto.
    + now apply (fetch_at_consistent times (MatchService.init c ttl) net).
    + now apply (fetch_at_consistent times (MatchService.init c ttl) net).
Qed.

Lemma fetch_at_fresh times s net :
  (forall t, In t times -> MatchService.fresh t s = true) ->
  MatchService.fetch_at times s net
  = (map (fun _ => MatchService.cache s) times, s, net).
Proof.
  induction times as [|now times IH]; intros Hf; [reflexivity|].
  cbn [MatchService.fetch_at].
  rewrite (fetch_matches_fresh now s net (Hf now (or_introl eq_refl))).
  rewrite IH by (intros t Ht; apply Hf; now right). reflexivity.
Qed.

Lemma fetch_at_net times s net :
  let net' := snd (MatchService.fetch_at times s net) in
  reply net' = reply net
  /\ (requests net <= requests net' <= requests net + length times)%nat
  /\ (FootballApiClient.has_key (MatchService.api_client s) = false ->
      net' = net).
Proof.
  revert s net. induction times as [|now times IH]; intros s net.
  - simpl. repeat split; auto; lia.
  - cbn [MatchService.fetch_at].
    pose proof (fetch_matches_net now s net) as H1.
    pose proof (fetch_matches_cases now s net) as Hcase.
    destruct (MatchService.fetch_matches now s net) as [[r1 s1] net1].
    cbv zeta in H1. cbn [fst snd] in H1, Hcase.
    destruct H1 as (Hr1 & Hq1 & Hk1 & _).
    specialize (IH s1 net1).
    destruct (MatchService.fetch_at times s1 net1) as [[rs s2] net2].
    cbv zeta in IH. cbn [fst snd] in IH |- *.
    destruct IH as (Hr2 & Hq2 & Hk2).
    assert (Hc : MatchService.api_client s1 = MatchService.api_client s)
      by (destruct Hcase as [[-> _] | (data & _ & _ & _ & ->)]; reflexivity).
    split; [congruence|]. split; [cbn [length]; lia|].
    intros Hk. rewrite Hk2 by congruence. now apply Hk1.
Qed.

(** X13.  A cache younger than the TTL shields the upstream.  While every
    clock reading of a run of fetches is less than the TTL after
    [last_update], each fetch returns the cache, the service is unchanged
    and no request is made.  In any run each fetch makes one request at
    most, and none at all without an API key. *)
Theorem fresh_cache_makes_no_request
    (times : list datetime) (s : MatchService.t) (net : Net) :
  let net' := snd (MatchService.fetch_at times s net) in
  (forall t0,
     MatchService.last_update s = Some t0 ->
     (forall t, In t times ->
        t - t0 < MatchService.cache_ttl s * microseconds_per_second) ->
     MatchService.fetch_at times s net
     = (map (fun _ => MatchService.cache s) times, s, net))
  /\ (requests net <= requests net' <= requests net + length times)%nat
  /\ reply net' = reply net
  /\ (FootballApiClient.has_key (MatchService.api_client s) = false ->
      net' = net).
Proof.
  intros net'. subst net'. split.
  - intros t0 Hlast Hwin. apply fetch_at_fresh. intros t Ht.
    unfold MatchService.fresh. rewrite Hlast. apply Z.ltb_lt. auto.
  - destruct (fetch_at_net times s net) as (Hr & Hq & Hk).
    split; [exact Hq|]. split; [exact Hr | exact Hk].
Qed.

(** ** The sweep on any payload *)

Section SweepFacts.
Variable fromisoformat : string -> option Py.pydatetime.
Variable float_of_string : string -> option float.

Lemma filter_appended_strings now min_odds max_odds (l : list string) :
  List.filter
    (MatchService.appended fromisoformat float_of_string now min_odds
       max_odds) (map JStr l) = [].
Proof. induction l as [|k l IH]; [reflexivity | exact IH]. Qed.

Lemma chars_strings s : exists l, Py.chars s = map JStr l.
Proof.
  induction s as [|c s [l IH]]; [now exists [] |].
  exists (String c EmptyString :: l). simpl. now rewrite IH.
Qed.

Lemma check_run now_fetch now min_odds max_odds s net :
  MatchService.check_for_matches_with_target_odds fromisoformat
    float_of_string now_fetch now min_odds max_odds s net
  = (match Py.iter (fst (fst (MatchService.fetch_matches now_fetch s net)))
     with
     | Return entries =>
         Return (List.filter
                   (MatchService.appended fromisoformat float_of_string now
                      min_odds max_odds) entries)
     | Raise e => Raise e
     end,
     snd (fst (MatchService.fetch_matches now_fetch s net)),
     snd (MatchService.fetch_matches now_fetch s net)).
Proof.
  unfold MatchService.check_for_matches_with_target_odds.
  destruct (MatchService.fetch_matches now_fetch s net) as [[ms s1] net1].
  cbn [fst snd]. destruct (Py.iter ms); reflexivity.
Qed.
End SweepFacts.

(** X14.  One bad entry never costs the sweep its other entries.
    [check_for_matches_with_target_odds] does to the service and the upstream
    what [fetch_matches] does, and nothing more.  On a snapshot that is a
    list it returns, in the order of the snapshot, the entries its loop body
    appends; an entry on which the body raises is skipped and the entries
    around it are judged as without it.  On a snapshot that is an object or
    a string it returns the empty list; only a snapshot that cannot be
    iterated makes it raise, with [TypeError]. *)
Theorem sweep_skips_bad_entries
    (fromisoformat : string -> option Py.pydatetime)
    (float_of_string : string -> option float)
    (now_fetch now : datetime) (min_odds max_odds : float)
    (s : MatchService.t) (net : Net) :
  let fetched := MatchService.fetch_matches now_fetch s net in
  let snapshot := fst (fst fetched) in
  let result :=
    MatchService.check_for_matches_with_target_odds fromisoformat
      float_of_string now_fetch now min_odds max_odds s net in
  let kept :=
    List.filter
      (MatchService.appended fromisoformat float_of_string now min_odds
         max_odds) in
  snd (fst result) = snd (fst fetched)
  /\ snd result = snd fetched
  /\ (forall entries, snapshot = JArr entries ->
        fst (fst result) = Return (kept entries)
        /\ forall entry, In entry (kept entries) -> In entry entries)
  /\ (forall before bad after e,
        snapshot = JArr (before ++ bad :: after) ->
        MatchService.examine fromisoformat float_of_string now min_odds
          max_odds bad = Raise e ->
        fst (fst result) = Return (kept before ++ kept after))
  /\ (forall kvs, snapshot = JObj kvs -> fst (fst result) = Return [])
  /\ (forall str, snapshot = JStr str -> fst (fst result) = Return [])
  /\ (forall e, fst (fst result) = Raise e ->
        e = TypeError
        /\ (snapshot = JNull \/ (exists b, snapshot = JBool b)
            \/ (exists n, snapshot = JInt n)
            \/ (exists x, snapshot = JFloat x))).
Proof.
  intros fetched snapshot result kept. subst result.
  rewrite check_run. fold fetched. fold snapshot. cbn [fst snd].
  split; [reflexivity|]. split; [reflexivity|]. repeat apply conj.
  - intros entries ->. split; [reflexivity|].
    intros entry Hin. now apply filter_In in Hin.
  - intros before bad after e -> Hbad. cbn [Py.iter]. f_equal.
    subst kept. cbv beta. rewrite List.filter_app. f_equal.
    cbn [List.filter]. unfold MatchService.appended at 1. now rewrite Hbad.
  - intros kvs ->. cbn [Py.iter]. f_equal.
    rewrite <- (map_map fst JStr). apply filter_appended_strings.
  - intros str ->. cbn [Py.iter]. f_equal.
    destruct (chars_strings str) as [l ->]. apply filter_appended_strings.
  - intros e. destruct snapshot as [|b|n|x|str|l|kvs]; cbn [Py.iter];
      intros [=]; subst; split; eauto 6.
Qed.

(** ** Kickoff instants *)

Lemma replace_Z_app s1 s2 :
  Py.replace_Z (s1 ++ s2) = (Py.replace_Z s1 ++ Py.replace_Z s2)%string.
Proof.
  induction s1 as [|c s1 IH]; [reflexivity|].
  simpl. rewrite IH. destruct (Ascii.eqb c "Z"); reflexivity.
Qed.

Lemma replace_Z_lacks s : lacks "Z" (Py.replace_Z s) = true.
Proof.
  induction s as [|c s IH]; [reflexivity|].
  simpl. destruct (Ascii.eqb c "Z") eqn:Hc; simpl; [exact IH|].
  now rewrite Hc, IH.
Qed.

Lemma replace_Z_id s : lacks "Z" s = true -> Py.replace_Z s = s.
Proof.
  induction s as [|c s IH]; [reflexivity|].
  simpl. destruct (Ascii.eqb c "Z"); simpl; [discriminate|].
  intros H. now rewrite IH.
Qed.

(** X15.  An entry whose kickoff reads as a [datetime] with a UTC offset is
    never reported.  The loop body replaces every Z of [commence_time] by
    +00:00 (so a string that ends in Z reaches [fromisoformat] ending in
    +00:00, and no Z is left); when [fromisoformat] returns an aware
    [datetime], the comparison with the naive [utcnow()] raises
    [TypeError], the [except] clause swallows it, and the entry is left out
    of every sweep, whatever its kickoff and its prices. *)
Theorem aware_kickoff_is_skipped
    (fromisoformat : string -> option Py.pydatetime)
    (float_of_string : string -> option float)
    (now : datetime) (min_odds max_odds : float)
    (entry : json) (str : string) (match_time : Py.pydatetime) :
  Py.get "commence_time" JNull entry = Return (JStr str) ->
  str <> "" ->
  fromisoformat (Py.replace_Z str) = Some match_time ->
  Py.aware match_time = true ->
  MatchService.examine fromisoformat float_of_string now min_odds max_odds
    entry = Raise TypeError
  /\ (forall now_fetch s net result s' net',
        MatchService.check_for_matches_with_target_odds fromisoformat
          float_of_string now_fetch now min_odds max_odds s net
        = (Return result, s', net') ->
        ~ In entry result)
  /\ (forall prefix,
        Py.replace_Z (prefix ++ "Z") = (Py.replace_Z prefix ++ "+00:00")%string)
  /\ (forall any, lacks "Z" (Py.replace_Z any) = true)
  /\ (forall any, lacks "Z" any = true -> Py.replace_Z any = any).
Proof.
  intros Hget Hstr Hiso Haware.
  assert (Hex : MatchService.examine fromisoformat float_of_string now
                  min_odds max_odds entry = Raise TypeError).
  { unfold MatchService.examine. rewrite Hget. cbn [Py.truthy].
    apply String.eqb_neq in Hstr. rewrite Hstr. cbn [negb].
    rewrite Hiso. unfold Py.lt_naive. now rewrite Haware. }
  split; [exact Hex|]. split; [|split; [|split]].
  - intros now_fetch s net result s' net'. rewrite check_run.
    destruct (Py.iter _) as [entries|e]; [|discriminate].
    intros [= <- _ _] Hin. apply filter_In in Hin as [_ Ha].
    unfold MatchService.appended in Ha. rewrite Hex in Ha. discriminate.
  - intros prefix. apply replace_Z_app.
  - apply replace_Z_lacks.
  - apply replace_Z_id.
Qed.

(** ** main.py: access and the trial quota *)

Lemma is_user_subscribed_unknown now telegram_id w :
  first_user telegram_id w = None ->
  Main.is_user_subscribed now telegram_id w = (Return false, opened 1 w).
Proof.
  intros H. unfold Main.is_user_subscribed, bind.
  rewrite get_user_by_telegram_id_run, H. reflexivity.
Qed.

Lemma is_user_subscribed_known now telegram_id w k u :
  first_user telegram_id w = Some (loaded (sessions w) k u) ->
  Main.is_user_subscribed now telegram_id w =
  (Return ((match active_row (row_id k) now (opened 1 w) with
            | Some _ => true
            | None => false
            end) || (0 <? User.trial_messages_left u)),
   opened 2 w).
Proof.
  intros H. unfold Main.is_user_subscribed, bind.
  rewrite get_user_by_telegram_id_run, H. cbn [option_map].
  change (DatabaseService.instance_id (detach (loaded (sessions w) k u)))
    with (row_id k).
  rewrite has_active_subscription_run.
  destruct w as [[us ss ps ms] n]. reflexivity.
Qed.

Lemma is_user_subscribed_value now telegram_id w k u :
  first_user telegram_id w = Some (loaded (sessions w) k u) ->
  exists b : bool,
    fst (DatabaseService.has_active_subscription now (row_id k) w) = Return b
    /\ fst (Main.is_user_subscribed now telegram_id w)
       = Return (b || (0 <? User.trial_messages_left u)).
Proof.
  intros H. rewrite (is_user_subscribed_known _ _ _ _ _ H).
  rewrite has_active_subscription_run. cbn [fst].
  exists (match active_row (row_id k) now w with
          | Some _ => true
          | None => false
          end).
  split; [reflexivity|]. do 2 f_equal.
  pose proof (detach_first_select (sessions (opened 1 w)) (sessions w) 0
                (fun _ => active_for (row_id k) now) (subscriptions (db w)))
    as Hd.
  unfold active_row. change (db (opened 1 w)) with (db w).
  destruct (first _), (first _); simpl in Hd; congruence.
Qed.

(** X16.  [is_user_subscribed] changes no table and always returns.  For a
    Telegram id no stored user has it returns [False]; for a stored user it
    returns [True] exactly when the user has trial messages left or a
    subscription row that ends at the clock reading or later. *)
Theorem is_user_subscribed_decides_access
    (now : datetime) (telegram_id : Z) (w : World) :
  let result := Main.is_user_subscribed now telegram_id w in
  db (snd result) = db w
  /\ (fst result = Return true \/ fst result = Return false)
  /\ ((forall k u, users (db w) !! k = Some u ->
         User.telegram_id u <> telegram_id) ->
      fst result = Return false)
  /\ (forall k u,
        users (db w) !! k = Some u ->
        User.telegram_id u = telegram_id ->
        (forall j v, (j < k)%nat -> users (db w) !! j = Some v ->
           User.telegram_id v <> telegram_id) ->
        (fst result = Return true <->
         0 < User.trial_messages_left u
         \/ exists i s, subscriptions (db w) !! i = Some s
              /\ Subscription.user_id s = row_id k
              /\ now <= Subscription.end_date s)).
Proof.
  intros result. subst result.
  destruct (first_user telegram_id w) as [o|] eqn:Hf.
  - destruct (first_user_loaded _ _ _ Hf) as (k & u & -> & Hk & Hu & Hmin).
    destruct (is_user_subscribed_value now _ _ _ _ Hf) as (b & Hb & Hres).
    destruct (has_active_subscription_value now (row_id k) w)
      as (b' & Hb' & Hiff).
    assert (b' = b) as -> by congruence.
    split; [rewrite (is_user_subscribed_known _ _ _ _ _ Hf); reflexivity|].
    rewrite Hres. split; [destruct (b || _); auto|]. split.
    + intros Hnone. exfalso. exact (Hnone k u Hk Hu).
    + intros k' u' Hk' Hu' Hmin'.
      assert (k' = k) as ->.
      { destruct (Nat.lt_trichotomy k' k) as [Hlt | [Heq | Hgt]]; auto.
        - exfalso. exact (Hmin k' u' Hlt Hk' Hu').
        - exfalso. exact (Hmin' k u Hgt Hk Hu). }
      assert (u' = u) as -> by congruence.
      split.
      * intros [= Hor]. apply orb_prop in Hor as [Hs | Ht].
        -- right. now apply Hiff.
        -- left. now apply Z.ltb_lt.
      * intros [Ht | Hs]; f_equal; apply orb_true_iff.
        -- right. now apply Z.ltb_lt.
        -- left. now apply Hiff.
  - rewrite (is_user_subscribed_unknown _ _ _ Hf). cbn [fst snd].
    split; [reflexivity|]. split; [now right|]. split; [reflexivity|].
    intros k u Hk Hu _. exfalso.
    exact (proj1 (first_user_none _ _) Hf k u Hk Hu).
Qed.

Lemma decrement_trial_message_other_row user_id w k u :
  users (db w) !! k = Some u ->
  user_id <> row_id k ->
  let w' := snd (DatabaseService.decrement_trial_message user_id w) in
  users (db w') !! k = Some u
  /\ subscriptions (db w') = subscriptions (db w)
  /\ forall j v', users (db w') !! j = Some v' ->
       exists v, users (db w) !! j = Some v
         /\ User.telegram_id v = User.telegram_id v'.
Proof.
  intros Hk Hne w'. subst w'.
  destruct (decrement_trial_message_cases user_id w)
    as [(i & v & Hi & -> & Hpos) | [(i & v & Hi & -> & Hle) | Hnone]].
  - rewrite (decrement_trial_message_spend _ _ _ Hi Hpos). cbn [snd].
    assert (i <> k) by congruence.
    destruct w as [[us ss ps ms] n]. cbn [db users subscriptions store Users]
      in *.
    split; [now rewrite list_lookup_insert_ne|]. split; [reflexivity|].
    intros j v' Hj.
    apply list_lookup_insert_Some in Hj as [(-> & <- & _) | [_ Hj]]; eauto.
  - rewrite (decrement_trial_message_exhausted _ _ _ Hi Hle). eauto.
  - rewrite (decrement_trial_message_unknown _ _ Hnone). eauto.
Qed.

Lemma decrement_keeps_access now telegram_id w k u :
  first_user telegram_id w = Some (loaded (sessions w) k u) ->
  telegram_id <> row_id k ->
  let w' := snd (Main.decrement_trial_message telegram_id w) in
  first_user telegram_id w' = Some (loaded (sessions w') k u)
  /\ subscriptions (db w') = subscriptions (db w)
  /\ fst (Main.is_user_subscribed now telegram_id w')
     = fst (Main.is_user_subscribed now telegram_id w).
Proof.
  intros Hf Hne w'. subst w'. unfold Main.decrement_trial_message.
  destruct (first_user_loaded _ _ _ Hf) as (k' & u' & Heq & Hk & Hu & Hmin).
  injection Heq as <- <-.
  destruct (decrement_trial_message_other_row telegram_id w k u Hk Hne)
    as (Hk' & Hsub & Hold).
  set (w' := snd (DatabaseService.decrement_trial_message telegram_id w)) in *.
  assert (Hf' : first_user telegram_id w' = Some (loaded (sessions w') k u)).
  { apply first_user_found; [assumption | assumption |].
    intros j v' Hj Hv'. destruct (Hold j v' Hv') as (v & Hv & Htg).
    rewrite <- Htg. exact (Hmin j v Hj Hv). }
  split; [exact Hf'|]. split; [exact Hsub|].
  destruct (is_user_subscribed_value now _ _ _ _ Hf) as (b & Hb & ->).
  destruct (is_user_subscribed_value now _ _ _ _ Hf') as (b' & Hb' & ->).
  rewrite (has_active_subscription_same_rows now (row_id k) w w' Hsub) in Hb'.
  congruence.
Qed.

(** X17.  The trial quota is checked by Telegram id and spent by primary
    key.  [find_matches] hands the same [update.effective_user.id] to
    [is_user_subscribed], which looks the user up by [telegram_id], and to
    [decrement_trial_message], which passes it to [session.get(User, ...)]:
    the row that loses a trial message is the one whose [id] equals the
    Telegram id.  For a user whose [id] differs from the Telegram id the
    row is unchanged by any number of such calls, and [is_user_subscribed]
    answers as before; with trial messages left it stays [True]. *)
Theorem trial_decrement_uses_primary_key
    (now : datetime) (telegram_id : Z) (w : World) (k : nat) (u : User.t) :
  users (db w) !! k = Some u ->
  User.telegram_id u = telegram_id ->
  (forall j v, (j < k)%nat -> users (db w) !! j = Some v ->
     User.telegram_id v <> telegram_id) ->
  telegram_id <> row_id k ->
  let spend := fun w => snd (Main.decrement_trial_message telegram_id w) in
  (forall n,
     users (db (Nat.iter n spend w)) !! k = Some u
     /\ fst (Main.is_user_subscribed now telegram_id (Nat.iter n spend w))
        = fst (Main.is_user_subscribed now telegram_id w))
  /\ (0 < User.trial_messages_left u ->
      forall n,
        fst (Main.is_user_subscribed now telegram_id (Nat.iter n spend w))
        = Return true)
  /\ (forall j v,
        users (db w) !! j = Some v -> telegram_id = row_id j ->
        0 < User.trial_messages_left v ->
        fst (Main.decrement_trial_message telegram_id w)
          = Return (User.trial_messages_left v - 1)
        /\ users (db (spend w)) !! j
           = Some (User.set_trial_messages_left
                     (User.trial_messages_left v - 1) v)).
Proof.
  intros Hk Hu Hmin Hne spend.
  pose proof (first_user_found _ _ _ _ Hk Hu Hmin) as Hf.
  assert (Hiter : forall n,
            first_user telegram_id (Nat.iter n spend w)
              = Some (loaded (sessions (Nat.iter n spend w)) k u)
            /\ fst (Main.is_user_subscribed now telegram_id
                      (Nat.iter n spend w))
               = fst (Main.is_user_subscribed now telegram_id w)).
  { induction n as [|n [IHf IHg]]; [split; [exact Hf | reflexivity]|].
    cbn [Nat.iter nat_rect].
    destruct (decrement_keeps_access now telegram_id _ k u IHf Hne)
      as (Hf' & _ & Hg').
    split; [exact Hf' | etransitivity; [exact Hg' | exact IHg]]. }
  split; [|split].
  - intros n. destruct (Hiter n) as [Hfn Hgn]. split; [|exact Hgn].
    now destruct (first_user_loaded _ _ _ Hfn)
      as (k' & u' & [= <- <-] & Hk' & _).
  - intros Hpos n. destruct (Hiter n) as [_ ->].
    destruct (is_user_subscribed_value now _ _ _ _ Hf) as (b & _ & ->).
    apply Z.ltb_lt in Hpos. rewrite Hpos. now rewrite orb_true_r.
  - intros j v Hj -> Hpos. subst spend. cbv beta.
    unfold Main.decrement_trial_message.
    rewrite (decrement_trial_message_spend _ _ _ Hj Hpos). cbn [fst snd].
    split; [reflexivity|].
    destruct w as [[us ss ps ms] n]. cbn [db users store Users] in *.
    apply list_lookup_insert_eq. now apply lookup_lt_Some in Hj.
Qed.

(** ** main.py: callback payloads *)

Lemma prefix_cons a old c s :
  String.prefix (String a old) (String c s)
  = if Ascii.eqb a c then String.prefix old s else false.
Proof.
  cbn [String.prefix].
  destruct (ascii_dec a c), (Ascii.eqb_spec a c); congruence.
Qed.

Lemma prefix_app old p : String.prefix old (old ++ p) = true.
Proof.
  induction old as [|a old IH]; [now destruct p|].
  change (String a old ++ p)%string with (String a (old ++ p)).
  now rewrite prefix_cons, Ascii.eqb_refl.
Qed.

Lemma replace_from_skip x old new p :
  Str.replace_from (String.length x) old new (x ++ p)
  = Str.replace_from 0 old new p.
Proof. induction x as [|c x IH]; [reflexivity | exact IH]. Qed.

Lemma replace_from_absent old new p :
  Str.occurs old p = false -> Str.replace_from 0 old new p = p.
Proof.
  induction p as [|c p IH]; [reflexivity|].
  cbn [Str.occurs Str.replace_from]. intros H.
  apply orb_false_elim in H as [Hp Ho]. rewrite Hp. now rewrite IH.
Qed.

Lemma replace_prefix_round_trip a old p :
  Str.occurs (String a old) p = false ->
  Str.replace (String a old) "" (String a old ++ p) = p.
Proof.
  intros H. unfold Str.replace.
  change (String a old ++ p)%string with (String a (old ++ p)).
  cbn [Str.replace_from].
  change (String a (old ++ p)) with (String a old ++ p)%string.
  rewrite prefix_app. cbn [String.length Nat.sub].
  rewrite Nat.sub_0_r, replace_from_skip.
  now rewrite replace_from_absent.
Qed.

Lemma hex_lacks_check_payment s :
  all_hex s = true -> Str.occurs "check_payment_" s = false.
Proof.
  induction s as [|c s IH]; [reflexivity|].
  cbn [all_hex Str.occurs]. intros H. apply andb_prop in H as [Hc Hs].
  rewrite (IH Hs), orb_false_r, prefix_cons.
  destruct (Ascii.eqb "c" c); [|reflexivity].
  destruct s as [|d s]; [reflexivity|].
  rewrite prefix_cons.
  destruct (Ascii.eqb_spec "h" d) as [<-|]; [|reflexivity].
  cbn [all_hex] in Hs. apply andb_prop in Hs as [Hh _]. discriminate.
Qed.

Lemma append_cons c s t : (String c s ++ t)%string = String c (s ++ t).
Proof. reflexivity. Qed.

Lemma append_nil t : ("" ++ t)%string = t.
Proof. reflexivity. Qed.

Lemma prefix_nil s : String.prefix "" s = true.
Proof. now destruct s. Qed.

Ltac route :=
  unfold Main.button_click, Str.startswith;
  rewrite ?append_cons, ?append_nil;
  cbn [String.eqb Ascii.eqb Bool.eqb andb];
  rewrite ?prefix_cons;
  cbn [Ascii.eqb Bool.eqb andb String.prefix];
  rewrite ?prefix_nil.

(** X18.  Callback payloads come back as they were sent.  The keyboards
    send check_payment_ followed by the token of a payment link, sub_
    followed by a plan kind and admin_give_ followed by a plan kind;
    [button_click] routes each to the handler that reads it, and the
    handler's [replace] gives back the token or the plan kind: for every
    token made of hexadecimal digits, as [create_payment_link] makes them,
    and for every plan kind in which the prefix does not occur.  The one
    payload that starts with admin_give_ and is not routed to
    [admin_process_give_subscription] is admin_give_sub. *)
Theorem callback_data_round_trip :
  (forall unique_id,
     all_hex unique_id = true ->
     Main.button_click ("check_payment_" ++ unique_id)
       = Some Main.check_payment
     /\ Main.check_payment_unique_id ("check_payment_" ++ unique_id)
        = unique_id)
  /\ (forall sub_type,
        Str.occurs "sub_" sub_type = false ->
        Main.button_click ("sub_" ++ sub_type)
          = Some Main.process_subscription_selection
        /\ Main.selection_sub_type ("sub_" ++ sub_type) = sub_type)
  /\ (forall sub_type,
        Str.occurs "admin_give_" sub_type = false ->
        sub_type <> "sub" ->
        Main.button_click ("admin_give_" ++ sub_type)
          = Some Main.admin_process_give_subscription
        /\ Main.give_sub_type ("admin_give_" ++ sub_type) = sub_type)
  /\ Main.button_click "admin_give_sub" = Some Main.admin_give_subscription
  /\ (forall sub_type,
        In sub_type ["week"; "two_weeks"; "month"] ->
        Str.occurs "sub_" sub_type = false
        /\ Str.occurs "admin_give_" sub_type = false
        /\ sub_type <> "sub").
Proof.
  split; [|split; [|split; [|split]]].
  - intros unique_id Hhex. split; [now route|].
    apply replace_prefix_round_trip. now apply hex_lacks_check_payment.
  - intros sub_type Hocc. split; [now route|].
    now apply replace_prefix_round_trip.
  - intros sub_type Hocc Hne. split; [|now apply replace_prefix_round_trip].
    route. apply String.eqb_neq in Hne. now rewrite Hne.
  - reflexivity.
  - intros sub_type [<- | [<- | [<- | []]]];
      (split; [|split]); (reflexivity || discriminate).
Qed.

(** ** main.py: the prices shown *)

Section DisplayFacts.
Variable fromisoformat : string -> option Py.pydatetime.
Variable float_of_string : string -> option float.

Lemma appended_api_odds now min_odds max_odds match_ :
  MatchService.appended fromisoformat float_of_string now min_odds max_odds
    match_ = true ->
  exists bookmaker market p1 p2,
    MatchService.first_bookmaker match_ = Some bookmaker
    /\ MatchService.h2h_of bookmaker = Some market
    /\ MatchService.price_of float_of_string 0 market = Some p1
    /\ MatchService.price_of float_of_string 1 market = Some p2
    /\ (MatchService.in_range min_odds max_odds p1
        || MatchService.in_range min_odds max_odds p2) = true
    /\ Main.api_odds float_of_string match_
       = Return (p1, ((p1 + p2) / 2)%float, p2).
Proof.
  unfold MatchService.appended, MatchService.examine.
  destruct (Py.get "commence_time" JNull match_) as [ct|e]; [|discriminate].
  destruct (negb (Py.truthy ct)); [discriminate|].
  destruct ct as [|b|n|x|str|l|kvs]; try discriminate.
  destruct (fromisoformat (Py.replace_Z str)) as [dt|]; [|discriminate].
  destruct (Py.lt_naive dt now) as [[|]|e]; try discriminate.
  destruct (Py.get "bookmakers" (JArr []) match_) as [bks|e] eqn:Hbks;
    [|discriminate].
  destruct (negb (Py.truthy bks)) eqn:Htb; [discriminate|].
  destruct (Py.getitem 0 bks) as [bookmaker|e] eqn:Hb; [|discriminate].
  destruct (Py.get "markets" (JArr []) bookmaker) as [mkts|e] eqn:Hm;
    [|discriminate].
  destruct (negb (Py.truthy mkts)); [discriminate|].
  destruct (Py.iter mkts) as [ml|e] eqn:Hml; [|discriminate].
  destruct (MatchService.find_h2h ml) as [[market|]|e] eqn:Hh;
    try discriminate.
  destruct (Py.get "outcomes" (JArr []) market) as [outs|e] eqn:Ho;
    [|discriminate].
  destruct (Py.len outs) as [n|e] eqn:Hn; [|discriminate].
  rewrite Nat.ltb_antisym. destruct (2 <=? n)%nat eqn:H2; [|discriminate].
  cbn [negb].
  destruct (Py.getitem 0 outs) as [o0|e] eqn:Ho0; [|discriminate].
  destruct (Py.get "price" (JInt 0) o0) as [pr0|e] eqn:Hpr0; [|discriminate].
  destruct (MatchService.float_ float_of_string pr0) as [p1|e] eqn:Hp1;
    [|discriminate].
  destruct (Py.getitem 1 outs) as [o1|e] eqn:Ho1; [|discriminate].
  destruct (Py.get "price" (JInt 0) o1) as [pr1|e] eqn:Hpr1; [|discriminate].
  destruct (MatchService.float_ float_of_string pr1) as [p2|e] eqn:Hp2;
    [|discriminate].
  destruct (MatchService.in_range min_odds max_odds p1
            || MatchService.in_range min_odds max_odds p2) eqn:Hr;
    [|discriminate].
  intros _. exists bookmaker, market, p1, p2.
  unfold MatchService.first_bookmaker, MatchService.h2h_of,
    MatchService.market_list, MatchService.price_of, Main.api_odds.
  rewrite Hbks, Htb, Hb, Hm, Hml, Hh, Ho, Hn, H2, Ho0, Hpr0, Hp1, Ho1, Hpr1,
    Hp2.
  repeat split; assumption.
Qed.
End DisplayFacts.

(** X19.  The prices shown are the prices tested.  For every entry a sweep
    returns, the price computation of [send_match_info] returns; its
    [odds_1] and [odds_2] are the prices of the first two outcomes of the
    first h2h market of the first bookmaker, the two prices the filter
    compared with the range, one of them at least within it, and its
    [odds_x] is their mean.  For an entry with an empty list of bookmakers
    the three prices are 0.0. *)
Theorem shown_odds_are_the_tested_ones
    (fromisoformat : string -> option Py.pydatetime)
    (float_of_string : string -> option float)
    (now_fetch now : datetime) (min_odds max_odds : float)
    (s s' : MatchService.t) (net net' : Net) (result : list json) :
  MatchService.check_for_matches_with_target_odds fromisoformat
    float_of_string now_fetch now min_odds max_odds s net
    = (Return result, s', net') ->
  (forall entry, In entry result ->
     exists bookmaker market odds_1 odds_2,
       MatchService.first_bookmaker entry = Some bookmaker
       /\ MatchService.h2h_of bookmaker = Some market
       /\ MatchService.price_of float_of_string 0 market = Some odds_1
       /\ MatchService.price_of float_of_string 1 market = Some odds_2
       /\ (MatchService.in_range min_odds max_odds odds_1
           || MatchService.in_range min_odds max_odds odds_2) = true
       /\ Main.api_odds float_of_string entry
          = Return (odds_1, ((odds_1 + odds_2) / 2)%float, odds_2))
  /\ (forall entry,
        Py.get "bookmakers" (JArr []) entry = Return (JArr []) ->
        Main.api_odds float_of_string entry = Return (0, 0, 0)%float).
Proof.
  rewrite check_run.
  destruct (Py.iter _) as [entries|e]; [|discriminate].
  intros [= <- _ _]. split.
  - intros entry Hin. apply filter_In in Hin as [_ Ha].
    exact (appended_api_odds _ _ _ _ _ _ Ha).
  - intros entry Hb. unfold Main.api_odds. now rewrite Hb.
Qed.

(** ** The small store and the small feed, again *)

Lemma get_or_create_user_finds_or_registers_witness :
  fst (DatabaseService.get_or_create_user (day 1) 1001 (Some "Alicia") None
         None start_world)
    = Return (mkMapped None (Some 0%nat) alice)
  /\ users (db two_user_world) = [alice; bob]
  /\ fst (DatabaseService.get_user_by_telegram_id 2002 two_user_world)
     = Return (Some (mkMapped None (Some 1%nat) bob)).
Proof.
  destruct (get_or_create_user_finds_or_registers (day 1) 1001
              (Some "Alicia") None None start_world) as [Hfound _].
  destruct (get_or_create_user_finds_or_registers (day 1) 2002 (Some "Bob")
              (Some "Bob") None start_world) as [_ Hnew].
  split.
  - apply (Hfound 0%nat alice); [reflexivity | reflexivity |].
    intros j v Hj. lia.
  - destruct Hnew as (_ & _ & Hrows & _ & _ & _ & Hget & _).
    + intros [|k] u Hk; [injection Hk as <-; discriminate | discriminate].
    + split; [exact Hrows | exact Hget].
Defined.

Lemma telegram_ids_stay_unique_witness :
  users (db (perform_all ascii_lower round_exact visits start_world))
    = [alice; User.set_trial_messages_left 2 bob]
  /\ fst (DatabaseService.get_user_by_telegram_id 2002
            (perform_all ascii_lower round_exact visits start_world))
     = Return (Some (mkMapped None (Some 1%nat)
                       (User.set_trial_messages_left 2 bob))).
Proof.
  split; [reflexivity|].
  destruct (telegram_ids_stay_unique ascii_lower round_exact visits
              start_world) as [_ Hget].
  - intros [|i] [|j] ui uj Hi Hj; try discriminate. reflexivity.
  - exact (Hget 1%nat (User.set_trial_messages_left 2 bob) eq_refl).
Defined.

Lemma decrement_trial_message_counts_down_witness :
  fst (DatabaseService.decrement_trial_message 1 start_world) = Return 2
  /\ users
       (db (perform_all ascii_lower round_exact
              (replicate 5 (DecrementTrialMessage 1)) start_world)) !! 0%nat
     = Some (User.set_trial_messages_left 0 alice)
  /\ fst (DatabaseService.decrement_trial_message 7 start_world) = Return 0.
Proof.
  destruct (decrement_trial_message_counts_down ascii_lower round_exact 1
              start_world) as (Hspend & _ & _ & _ & Hrun).
  destruct (decrement_trial_message_counts_down ascii_lower round_exact 7
              start_world) as (_ & _ & Hout & _).
  split; [|split].
  - apply (Hspend 0%nat alice); [reflexivity | reflexivity | reflexivity].
  - apply (Hrun 0%nat alice 5%nat); [reflexivity | reflexivity |].
    vm_compute. discriminate.
  - apply Hout. right. reflexivity.
Defined.

Lemma users_only_lose_trial_quota_witness :
  quota_in_bounds
    (users (db (perform_all ascii_lower round_exact visits start_world))).
Proof.
  apply (users_only_lose_trial_quota ascii_lower round_exact visits
           start_world).
  intros [|k] u Hk; [injection Hk as <-; split; vm_compute; discriminate
                    | discriminate].
Defined.

Lemma has_active_subscription_agrees_witness :
  fst (DatabaseService.has_active_subscription (day 7) 1 week_world)
    = Return true
  /\ fst (DatabaseService.get_active_subscription (day 7 + 1) 1 week_world)
     = Return None.
Proof.
  destruct (has_active_subscription_agrees (day 7) 1 week_world)
    as (_ & _ & Hrow & _).
  destruct (has_active_subscription_agrees (day 7 + 1) 1 week_world)
    as (_ & _ & _ & _ & Hnone).
  split.
  - apply Hrow. exists 0%nat, week_row.
    split; [reflexivity|]. split; [reflexivity | vm_compute; discriminate].
  - apply Hnone. reflexivity.
Defined.

Lemma first_purchase_gives_exact_access_witness :
  let bought :=
    snd (DatabaseService.create_subscription (day 0) (day 0) 1 "month" 2500
           "pay-3" start_world) in
  fst (DatabaseService.has_active_subscription (day 31) 1 bought)
    = Return true
  /\ fst (DatabaseService.has_active_subscription (day 31 + 1) 1 bought)
     = Return false.
Proof.
  destruct (first_purchase_gives_exact_access (day 0) (day 0) 1 "month" 2500
              "pay-3" start_world) as (_ & _ & _ & _ & _ & Hwin & _).
  - intros [|k] s Hk; discriminate.
  - split.
    + apply (Hwin (day 31)). vm_compute. discriminate.
    + apply (Hwin (day 31 + 1)). vm_compute. discriminate.
Defined.

Lemma admin_grant_gives_exact_access_witness :
  let granted :=
    snd (DatabaseService.admin_create_subscription ascii_lower (day 0) (day 0)
           "0123456789" "ALICE" "month" start_world) in
  subscriptions (db granted)
    = [Subscription.mk 1 (day 0) (day 30) "month" 2500 "admin_0123456789"]
  /\ fst (DatabaseService.has_active_subscription (day 30) 1 granted)
     = Return true
  /\ fst (DatabaseService.has_active_subscription (day 30 + 1) 1 granted)
     = Return false.
Proof.
  destruct (admin_grant_gives_exact_access ascii_lower (day 0) (day 0)
              "0123456789" "ALICE" "month" start_world 0 alice)
    as [(duration & price & Hplan & Hrun) _].
  - reflexivity.
  - right. right. reflexivity.
  - intros [|k] s Hk; discriminate.
  - injection Hplan as <- <-. cbv zeta in Hrun.
    destruct Hrun as (_ & Hrows & _ & _ & _ & Hwin).
    split; [exact Hrows|]. split.
    + apply (Hwin (day 30)). vm_compute. discriminate.
    + apply (Hwin (day 30 + 1)). vm_compute. discriminate.
Defined.

Lemma payment_link_round_trip_witness :
  fst (DatabaseService.get_payment_link "a1b2c3d4e5" start_world)
    = Return None
  /\ fst (DatabaseService.get_payment_link "a1b2c3d4e5" link_world)
     = Return (Some (mkMapped None (Some 0%nat) link_row))
  /\ fst (DatabaseService.get_payment_link "a1b2c3d4e5"
            (snd (DatabaseService.mark_payment_as_paid "a1b2c3d4e5"
                    link_world)))
     = Return (Some (mkMapped None (Some 0%nat)
                       (PaymentLink.set_paid true link_row))).
Proof.
  destruct (payment_link_round_trip "a1b2c3d4e5" (day 0) 1001 "week" 650
              start_world) as [Hget Hnew].
  split; [apply (Hget "a1b2c3d4e5"); reflexivity|].
  destruct (Hnew eq_refl) as (_ & _ & _ & _ & _ & Hfound & _ & Hpaid).
  split; [exact Hfound | exact (proj2 Hpaid)].
Defined.

Lemma add_match_then_query_witness :
  fst (DatabaseService.get_matches_with_target_odds round_exact 0 0
         start_world) = Return []
  /\ fst (DatabaseService.get_matches_with_target_odds round_exact 0 0
            (snd (DatabaseService.add_match "Home" "Away" "EPL" kickoff 4.25
                    3.5 1.225 None start_world)))
     = Return [mkMapped None (Some 0%nat) target_row].
Proof.
  split; [reflexivity|].
  destruct (add_match_then_query round_exact "Home" "Away" "EPL" kickoff 4.25
              3.5 1.225 None start_world)
    as (_ & _ & _ & _ & _ & _ & Hquery & _).
  exact (Hquery 0 0 [] eq_refl).
Defined.

Lemma methods_touch_only_their_table_witness :
  users (db (perform ascii_lower round_exact
               (CreateSubscription (day 0) (day 0) 1 "week" 650 "pay-1")
               start_world)) = [alice]
  /\ db (perform ascii_lower round_exact (GetActiveSubscription (day 0) 1)
           week_world) = db week_world.
Proof.
  split.
  - apply (methods_touch_only_their_table ascii_lower round_exact
             (CreateSubscription (day 0) (day 0) 1 "week" 650 "pay-1")
             start_world). discriminate.
  - apply (methods_touch_only_their_table ascii_lower round_exact
             (GetActiveSubscription (day 0) 1) week_world). reflexivity.
Defined.

Lemma cache_holds_what_fetch_returns_witness :
  cache_consistent
    (snd (fst (MatchService.fetch_matches (seconds 1000) warm_service
                 (always (Response 200 (Some (JArr []))))))).
Proof.
  apply (cache_holds_what_fetch_returns (seconds 1000) warm_service
           (always (Response 200 (Some (JArr []))))).
  reflexivity.
Defined.

Lemma fresh_cache_makes_no_request_witness :
  MatchService.fetch_at [seconds 1; seconds 300; seconds 599] warm_service
    (always (Response 200 (Some (JArr [entry_elsewhere]))))
  = ([JArr [entry_in_range]; JArr [entry_in_range]; JArr [entry_in_range]],
     warm_service, always (Response 200 (Some (JArr [entry_elsewhere])))).
Proof.
  apply (proj1 (fresh_cache_makes_no_request
                  [seconds 1; seconds 300; seconds 599] warm_service
                  (always (Response 200 (Some (JArr [entry_elsewhere])))))
           0 eq_refl).
  intros t [<- | [<- | [<- | []]]]; reflexivity.
Defined.

Lemma sweep_skips_bad_entries_witness :
  fst (fst (sweep noisy_service)) = Return [entry_in_range; entry_in_range].
Proof.
  destruct (sweep_skips_bad_entries iso_kickoff no_float_strings (seconds 10)
              (seconds 10) MatchService.default_min_odds
              MatchService.default_max_odds noisy_service
              (always RequestFailed)) as (_ & _ & _ & Hbad & _).
  exact (Hbad [entry_in_range] (JInt 5) [entry_in_range] AttributeError
           eq_refl eq_refl).
Defined.

Lemma aware_kickoff_is_skipped_witness :
  MatchService.examine iso_kickoff no_float_strings (seconds 10)
    MatchService.default_min_odds MatchService.default_max_odds entry_zulu
    = Raise TypeError
  /\ MatchService.examine iso_kickoff no_float_strings (seconds 10)
       MatchService.default_min_odds MatchService.default_max_odds
       entry_in_range
     = Return true.
Proof.
  split; [|reflexivity].
  apply (aware_kickoff_is_skipped iso_kickoff no_float_strings (seconds 10)
           MatchService.default_min_odds MatchService.default_max_odds
           entry_zulu "2030-01-01T18:00:00Z" (Py.mkdt kickoff true));
    [reflexivity | discriminate | reflexivity | reflexivity].
Defined.

Lemma is_user_subscribed_decides_access_witness :
  fst (Main.is_user_subscribed (day 1) 1001 start_world) = Return true
  /\ fst (Main.is_user_subscribed (day 1) 1 start_world) = Return false.
Proof.
  destruct (is_user_subscribed_decides_access (day 1) 1001 start_world)
    as (_ & _ & _ & Hknown).
  destruct (is_user_subscribed_decides_access (day 1) 1 start_world)
    as (_ & _ & Hunknown & _).
  split.
  - apply (Hknown 0%nat alice); [reflexivity | reflexivity | |].
    + intros j v Hj. lia.
    + left. reflexivity.
  - apply Hunknown.
    intros [|k] u Hk; [injection Hk as <-; discriminate | discriminate].
Defined.

Lemma trial_decrement_uses_primary_key_witness :
  users
    (db (Nat.iter 5
           (fun w => snd (Main.decrement_trial_message 1001 w))
           start_world)) !! 0%nat = Some alice
  /\ fst (Main.is_user_subscribed (day 1) 1001
            (Nat.iter 5
               (fun w => snd (Main.decrement_trial_message 1001 w))
               start_world)) = Return true.
Proof.
  destruct (trial_decrement_uses_primary_key (day 1) 1001 start_world 0 alice)
    as (Hsame & Haccess & _).
  - reflexivity.
  - reflexivity.
  - intros j v Hj. lia.
  - discriminate.
  - split; [exact (proj1 (Hsame 5%nat)) | apply (Haccess eq_refl 5%nat)].
Defined.

Lemma callback_data_round_trip_witness :
  Main.button_click "check_payment_a1b2c3d4e5" = Some Main.check_payment
  /\ Main.check_payment_unique_id "check_payment_a1b2c3d4e5" = "a1b2c3d4e5"
  /\ Main.selection_sub_type "sub_two_weeks" = "two_weeks"
  /\ Main.give_sub_type "admin_give_month" = "month".
Proof.
  destruct callback_data_round_trip as (Hcheck & Hsub & Hgive & _ & Hplans).
  destruct (Hcheck "a1b2c3d4e5" eq_refl) as [Hroute Htoken].
  split; [exact Hroute|]. split; [exact Htoken|]. split.
  - exact (proj2 (Hsub "two_weeks" eq_refl)).
  - exact (proj2 (Hgive "month" eq_refl ltac:(discriminate))).
Defined.

Lemma shown_odds_are_the_tested_ones_witness :
  Main.api_odds no_float_strings entry_in_range
  = Return (2.1, ((2.1 + 3.4) / 2), 3.4)%float.
Proof.
  destruct (shown_odds_are_the_tested_ones iso_kickoff no_float_strings
              (seconds 10) (seconds 10) MatchService.default_min_odds
              MatchService.default_max_odds two_entry_service
              two_entry_service (always RequestFailed) (always RequestFailed)
              [entry_in_range] eq_refl) as [Hshown _].
  destruct (Hshown entry_in_range (or_introl eq_refl))
    as (b & mk & p1 & p2 & Hb & Hm & H1 & H2 & _ & Hodds).
  injection Hb as <-. injection Hm as <-.
  injection H1 as <-. injection H2 as <-. exact Hodds.
Defined.

(** ** Nothing is deleted *)

Lemma ledger_step_row o l l' k s :
  ledger_step o l l' -> l !! k = Some s ->
  exists s', l' !! k = Some s'
    /\ Subscription.user_id s' = Subscription.user_id s
    /\ Subscription.start_date s' = Subscription.start_date s.
Proof.
  intros Hstep Hk.
  destruct Hstep as [-> | r nq _ _ -> | i r nq t _ Hi _ ->].
  - eauto.
  - exists s. split; [now apply lookup_app_l_Some | auto].
  - destruct (decide (i = k)) as [-> | Hne].
    + assert (r = s) as -> by congruence.
      exists (Subscription.set_end_date t s). split; [|auto].
      apply list_lookup_insert_eq. now apply lookup_lt_Some in Hk.
    + exists s. split; [now rewrite list_lookup_insert_ne | auto].
Qed.

Lemma ledger_step_length o l l' :
  ledger_step o l l' -> (length l <= length l')%nat.
Proof.
  intros [-> | r nq _ _ -> | i r nq t _ _ _ ->].
  - lia.
  - rewrite length_app. simpl. lia.
  - rewrite length_insert. lia.
Qed.

Lemma links_step_length l l' : links_step l l' -> (length l <= length l')%nat.
Proof.
  intros [-> | p -> | i p _ ->].
  - lia.
  - rewrite length_app. simpl. lia.
  - rewrite length_insert. lia.
Qed.

Lemma matches_step_row l l' k m :
  matches_step l l' -> l !! k = Some m ->
  l' !! k = Some m \/ l' !! k = Some (Match.set_notification_sent true m).
Proof.
  intros Hstep Hk. destruct Hstep as [-> | q -> | i q Hi ->].
  - now left.
  - left. now apply lookup_app_l_Some.
  - destruct (decide (i = k)) as [-> | Hne].
    + right. assert (q = m) as -> by congruence.
      apply list_lookup_insert_eq. now apply lookup_lt_Some in Hk.
    + left. now rewrite list_lookup_insert_ne.
Qed.

Lemma matches_step_length l l' :
  matches_step l l' -> (length l <= length l')%nat.
Proof.
  intros [-> | p -> | i p _ ->].
  - lia.
  - rewrite length_app. simpl. lia.
  - rewrite length_insert. lia.
Qed.

Section StoredRows.
Variable lower : string -> string.
Variable round : float -> Z -> float.

Lemma perform_all_rows ops w :
  let d := db w in
  let d' := db (perform_all lower round ops w) in
  ((length (subscriptions d) <= length (subscriptions d'))%nat
   /\ (length (payment_links d) <= length (payment_links d'))%nat
   /\ (length (matches d) <= length (matches d'))%nat)
  /\ (forall k s, subscriptions d !! k = Some s ->
        exists s', subscriptions d' !! k = Some s'
          /\ Subscription.user_id s' = Subscription.user_id s
          /\ Subscription.start_date s' = Subscription.start_date s)
  /\ (forall k m, matches d !! k = Some m ->
        matches d' !! k = Some m
        \/ matches d' !! k = Some (Match.set_notification_sent true m)).
Proof.
  revert w. induction ops as [|o ops IH]; intros w; cbv zeta.
  - simpl. split; [lia|]. split; eauto.
  - cbn [perform_all fold_left].
    change (fold_left (fun w o => perform lower round o w) ops ?w0)
      with (perform_all lower round ops w0).
    pose proof (perform_ledger_step lower round o w) as Hs.
    pose proof (perform_links_step lower round o w) as Hl.
    pose proof (perform_matches_step lower round o w) as Hm.
    destruct (IH (perform lower round o w)) as ((Ls & Ll & Lm) & Hrow & Hmat).
    split; [|split].
    + apply ledger_step_length in Hs. apply links_step_length in Hl.
      apply matches_step_length in Hm. lia.
    + intros k s Hk.
      destruct (ledger_step_row _ _ _ _ _ Hs Hk) as (s1 & Hk1 & Hu1 & Hd1).
      destruct (Hrow _ _ Hk1) as (s2 & Hk2 & Hu2 & Hd2).
      exists s2. split; [assumption | split; congruence].
    + intros k m Hk.
      destruct (matches_step_row _ _ _ _ Hm Hk) as [Hk1 | Hk1];
        destruct (Hmat _ _ Hk1) as [Hk2 | Hk2]; auto.
Qed.
End StoredRows.

(** X20.  The service deletes nothing.  Over every run of calls no table
    gets shorter and every stored row stays at its id: a subscription keeps
    its user and its start instant; a payment link keeps everything but
    [paid], which is never reset; a match keeps everything but
    [notification_sent], which is never reset. *)
Theorem stored_rows_are_never_deleted
    (lower : string -> string) (round : float -> Z -> float)
    (ops : list op) (w : World) :
  let d := db w in
  let d' := db (perform_all lower round ops w) in
  ((length (users d) <= length (users d'))%nat
   /\ (length (subscriptions d) <= length (subscriptions d'))%nat
   /\ (length (payment_links d) <= length (payment_links d'))%nat
   /\ (length (matches d) <= length (matches d'))%nat)
  /\ (forall k s, subscriptions d !! k = Some s ->
        exists s', subscriptions d' !! k = Some s'
          /\ Subscription.user_id s' = Subscription.user_id s
          /\ Subscription.start_date s' = Subscription.start_date s)
  /\ (forall k p, payment_links d !! k = Some p ->
        payment_links d' !! k = Some p
        \/ payment_links d' !! k = Some (PaymentLink.set_paid true p))
  /\ (forall k m, matches d !! k = Some m ->
        matches d' !! k = Some m
        \/ matches d' !! k = Some (Match.set_notification_sent true m)).
Proof.
  cbv zeta.
  destruct (perform_all_rows lower round ops w)
    as ((Ls & Ll & Lm) & Hrow & Hmat).
  destruct (perform_all_users lower round ops w) as (Lu & _).
  split; [repeat split; assumption|]. split; [exact Hrow|].
  split; [|exact Hmat].
  apply (perform_all_links lower round ops w).
Qed.

Lemma stored_rows_are_never_deleted_witness :
  payment_links
    (db (perform_all ascii_lower round_exact
           [ MarkPaymentAsPaid "a1b2c3d4e5";
             CreatePaymentLink "0f0f0f0f0f" (day 1) 2002 "month" 2500;
             MarkPaymentAsPaid "a1b2c3d4e5" ]
           link_world)) !! 0%nat
  = Some (PaymentLink.set_paid true link_row).
Proof.
  destruct (stored_rows_are_never_deleted ascii_lower round_exact
              [ MarkPaymentAsPaid "a1b2c3d4e5";
                CreatePaymentLink "0f0f0f0f0f" (day 1) 2002 "month" 2500;
                MarkPaymentAsPaid "a1b2c3d4e5" ]
              link_world) as (_ & _ & Hlinks & _).
  destruct (Hlinks 0%nat link_row eq_refl) as [H | H];
    [vm_compute in H; discriminate | exact H].
Defined.
